(** * A-shares MCP server: a shallow embedding of the fund-flow screening tool

    The development follows the Python sources
      - [app/utils/stock_code_util.py]            ([format_stock_code], [get_stock_market])
      - [app/tools/large_fund_flow_analysis_tool.py] ([analyze_large_fund_flow])

    Conventions.
      - A Python [float] is a binary64 value: Rocq's primitive [float].
        [a >= b] is [b <=? a], [a > b] is [b <? a]; every comparison with
        NaN is [false], as in Python and pandas.
      - A Python [int] is a [Z].
      - A Python [str] over code points below 256 is a [string], one [ascii]
        per code point.  Message and column-name literals are kept as the
        bytes of the source file; they are only ever compared for equality.
      - A raised exception is a value [Raise e]; [try/except] is a match.
      - A pandas DataFrame is a list of typed rows together with the list of
        its column labels; reading a column whose label is absent raises
        [KeyError].  A table as the data source returns it carries no label
        twice; a label can come twice only through the rename of step 4, and
        a merge renames a label that both of its sides carry.
      - An argument that is passed is validated to its annotation before the
        body runs (a threshold arrives as a [float]); an argument that is
        omitted arrives as the default of its [Field], as that is written.
      - What pandas, numpy and the Python formatter compute (the default
        sort of [sort_values], [round], float formatting, ...) is not part of
        the repository: it is a record of functions, [pylib], with the
        documented contract stated separately.
      - [_throttle_request] only sleeps before a request; the requests are
        recorded in the order they are sent, the pauses are not modelled. *)

From Stdlib Require Import ZArith List String Ascii Bool Floats Lia.
From Stdlib Require Import Permutation Sorted DecimalString DecimalZ.
From stdpp Require Import gmap strings.
Import ListNotations.

Local Open Scope Z_scope.
Local Open Scope string_scope.
Local Open Scope list_scope.

(* ===================================================================== *)
(** * Part I: the model *)
(* ===================================================================== *)

(** ** Python exceptions and results *)

Inductive exn : Type :=
| Exn (cls : string) (msg : string).

(** [str(e)] *)
Definition exn_str (e : exn) : string :=
  match e with Exn _ msg => msg end.

Inductive res (A : Type) : Type :=
| Ok (a : A)
| Raise (e : exn).
Arguments Ok {A} a.
Arguments Raise {A} e.

Definition res_bind {A B} (m : res A) (k : A -> res B) : res B :=
  match m with
  | Ok a => k a
  | Raise e => Raise e
  end.

Definition is_ok {A} (m : res A) : bool :=
  match m with Ok _ => true | Raise _ => false end.

(** ** Python string primitives *)

Module Py.

(** [c in s] for a one-character [c] *)
Fixpoint contains (c : ascii) (s : string) : bool :=
  match s with
  | EmptyString => false
  | String a t => Ascii.eqb a c || contains c t
  end.

(** [s.split(c)[0]]: the text before the first [c] (all of [s] when there is none) *)
Fixpoint split_first (c : ascii) (s : string) : string :=
  match s with
  | EmptyString => EmptyString
  | String a t => if Ascii.eqb a c then EmptyString else String a (split_first c t)
  end.

(** [s[-n:]] for [n > 0] *)
Definition last_chars (n : nat) (s : string) : string :=
  substring (String.length s - n) n s.

(** [s[:n]] *)
Definition first_chars (n : nat) (s : string) : string :=
  substring 0 n s.

(** [ch.isdigit()] on code points below 256: the ASCII digits and the
    superscripts U+00B2, U+00B3, U+00B9. *)
Definition char_isdigit (a : ascii) : bool :=
  let n := nat_of_ascii a in
  ((48 <=? n)%nat && (n <=? 57)%nat) || (n =? 178)%nat || (n =? 179)%nat || (n =? 185)%nat.

Fixpoint all_chars (p : ascii -> bool) (s : string) : bool :=
  match s with
  | EmptyString => true
  | String a t => p a && all_chars p t
  end.

(** [s.isdigit()]: false on the empty string *)
Definition isdigit (s : string) : bool :=
  match s with
  | EmptyString => false
  | _ => all_chars char_isdigit s
  end.

(** [x in l] for a list of strings *)
Definition str_in (x : string) (l : list string) : bool :=
  existsb (String.eqb x) l.

(** [str(n)] for an [int] *)
Definition str_int (z : Z) : string :=
  NilEmpty.string_of_int (Z.to_int z).

(** [list(dict.fromkeys(l))]: duplicates removed, first occurrences kept in order *)
Fixpoint dict_fromkeys (l : list string) : list string :=
  match l with
  | [] => []
  | x :: t => x :: List.filter (fun y => negb (String.eqb x y)) (dict_fromkeys t)
  end.

End Py.

(** ** [app/utils/stock_code_util.py] *)

Definition format_stock_code (symbol : string) : string :=
  let symbol :=
    if (6 <? String.length symbol)%nat then Py.last_chars 6 symbol else symbol in
  let symbol :=
    if Py.contains "." symbol then Py.split_first "." symbol else symbol in
  symbol.

(** The function has no [return] after the last [elif]: for any other prefix
    it falls off the end and yields Python's [None], here [Ok None]. *)
Definition get_stock_market (symbol : string) : res (option string) :=
  if negb ((String.length symbol =? 6)%nat && Py.isdigit symbol) then
    Raise (Exn "ValueError" "股票代码必须为6位数字字符串")
  else
    let prefix := Py.first_chars 2 symbol in
    if Py.str_in prefix ["60"; "68"] then Ok (Some "sh")
    else if Py.str_in prefix ["00"; "30"; "002"] then Ok (Some "sz")
    else if Py.str_in prefix ["43"; "83"; "87"; "88"] then Ok (Some "bj")
    else Ok None.

(** The value the docstring of [get_stock_market] names for an unknown market. *)
Definition unknown_market : string := "未知市场".

(** ** Reporting quarters to probe (tool, lines 232-271) *)

(** [f"{year}{n}"] for a quarter number given as its digit *)
Definition quarter_id (year : Z) (digit : string) : string :=
  Py.str_int year +:+ digit.

Definition quarters_to_try (current_year current_month : Z) : list string :=
  let q := [] in
  let q := if (4 <=? current_month)%Z
           then q ++ [Py.str_int current_year +:+ "1"] else q in
  let q := if (8 <=? current_month)%Z
           then (Py.str_int current_year +:+ "2") :: q else q in
  let q := if (10 <=? current_month)%Z
           then (Py.str_int current_year +:+ "3") :: q else q in
  let q := q ++ [Py.str_int (current_year - 1) +:+ "4"] in
  let q := if (current_month <=? 4)%Z
           then (Py.str_int current_year +:+ "1") :: q else q in
  let q := q ++ [Py.str_int (current_year - 1) +:+ "3";
                 Py.str_int (current_year - 1) +:+ "2";
                 Py.str_int (current_year - 1) +:+ "1"] in
  Py.dict_fromkeys q.

(** ** Python numbers, values and dictionaries *)

Module PyNum.
(** Python's comparison operators on floats *)
Definition ge (a b : float) : bool := PrimFloat.leb b a.   (* a >= b *)
Definition gt (a b : float) : bool := PrimFloat.ltb b a.   (* a >  b *)
Definition lt (a b : float) : bool := PrimFloat.ltb a b.   (* a <  b *)
Definition feq (a b : float) : bool := PrimFloat.eqb a b.  (* a == b *)
Definition isnan (a : float) : bool := negb (PrimFloat.eqb a a).

(** [f"{z:+d}"] *)
Definition fmt_signed_int (z : Z) : string :=
  if (z <? 0)%Z then Py.str_int z else "+" +:+ Py.str_int z.
End PyNum.

Inductive pyval : Type :=
| VStr (s : string)
| VInt (z : Z)
| VFloat (f : float).

(** A [dict] with string keys, in insertion order. *)
Abbreviation pydict := (list (string * pyval)).

Section Assoc.
Context {V : Type}.

(** [k in d] *)
Fixpoint dict_has (k : string) (d : list (string * V)) : bool :=
  match d with
  | [] => false
  | (k', _) :: t => String.eqb k k' || dict_has k t
  end.

(** [d.get(k)] *)
Fixpoint dict_get (k : string) (d : list (string * V)) : option V :=
  match d with
  | [] => None
  | (k', v) :: t => if String.eqb k k' then Some v else dict_get k t
  end.

(** [d[k] = v]: an existing key keeps its position *)
Fixpoint dict_set (k : string) (v : V) (d : list (string * V)) : list (string * V) :=
  match d with
  | [] => [(k, v)]
  | (k', v') :: t =>
      if String.eqb k k' then (k, v) :: t else (k', v') :: dict_set k v t
  end.
End Assoc.

(** ** DataFrames *)

Record frame (R : Type) : Type := Frame {
  columns : list string;
  rows : list R
}.
Arguments Frame {R} columns rows.
Arguments columns {R} f.
Arguments rows {R} f.

(** [df.empty]: some axis has length 0 *)
Definition frame_empty {R} (df : frame R) : bool :=
  match columns df, rows df with
  | _ :: _, _ :: _ => false
  | _, _ => true
  end.

(** [label in df.columns] *)
Definition has_column {R} (label : string) (df : frame R) : bool :=
  Py.str_in label (columns df).

(** [df[labels]]: the labels that make the selection raise [KeyError] *)
Definition missing_columns {R} (labels : list string) (df : frame R) : list string :=
  List.filter (fun l => negb (has_column l df)) labels.

(** The [KeyError] of a selection; the text stands for the one pandas builds. *)
Definition key_error (missing : list string) : exn :=
  Exn "KeyError" (String.concat ", " missing +:+ " not in index").

Definition require_columns {R} (labels : list string) (df : frame R) : res unit :=
  match missing_columns labels df with
  | [] => Ok tt
  | m => Raise (key_error m)
  end.

(** [pd.merge(left, right, on=..., how="inner")]: every matching pair, in
    the order of the left rows and, for one left row, of the right rows. *)
Definition merge_inner {A B C} (on : A -> B -> bool) (mk : A -> B -> C)
    (left : list A) (right : list B) : list C :=
  flat_map (fun a => map (mk a) (List.filter (on a) right)) left.

(** [df.empty] for the rows of a frame that has columns *)
Definition is_nil {A} (l : list A) : bool :=
  match l with [] => true | _ :: _ => false end.

(** [df.head(n)]: the first [n] rows; for a negative [n], all but the last [-n]. *)
Definition head {R} (n : Z) (l : list R) : list R :=
  if (0 <=? n)%Z then firstn (Z.to_nat n) l
  else firstn (length l - Z.to_nat (- n)) l.

(** ** The tables of the data source *)

(** [ak.stock_main_fund_flow]: 代码, 名称, 今日排行榜-主力净占比 *)
Record fund_row : Type := FundRow {
  mf_code : string;
  mf_name : string;
  mf_pct : float
}.

(** [ak.stock_zh_a_spot_em]: 代码, 名称, 最新价, 涨跌幅, 成交量, 成交额, 总市值 *)
Record quote_row : Type := QuoteRow {
  q_code : string;
  q_name : string;
  q_price : float;
  q_chg : float;
  q_volume : float;
  q_amount : float;
  q_mktcap : float
}.

(** [ak.stock_institute_hold_detail]: 最新持股比例, 持股比例, 持股比例增幅, 持股机构类型 *)
Record inst_row : Type := InstRow {
  ir_latest_ratio : float;
  ir_ratio : float;
  ir_ratio_delta : float;
  ir_type : string
}.

(** [ak.stock_main_stock_holder]: 截至日期 (as the ordinal [pd.to_datetime]
    gives it), 股东名称, 持股比例, 股东总数 *)
Record holder_row : Type := HolderRow {
  hr_date : Z;
  hr_name : string;
  hr_ratio : float;
  hr_total : float
}.

(** The rows of [df_main_fund_processed] *)
Record main_processed_row : Type := MainRow {
  mp_code : string;
  mp_name : string;
  mp_net : float;        (* 主力净流入-净额 *)
  mp_pct : float;        (* 主力净流入-净占比 *)
  mp_wan : float         (* 主力净流入-万元 *)
}.

(** The rows of [df_quote_processed] *)
Record quote_processed_row : Type := QuoteProcRow {
  qp_code : string;
  qp_name : string;
  qp_price : float;
  qp_chg : float;
  qp_volume : float;
  qp_amount : float;
  qp_amount_wan : float  (* 成交额-万元 *)
}.

(** The rows of [merged_df] once the indicators of step 7 are attached *)
Record merged_row : Type := MergedRow {
  r_code : string;       (* 代码 *)
  r_name : string;       (* 名称 *)
  r_net : float;         (* 主力净流入-净额 *)
  r_pct : float;         (* 主力净流入-净占比 *)
  r_wan : float;         (* 主力净流入-万元 *)
  r_price : float;       (* 最新价 *)
  r_chg : float;         (* 涨跌幅 *)
  r_volume : float;      (* 成交量 *)
  r_amount : float;      (* 成交额 *)
  r_amount_wan : float;  (* 成交额-万元 *)
  r_mktcap : float;      (* 总市值 *)
  r_turnover : float;    (* 交易量占比 *)
  r_mf_ratio : float;    (* 主力资金占比 *)
  r_direction : string   (* 资金流向 *)
}.

(** ** What the libraries compute *)

Record pylib : Type := PyLib {
  (** [df.sort_values(by=col, key=..., ascending=False)] with the default
      [kind]; the first argument is the sort key of a row *)
  sort_values : (merged_row -> float) -> list merged_row -> list merged_row;
  (** [Series.round(2)], elementwise *)
  round2 : float -> float;
  (** [f"{x}"], [f"{x:.2f}"], [f"{x:+.2f}"] *)
  str_float : float -> string;
  fmt_2f : float -> string;
  fmt_signed_2f : float -> string;
  (** [Series.sum()] *)
  series_sum : list float -> float;
  (** [Series.value_counts().to_dict()], as its items in order *)
  value_counts : list string -> list (string * Z);
  (** [int(x)] *)
  int_of_float : float -> res Z;
  (** [Timestamp.strftime("%Y-%m-%d")] *)
  strftime_ymd : Z -> string
}.

(** ** Parameters, results and the outside world *)

(** [sort_by: Literal["main_fund", "turnover_ratio"]] *)
Inductive sort_key : Type := main_fund | turnover_ratio.

Definition sort_key_str (k : sort_key) : string :=
  match k with
  | main_fund => "main_fund"
  | turnover_ratio => "turnover_ratio"
  end.

(** [f"{b}"] for a [bool] *)
Definition str_bool (b : bool) : string := if b then "True" else "False".

(** The argument [main_fund_inflow_threshold].  Its annotation is [float],
    so a value that is passed reaches the body as a float; its default is
    written [Field(5000, ...)], so when it is omitted the body gets the [int]
    5000 (the other thresholds default to the floats 6.0, 3.0 and 10.0). *)
Inductive inflow_argument : Type :=
| Omitted
| Passed (x : float).

Record criteria : Type := Criteria {
  main_fund_inflow_argument : inflow_argument;
  turnover_ratio_threshold : float;
  price_change_threshold : float;
  main_fund_ratio_threshold : float;
  stock_type : string;
  max_results : Z;
  sort_by : sort_key;
  analyze_holding : bool;
  use_cache : bool
}.

(** [main_fund_inflow_threshold] in the body, as the number it is compared
    with: the int 5000 and the float 5000.0 compare alike. *)
Definition main_fund_inflow_threshold (c : criteria) : float :=
  match main_fund_inflow_argument c with
  | Omitted => 5000%float
  | Passed x => x
  end.

(** [f"{main_fund_inflow_threshold}"]: the int 5000 prints without a
    fraction. *)
Definition main_fund_inflow_str (L : pylib) (c : criteria) : string :=
  match main_fund_inflow_argument c with
  | Omitted => Py.str_int 5000
  | Passed x => str_float L x
  end.

Record holding_stats : Type := HoldingStats {
  hs_inst_available : string;             (* 机构持股数据可用率 *)
  hs_holder_available : string;           (* 股东数据可用率 *)
  hs_inst_trends : option (list (string * Z));    (* 机构持股趋势统计 *)
  hs_holder_trends : option (list (string * Z))   (* 股东持股趋势统计 *)
}.

(** The returned [dict]; a key that a return statement does not set is [None]. *)
Record payload : Type := Payload {
  message : string;
  timestamp : option float;
  filter_criteria : option (list (string * string));
  total_matched : option Z;
  data : list pydict;
  columns_listed : option (list string);
  holding_statistics : option holding_stats
}.

Definition message_only (msg : string) (cols : option (list string)) : payload :=
  Payload msg None None None [] cols None.

(** What one call observes of the world: the clock, the calendar and the
    answers of the data source (each of which may raise). *)
Record world : Type := World {
  now : float;                                    (* time.time() *)
  current_year : Z;                               (* datetime.now().year *)
  current_month : Z;                              (* datetime.now().month *)
  stock_main_fund_flow : string -> res (frame fund_row);
  stock_zh_a_spot_em : res (frame quote_row);
  stock_institute_hold_detail : string -> string -> res (frame inst_row);
  stock_main_stock_holder : string -> res (frame holder_row)
}.

(** The requests a call sends to the data source, oldest first. *)
Inductive request : Type :=
| ReqMainFundFlow (symbol : string)
| ReqSpot
| ReqInstituteHold (stock quarter : string)
| ReqStockHolder (stock : string).

(** Computations that send requests and may raise. *)
Definition io (A : Type) : Type := list request -> res A * list request.

Definition io_ret {A} (a : A) : io A := fun t => (Ok a, t).

Definition io_raise {A} (e : exn) : io A := fun t => (Raise e, t).

Definition io_bind {A B} (m : io A) (k : A -> io B) : io B :=
  fun t => match m t with
           | (Ok a, t') => k a t'
           | (Raise e, t') => (Raise e, t')
           end.

Definition io_lift {A} (r : res A) : io A := fun t => (r, t).

(** [_throttle_request(); ak.f(...)]: the request is sent, then answered. *)
Definition fetch {A} (rq : request) (answer : res A) : io A :=
  fun t => (answer, t ++ [rq]).

(** [try: body except Exception as e: handler(e)] *)
Definition try_except {A} (body : io A) (handler : exn -> io A) : io A :=
  fun t => match body t with
           | (Ok a, t') => (Ok a, t')
           | (Raise e, t') => handler e t'
           end.

Notation "'let*' x ':=' m 'in' k" := (io_bind m (fun x => k))
  (at level 10, x name, m at level 100, k at level 200).
Notation "'let+' x ':=' m 'in' k" := (res_bind m (fun x => k))
  (at level 10, x name, m at level 100, k at level 200).

(** ** Steps 3 to 7: reconciliation, joins and indicators *)

Definition rename_columns (cols : list string) : list string :=
  map (fun c => if String.eqb c "今日排行榜-主力净占比"
                then "主力净流入-净占比" else c) cols.

(** The number of columns of [df] that carry [label] *)
Definition label_count {R} (label : string) (df : frame R) : nat :=
  length (List.filter (String.eqb label) (columns df)).

(** Step 4, once 代码 is known to be a column of [df_main_fund].  In the
    first branch the merge of lines 137-142 brings 成交额 from the quotes.
    When the fund-flow table has a 成交额 of its own, the merge names the two
    成交额_x and 成交额_y, and line 144 finds no 成交额.  When the rename has
    made a second column 主力净流入-净占比, line 145 reads a table instead of
    a column and the statement of lines 143-147 is refused; the class and the
    text of that error stand for the ones pandas builds, and nothing below
    depends on them. *)
Definition process_main_fund (df_main_fund : frame fund_row)
    (df_quote : frame quote_row) : res (list main_processed_row) :=
  let df := Frame (rename_columns (columns df_main_fund)) (rows df_main_fund) in
  if has_column "主力净流入-净占比" df && has_column "成交额" df_quote then
    let with_turnover :=
      merge_inner (fun a b => String.eqb (mf_code a) (q_code b))
                  (fun a b => (a, q_amount b)) (rows df) (rows df_quote) in
    if has_column "成交额" df then
      Raise (Exn "KeyError" "'成交额'")
    else if (1 <? label_count "主力净流入-净占比" df)%nat then
      Raise (Exn "ValueError"
               "Cannot set a DataFrame with multiple columns to the single column 主力净流入-净额")
    else
      let+ _ := require_columns ["代码"; "名称"; "主力净流入-净占比"] df in
      Ok (map (fun ab : fund_row * float =>
                 let net := (snd ab * mf_pct (fst ab) / 100)%float in
                 MainRow (mf_code (fst ab)) (mf_name (fst ab)) net
                         (mf_pct (fst ab)) (net / 10000)%float)
              with_turnover)
  else
    let+ _ := require_columns ["代码"; "名称"; "主力净流入-净占比"] df in
    Ok (map (fun a => MainRow (mf_code a) (mf_name a) 0%float (mf_pct a) 0%float)
            (rows df)).

(** Step 5 *)
Definition process_quote (df_quote : frame quote_row) : res (list quote_processed_row) :=
  let+ _ := require_columns ["代码"; "名称"; "最新价"; "涨跌幅"; "成交量"; "成交额"] df_quote in
  Ok (map (fun q => QuoteProcRow (q_code q) (q_name q) (q_price q) (q_chg q)
                      (q_volume q) (q_amount q) (q_amount q / 10000)%float)
          (rows df_quote)).

(** Step 7 for one joined row *)
Definition with_indicators (m : main_processed_row) (q : quote_processed_row)
    (mktcap : float) : merged_row :=
  MergedRow (mp_code m) (mp_name m) (mp_net m) (mp_pct m) (mp_wan m)
            (qp_price q) (qp_chg q) (qp_volume q) (qp_amount q) (qp_amount_wan q)
            mktcap
            (qp_amount_wan q * 10000 / mktcap * 100)%float
            (PrimFloat.abs (mp_wan m) / qp_amount_wan q * 100)%float
            (if PyNum.gt (mp_wan m) 0%float then "流入" else "流出").

(** Steps 6 and 7: the two inner joins, then the indicators. *)
Definition merged_df (main_processed : list main_processed_row)
    (quote_processed : list quote_processed_row)
    (df_quote : frame quote_row) : list merged_row :=
  let joined :=
    merge_inner (fun m q => String.eqb (mp_code m) (qp_code q)
                            && String.eqb (mp_name m) (qp_name q))
                (fun m q => (m, q)) main_processed quote_processed in
  merge_inner (fun mq i => String.eqb (mp_code (fst mq)) (q_code i))
              (fun mq i => with_indicators (fst mq) (snd mq) (q_mktcap i))
              joined (rows df_quote).

(** ** Steps 8 to 10: filter, sort, cap, round *)

Definition passes (c : criteria) (r : merged_row) : bool :=
  PyNum.ge (PrimFloat.abs (r_wan r)) (main_fund_inflow_threshold c)
  && PyNum.ge (r_turnover r) (turnover_ratio_threshold c)
  && PyNum.ge (PrimFloat.abs (r_chg r)) (price_change_threshold c)
  && PyNum.ge (r_mf_ratio r) (main_fund_ratio_threshold c).

Definition filtered_df (c : criteria) (merged : list merged_row) : list merged_row :=
  List.filter (passes c) merged.

(** The column a row is ranked by, after [key] is applied. *)
Definition rank_key (k : sort_key) (r : merged_row) : float :=
  match k with
  | main_fund => PrimFloat.abs (r_wan r)
  | turnover_ratio => r_turnover r
  end.

Definition sorted_df (L : pylib) (c : criteria) (merged : list merged_row)
  : list merged_row :=
  sort_values L (rank_key (sort_by c)) (filtered_df c merged).

(** [sorted_df.head(max_results)], before the display rounding *)
Definition result_rows (L : pylib) (c : criteria) (merged : list merged_row)
  : list merged_row :=
  head (max_results c) (sorted_df L c merged).

Definition round_row (L : pylib) (r : merged_row) : merged_row :=
  MergedRow (r_code r) (r_name r) (r_net r) (r_pct r) (round2 L (r_wan r))
            (r_price r) (round2 L (r_chg r)) (r_volume r) (r_amount r)
            (r_amount_wan r) (r_mktcap r) (round2 L (r_turnover r))
            (round2 L (r_mf_ratio r)) (r_direction r).

Definition result_df (L : pylib) (c : criteria) (merged : list merged_row)
  : list merged_row :=
  map (round_row L) (result_rows L c merged).

(** ** Step 11: institutional and shareholder holdings *)

(** [holding_info[stock_code]]: either the two sub-sections
    [{"机构持股": ..., "股东持股": ...}] or, from the handler around one
    stock, [{"错误": msg}]. *)
Inductive stock_holding : Type :=
| Holding (inst holders : pydict)
| HoldingError (msg : string).

Record quarter_data : Type := QuarterData {
  qd_period : string;          (* 报告期 *)
  qd_ratio : float;            (* 持股比例 *)
  qd_count : Z;                (* 机构数量 *)
  qd_frame : frame inst_row;   (* 数据 *)
  qd_code : string             (* 季度代码 *)
}.

(** The literal dictionary indexed by [q_num] *)
Definition quarter_name (q_num : string) : res string :=
  if String.eqb q_num "1" then Ok "一季报"
  else if String.eqb q_num "2" then Ok "中报"
  else if String.eqb q_num "3" then Ok "三季报"
  else if String.eqb q_num "4" then Ok "年报"
  else Raise (Exn "KeyError" q_num).

(** Lines 302-327: the entry appended for a non-empty quarter *)
Definition quarter_entry (L : pylib) (quarter : string)
    (df_quarter : frame inst_row) : res quarter_data :=
  let year := Py.first_chars 4 quarter in
  match String.get 4 quarter with
  | None => Raise (Exn "IndexError" "string index out of range")
  | Some ch =>
      let+ name := quarter_name (String ch EmptyString) in
      let+ total_ratio :=
        (if has_column "最新持股比例" df_quarter
         then Ok (series_sum L (map ir_latest_ratio (rows df_quarter)))
         else let+ _ := require_columns ["持股比例"] df_quarter in
              Ok (series_sum L (map ir_ratio (rows df_quarter)))) in
      Ok (QuarterData (year +:+ "年" +:+ name) total_ratio
                      (Z.of_nat (length (rows df_quarter))) df_quarter quarter)
  end.

(** Lines 290-327: at most three quarters are requested, and none once two
    of them had data. *)
Fixpoint probe_quarters (L : pylib) (W : world) (clean_code : string) (i : nat)
    (quarters : list string) (available_data : list quarter_data)
  : io (list quarter_data) :=
  match quarters with
  | [] => io_ret available_data
  | quarter :: rest =>
      if (3 <=? i)%nat then io_ret available_data
      else if (1 <? length available_data)%nat then io_ret available_data
      else
        let* df_quarter :=
          fetch (ReqInstituteHold clean_code quarter)
                (stock_institute_hold_detail W clean_code quarter) in
        if negb (frame_empty df_quarter) then
          let* entry := io_lift (quarter_entry L quarter df_quarter) in
          probe_quarters L W clean_code (S i) rest (available_data ++ [entry])
        else
          probe_quarters L W clean_code (S i) rest available_data
  end.

Definition count_if {A} (p : A -> bool) (l : list A) : Z :=
  Z.of_nat (length (List.filter p l)).

(** Lines 398-406: the three most frequent institution types *)
Definition main_types_str (institute_types : list (string * Z)) : option string :=
  let main_types :=
    map (fun tc : string * Z => fst tc +:+ "(" +:+ Py.str_int (snd tc) +:+ "家)")
        (List.filter (fun tc : string * Z => (0 <? snd tc)%Z) institute_types) in
  match main_types with
  | [] => None
  | _ => Some (String.concat "、" (firstn 3 main_types))
  end.

Definition institute_types_of (L : pylib) (df : frame inst_row) : list (string * Z) :=
  if has_column "持股机构类型" df then value_counts L (map ir_type (rows df)) else [].

Definition add_main_types (L : pylib) (df : frame inst_row) (d : pydict) : pydict :=
  match main_types_str (institute_types_of L df) with
  | Some s => dict_set "主要机构类型" (VStr s) d
  | None => d
  end.

(** Lines 330-437 *)
Definition institution_summary (L : pylib) (available_data : list quarter_data) : pydict :=
  match available_data with
  | current_data :: previous_data :: _ =>
      let ratio_change := (qd_ratio current_data - qd_ratio previous_data)%float in
      let count_change := (qd_count current_data - qd_count previous_data)%Z in
      let current_df := qd_frame current_data in
      let deltas :=
        if has_column "持股比例增幅" current_df
        then map ir_ratio_delta (rows current_df) else [] in
      let increased_count := count_if (fun x => PyNum.gt x 0%float) deltas in
      let decreased_count := count_if (fun x => PyNum.lt x 0%float) deltas in
      let unchanged_count := count_if (fun x => PyNum.feq x 0%float) deltas in
      let d : pydict :=
        [ ("当前持股比例", VStr (fmt_2f L (qd_ratio current_data) +:+ "%"));
          ("上期持股比例", VStr (fmt_2f L (qd_ratio previous_data) +:+ "%"));
          ("变化", VStr (fmt_signed_2f L ratio_change +:+ "%"));
          ("当前报告期", VStr (qd_period current_data));
          ("上期报告期", VStr (qd_period previous_data));
          ("机构数量", VInt (qd_count current_data));
          ("机构数量变化", VStr (PyNum.fmt_signed_int count_change +:+ "家"));
          ("持股趋势", VStr (if PyNum.gt ratio_change 0%float then "增持"
                             else if PyNum.lt ratio_change 0%float then "减持"
                             else "持平")) ] in
      let d :=
        if (0 <? increased_count)%Z || (0 <? decreased_count)%Z then
          dict_set "持股不变机构数" (VInt unchanged_count)
            (dict_set "减持机构数" (VInt decreased_count)
               (dict_set "增持机构数" (VInt increased_count) d))
        else d in
      add_main_types L current_df d
  | [current_data] =>
      let d : pydict :=
        [ ("持股比例", VStr (fmt_2f L (qd_ratio current_data) +:+ "%"));
          ("报告期", VStr (qd_period current_data));
          ("机构数量", VInt (qd_count current_data));
          ("状态", VStr ("只有单季度数据，无法比较变化，报告期："
                         +:+ qd_period current_data)) ] in
      add_main_types L (qd_frame current_data) d
  | [] => [("状态", VStr "无机构持股数据")]
  end.

(** Lines 287-440: the institutional sub-section with its own handler *)
Definition institution_block (L : pylib) (W : world) (clean_code : string)
    (quarters : list string) : io pydict :=
  try_except
    (let* available_data := probe_quarters L W clean_code 0 quarters [] in
     io_ret (institution_summary L available_data))
    (fun e => io_ret [("错误", VStr (exn_str e))]).

(** [df["截至日期"].sort_values(ascending=False).unique()[:2]] *)
Definition latest_dates (dates : list Z) : list Z :=
  match dates with
  | [] => []
  | d :: t =>
      let d0 := fold_left Z.max t d in
      match List.filter (fun x => (x <? d0)%Z) dates with
      | [] => [d0]
      | e :: u => [d0; fold_left Z.max u e]
      end
  end.

(** [holders[holders["股东名称"] == holder]["持股比例"].values[0]] *)
Definition first_ratio (holder : string) (holders : list holder_row) : res float :=
  match List.filter (fun r => String.eqb (hr_name r) holder) holders with
  | r :: _ => Ok (hr_ratio r)
  | [] => Raise (Exn "IndexError" "index 0 is out of bounds for axis 0 with size 0")
  end.

(** Lines 477-490: how the holders present at both dates moved *)
Fixpoint compare_holders (common : list string)
    (latest_holders previous_holders : list holder_row) (acc : Z * Z * Z)
  : res (Z * Z * Z) :=
  match common with
  | [] => Ok acc
  | holder :: rest =>
      let+ latest := first_ratio holder latest_holders in
      let+ previous := first_ratio holder previous_holders in
      let '(increased, decreased, unchanged) := acc in
      compare_holders rest latest_holders previous_holders
        (if PyNum.gt latest previous then (increased + 1, decreased, unchanged)%Z
         else if PyNum.lt latest previous then (increased, decreased + 1, unchanged)%Z
         else (increased, decreased, unchanged + 1)%Z)
  end.

Definition total_known (df : frame holder_row) (latest_holders : list holder_row) : bool :=
  has_column "股东总数" df
  && negb (forallb (fun r => PyNum.isnan (hr_total r)) latest_holders).

Definition first_total (latest_holders : list holder_row) : res float :=
  match latest_holders with
  | r :: _ => Ok (hr_total r)
  | [] => Raise (Exn "IndexError" "single positional indexer is out-of-bounds")
  end.

(** Lines 447-543 *)
Definition holder_summary (L : pylib) (df_holders : frame holder_row) : res pydict :=
  if negb (frame_empty df_holders) then
    let+ _ := require_columns ["截至日期"] df_holders in
    match latest_dates (map hr_date (rows df_holders)) with
    | d0 :: d1 :: _ =>
        let latest_holders := List.filter (fun r => (hr_date r =? d0)%Z) (rows df_holders) in
        let previous_holders := List.filter (fun r => (hr_date r =? d1)%Z) (rows df_holders) in
        let+ _ := require_columns ["股东名称"] df_holders in
        let latest_names := Py.dict_fromkeys (map hr_name latest_holders) in
        let previous_names := Py.dict_fromkeys (map hr_name previous_holders) in
        let common_holders :=
          List.filter (fun n => Py.str_in n previous_names) latest_names in
        let+ _ := (match common_holders with
                   | [] => Ok tt
                   | _ => require_columns ["持股比例"] df_holders
                   end) in
        let+ counts :=
          compare_holders common_holders latest_holders previous_holders (0, 0, 0)%Z in
        let '(increased_count, decreased_count, unchanged_count) := counts in
        let new_holders :=
          count_if (fun n => negb (Py.str_in n previous_names)) latest_names in
        let exited_holders :=
          count_if (fun n => negb (Py.str_in n latest_names)) previous_names in
        let+ total :=
          (if total_known df_holders latest_holders
           then let+ x := first_total latest_holders in
                let+ n := int_of_float L x in Ok (VInt n)
           else Ok (VStr "未知")) in
        Ok [ ("最新截至日期", VStr (strftime_ymd L d0));
             ("上期截至日期", VStr (strftime_ymd L d1));
             ("增持股东数", VInt increased_count);
             ("减持股东数", VInt decreased_count);
             ("持股不变股东数", VInt unchanged_count);
             ("新增股东数", VInt new_holders);
             ("退出股东数", VInt exited_holders);
             ("总股东数", total);
             ("总体趋势", VStr (if (decreased_count <? increased_count)%Z then "增持"
                               else if (increased_count <? decreased_count)%Z then "减持"
                               else "持平")) ]
    | [d0] =>
        let latest_holders := List.filter (fun r => (hr_date r =? d0)%Z) (rows df_holders) in
        let+ total :=
          (if total_known df_holders latest_holders
           then let+ x := first_total latest_holders in Ok (VFloat x)
           else Ok (VStr "未知")) in
        Ok [ ("最新截至日期", VStr (strftime_ymd L d0));
             ("总股东数", total);
             ("状态", VStr "仅有一期数据，无法比较变化") ]
    | [] => Ok [("状态", VStr "无股东持股数据")]
    end
  else Ok [("状态", VStr "无股东持股数据")].

(** Lines 443-545: the shareholder sub-section with its own handler *)
Definition holder_block (L : pylib) (W : world) (clean_code : string) : io pydict :=
  try_except
    (let* df_holders :=
       fetch (ReqStockHolder clean_code) (stock_main_stock_holder W clean_code) in
     io_lift (holder_summary L df_holders))
    (fun e => io_ret [("错误", VStr (exn_str e))]).

(** Binding the keyword arguments of a call to the one parameter, [symbol],
    of [format_stock_code]. *)
Definition call_format_stock_code (kwargs : list (string * string)) : res string :=
  match kwargs with
  | [(name, value)] =>
      if String.eqb name "symbol" then Ok (format_stock_code value)
      else Raise (Exn "TypeError"
             ("format_stock_code() got an unexpected keyword argument '"
              +:+ name +:+ "'"))
  | _ => Raise (Exn "TypeError" "format_stock_code() missing 1 required positional argument: 'symbol'")
  end.

(** Line 274: [format_stock_code(stock_code=stock_code)] *)
Definition clean_code_of (stock_code : string) : res string :=
  call_format_stock_code [("stock_code", stock_code)].

Definition holding_cache_duration : float := 86400%float.

(** Lines 277-281: a fresh entry of the holding cache *)
Definition cached_holding (W : world) (holding_cache : gmap string (stock_holding * float))
    (holding_cache_key : string) : option stock_holding :=
  match holding_cache !! holding_cache_key with
  | Some (cache_data, cache_time) =>
      if PyNum.lt (now W - cache_time)%float holding_cache_duration
      then Some cache_data else None
  | None => None
  end.

(** Lines 273-554: the loop over the stock codes of the result.  [clean] is
    the call of line 274; it stands before the [try] of line 283, so what it
    raises leaves the loop. *)
Fixpoint holding_loop (L : pylib) (W : world) (clean : string -> res string)
    (quarters : list string) (codes : list string)
    (holding_cache : gmap string (stock_holding * float))
    (holding_info : list (string * stock_holding))
  : io (gmap string (stock_holding * float) * list (string * stock_holding)) :=
  match codes with
  | [] => io_ret (holding_cache, holding_info)
  | stock_code :: rest =>
      let* clean_code := io_lift (clean stock_code) in
      let holding_cache_key := "holding_" +:+ clean_code in
      match cached_holding W holding_cache holding_cache_key with
      | Some cache_data =>
          holding_loop L W clean quarters rest holding_cache
            (dict_set stock_code cache_data holding_info)
      | None =>
          let* st :=
            try_except
              (let* inst := institution_block L W clean_code quarters in
               let* holders := holder_block L W clean_code in
               let stock_holding := Holding inst holders in
               io_ret (<[holding_cache_key := (stock_holding, now W)]> holding_cache,
                       dict_set stock_code stock_holding holding_info))
              (fun e =>
                 io_ret (holding_cache,
                         dict_set stock_code (HoldingError (exn_str e)) holding_info)) in
          holding_loop L W clean quarters rest (fst st) (snd st)
      end
  end.

(** Lines 230-554, entered when [analyze_holding] and the result is not empty. *)
Definition holding_analysis (L : pylib) (W : world) (clean : string -> res string)
    (holding_cache : gmap string (stock_holding * float))
    (result : list merged_row) : io (list (string * stock_holding)) :=
  let quarters := quarters_to_try (current_year W) (current_month W) in
  let* st := holding_loop L W clean quarters
               (Py.dict_fromkeys (map r_code result)) holding_cache [] in
  io_ret (snd st).

(** ** Step 12: the records of [data] *)

(** [f"{v}"] for a value kept in a dictionary *)
Definition str_val (L : pylib) (v : pyval) : string :=
  match v with
  | VStr s => s
  | VInt z => Py.str_int z
  | VFloat f => str_float L f
  end.

(** [if src in info: stock_data[dst] = info[src]] *)
Definition copy_key (src dst : string) (info stock_data : pydict) : pydict :=
  match dict_get src info with
  | Some v => dict_set dst v stock_data
  | None => stock_data
  end.

(** [v > 0] for a value kept in a dictionary *)
Definition val_positive (v : pyval) : bool :=
  match v with
  | VInt z => (0 <? z)%Z
  | VFloat f => PyNum.gt f 0%float
  | VStr _ => false
  end.

(** Lines 578-603 *)
Definition add_institution_info (inst_info stock_data : pydict) : pydict :=
  match inst_info with
  | [] => dict_set "机构持股" (VStr "未查询") stock_data
  | _ =>
      if dict_has "错误" inst_info then
        dict_set "机构持股" (VStr "查询失败") stock_data
      else
        match dict_get "状态" inst_info with
        | Some status => dict_set "机构持股" status stock_data
        | None =>
            let stock_data :=
              match dict_get "变化" inst_info with
              | Some change =>
                  let trend :=
                    match dict_get "持股趋势" inst_info, change with
                    | Some t, _ => t
                    | None, VStr ch =>
                        VStr (if Py.contains "+" ch then "增持" else "减持")
                    | None, _ => VStr "减持"
                    end in
                  dict_set "机构持股趋势" trend
                    (dict_set "机构持股变化" change stock_data)
              | None => stock_data
              end in
            let stock_data :=
              if dict_has "当前持股比例" inst_info
              then copy_key "当前持股比例" "机构持股比例" inst_info stock_data
              else copy_key "持股比例" "机构持股比例" inst_info stock_data in
            let stock_data := copy_key "机构数量" "机构数量" inst_info stock_data in
            copy_key "主要机构类型" "主要机构类型" inst_info stock_data
        end
  end.

(** Lines 614-633 *)
Definition holder_details (L : pylib) (holder_info : pydict) : option string :=
  match dict_get "增持股东数" holder_info, dict_get "减持股东数" holder_info with
  | Some up, Some down =>
      let s := "增持" +:+ str_val L up +:+ "家，减持" +:+ str_val L down +:+ "家" in
      let s :=
        match dict_get "新增股东数" holder_info with
        | Some n => if val_positive n then s +:+ "，新进" +:+ str_val L n +:+ "家" else s
        | None => s
        end in
      let s :=
        match dict_get "退出股东数" holder_info with
        | Some n => if val_positive n then s +:+ "，退出" +:+ str_val L n +:+ "家" else s
        | None => s
        end in
      Some s
  | _, _ => None
  end.

(** Lines 606-639 *)
Definition add_holder_info (L : pylib) (holder_info stock_data : pydict) : pydict :=
  match holder_info with
  | [] => dict_set "十大股东" (VStr "未查询") stock_data
  | _ =>
      if dict_has "错误" holder_info then
        dict_set "十大股东" (VStr "查询失败") stock_data
      else if dict_has "状态" holder_info then
        dict_set "十大股东" (VStr "无数据") stock_data
      else
        match dict_get "总体趋势" holder_info with
        | Some trend =>
            let stock_data := dict_set "十大股东动向" trend stock_data in
            match holder_details L holder_info with
            | Some s => dict_set "股东变动详情" (VStr s) stock_data
            | None => stock_data
            end
        | None => dict_set "十大股东" (VStr "无变化数据") stock_data
        end
  end.

Definition inst_of (h : stock_holding) : pydict :=
  match h with Holding inst _ => inst | HoldingError _ => [] end.

Definition holders_of (h : stock_holding) : pydict :=
  match h with Holding _ holders => holders | HoldingError _ => [] end.

(** Lines 559-641: the record of one row of [result_df] *)
Definition stock_data_of (L : pylib) (c : criteria)
    (holding_info : list (string * stock_holding)) (row : merged_row) : pydict :=
  let stock_code := r_code row in
  let stock_data : pydict :=
    [ ("代码", VStr stock_code);
      ("名称", VStr (r_name row));
      ("最新价", VFloat (r_price row));
      ("涨跌幅", VStr (str_float L (r_chg row) +:+ "%"));
      ("主力资金", VStr (str_float L (r_wan row) +:+ "万元"));
      ("资金流向", VStr (r_direction row));
      ("主力资金占比", VStr (str_float L (r_mf_ratio row) +:+ "%"));
      ("成交额", VStr (str_float L (r_amount_wan row) +:+ "万元"));
      ("总市值", VStr (fmt_2f L (r_mktcap row / 10000)%float +:+ "亿元"));
      ("交易量占比", VStr (str_float L (r_turnover row) +:+ "%")) ] in
  if analyze_holding c then
    match dict_get stock_code holding_info with
    | Some stock_holding =>
        add_holder_info L (holders_of stock_holding)
          (add_institution_info (inst_of stock_holding) stock_data)
    | None => stock_data
    end
  else stock_data.

(** ** Step 13: the envelope *)

(** The generator summed for an availability rate: a sub-section that is
    present, not empty, and has no 状态 key. *)
Definition section_available (section : pydict) : bool :=
  match section with
  | [] => false
  | _ => negb (dict_has "状态" section)
  end.

(** [trends[k] += 1] *)
Definition bump (k : string) (trends : list (string * Z)) : res (list (string * Z)) :=
  match dict_get k trends with
  | Some n => Ok (dict_set k (n + 1)%Z trends)
  | None => Raise (Exn "KeyError" k)
  end.

(** Lines 671-679 and 682-690: the counter one sub-section adds to *)
Definition trend_label (L : pylib) (trend_key : string) (section : pydict) : string :=
  match section with
  | [] => "无数据"
  | _ =>
      match dict_get trend_key section with
      | Some t => str_val L t
      | None => "无数据"
      end
  end.

Fixpoint count_trends (L : pylib) (trend_key : string) (sections : list pydict)
    (trends : list (string * Z)) : res (list (string * Z)) :=
  match sections with
  | [] => Ok trends
  | section :: rest =>
      let+ trends := bump (trend_label L trend_key section) trends in
      count_trends L trend_key rest trends
  end.

Definition zero_trends : list (string * Z) :=
  [("增持", 0%Z); ("减持", 0%Z); ("持平", 0%Z); ("无数据", 0%Z)].

(** Lines 658-695 *)
Definition holding_stats_of (L : pylib) (holding_info : list (string * stock_holding))
  : res holding_stats :=
  let total := Py.str_int (Z.of_nat (length holding_info)) in
  let insts := map (fun kv => inst_of (snd kv)) holding_info in
  let holders := map (fun kv => holders_of (snd kv)) holding_info in
  let rate (sections : list pydict) :=
    Py.str_int (count_if section_available sections) +:+ "/" +:+ total in
  match holding_info with
  | [] => Ok (HoldingStats (rate insts) (rate holders) None None)
  | _ =>
      let+ inst_trends := count_trends L "持股趋势" insts zero_trends in
      let+ holder_trends := count_trends L "总体趋势" holders zero_trends in
      Ok (HoldingStats (rate insts) (rate holders)
                       (Some inst_trends) (Some holder_trends))
  end.

(** Lines 644-695 *)
Definition build_result (L : pylib) (W : world) (c : criteria)
    (holding_info : list (string * stock_holding)) (result : list merged_row)
  : res payload :=
  let result_list := map (stock_data_of L c holding_info) result in
  let+ stats :=
    (if analyze_holding c
     then let+ hs := holding_stats_of L holding_info in Ok (Some hs)
     else Ok None) in
  Ok (Payload "分析完成" (Some (now W))
        (Some [ ("主力资金阈值", main_fund_inflow_str L c +:+ "万元");
                ("交易量占比阈值", str_float L (turnover_ratio_threshold c) +:+ "%");
                ("涨跌幅阈值", str_float L (price_change_threshold c) +:+ "%");
                ("主力资金占比阈值", str_float L (main_fund_ratio_threshold c) +:+ "%") ])
        (Some (Z.of_nat (length result_list)))
        result_list None stats).

(** ** The tool *)

(** How the body of the [try] ends: at one of the early [return]s, or at the
    last one, which stores the result first (line 697). *)
Inductive outcome : Type :=
| Early (p : payload)
| Full (p : payload).

Definition outcome_payload (o : outcome) : payload :=
  match o with Early p => p | Full p => p end.

(** Steps 3 to 7 once both tables are fetched and not empty. *)
Definition reconcile (df_main_fund : frame fund_row) (df_quote : frame quote_row)
  : res (payload + list merged_row) :=
  if has_column "代码" df_quote && has_column "总市值" df_quote then
    if has_column "代码" df_main_fund then
      let+ main_processed := process_main_fund df_main_fund df_quote in
      let+ quote_processed := process_quote df_quote in
      Ok (inr (merged_df main_processed quote_processed df_quote))
    else
      Ok (inl (message_only "主力资金流数据格式异常" (Some (columns df_main_fund))))
  else
    Ok (inl (message_only "市值数据格式异常" (Some (columns df_quote)))).

(** Lines 102-698: the body of the [try].  [clean] is the call of line 274
    and [holding_cache] the dictionary of line 99. *)
Definition screen_with (L : pylib) (W : world) (clean : string -> res string)
    (holding_cache : gmap string (stock_holding * float)) (c : criteria)
  : io outcome :=
  let* df_main_fund :=
    fetch (ReqMainFundFlow (stock_type c)) (stock_main_fund_flow W (stock_type c)) in
  if frame_empty df_main_fund then
    io_ret (Early (message_only "未查询到主力资金流数据" None))
  else
    let* df_quote := fetch ReqSpot (stock_zh_a_spot_em W) in
    if frame_empty df_quote then
      io_ret (Early (message_only "未查询到A股实时行情数据" None))
    else
      let* merged := io_lift (reconcile df_main_fund df_quote) in
      match merged with
      | inl p => io_ret (Early p)
      | inr merged =>
          let result := result_df L c merged in
          let* holding_info :=
            (if analyze_holding c && negb (is_nil result)
             then holding_analysis L W clean holding_cache result
             else io_ret []) in
          let* p := io_lift (build_result L W c holding_info result) in
          io_ret (Full p)
      end.

(** Lines 86-89 *)
Definition cache_key (L : pylib) (c : criteria) : string :=
  "large_fund_" +:+ main_fund_inflow_str L c
  +:+ "_" +:+ str_float L (turnover_ratio_threshold c)
  +:+ "_" +:+ str_float L (price_change_threshold c)
  +:+ "_" +:+ str_float L (main_fund_ratio_threshold c)
  +:+ "_" +:+ stock_type c
  +:+ "_" +:+ sort_key_str (sort_by c)
  +:+ "_" +:+ str_bool (analyze_holding c).

Definition cache_duration : float := 300%float.

(** Lines 93-96: the entry a call is answered from *)
Definition cache_hit (L : pylib) (W : world) (c : criteria)
    (request_cache : gmap string (payload * float)) : option payload :=
  if use_cache c then
    match request_cache !! cache_key L c with
    | Some (cache_data, cache_time) =>
        if PyNum.lt (now W - cache_time)%float cache_duration
        then Some cache_data else None
    | None => None
    end
  else None.

(** [analyze_large_fund_flow], with the call of line 274 as a parameter.
    [_request_cache] belongs to [register_tools] and outlives the call;
    [_holding_cache] is assigned an empty dictionary inside the call
    (line 99).  The result is what the call returns or raises, the cache it
    leaves, and the requests it sent. *)
Definition analyze_with (L : pylib) (clean : string -> res string) (W : world)
    (c : criteria) (request_cache : gmap string (payload * float))
  : res payload * gmap string (payload * float) * list request :=
  match cache_hit L W c request_cache with
  | Some cache_data => (Ok cache_data, request_cache, [])
  | None =>
      let holding_cache : gmap string (stock_holding * float) := ∅ in
      match screen_with L W clean holding_cache c [] with
      | (Ok (Early p), sent) => (Ok p, request_cache, sent)
      | (Ok (Full p), sent) =>
          (Ok p, <[cache_key L c := (p, now W)]> request_cache, sent)
      | (Raise e, sent) =>
          (Raise (Exn "ValueError" ("大额资金流分析失败: " +:+ exn_str e)),
           request_cache, sent)
      end
  end.

(** The tool as the source has it. *)
Definition analyze_large_fund_flow (L : pylib) (W : world) (c : criteria)
    (request_cache : gmap string (payload * float))
  : res payload * gmap string (payload * float) * list request :=
  analyze_with L clean_code_of W c request_cache.

(** A session: the calls served since [register_tools] created the empty
    [_request_cache], oldest first, each with the world it observed. *)
Fixpoint session (L : pylib) (calls : list (world * criteria))
    (request_cache : gmap string (payload * float))
  : gmap string (payload * float) :=
  match calls with
  | [] => request_cache
  | (W, c) :: rest =>
      session L rest (snd (fst (analyze_large_fund_flow L W c request_cache)))
  end.

(** ** The contract of the libraries *)

(** Adjacent rows are in non-increasing order of [key]. *)
Definition descending (key : merged_row -> float) (l : list merged_row) : Prop :=
  Sorted (fun a b => PyNum.ge (key a) (key b) = true) l.

(** What the code relies on.  [sort_values] returns the same rows, ranked
    from the largest key down (rows without a key, NaN, aside); nothing is
    promised about rows with equal keys, since the default [kind] is
    ["quicksort"], which pandas documents as not stable.  [f"{x}"] of a float
    is its shortest round-trip [repr]: different floats print differently,
    never with an underscore, and never as an [int] prints (there is a
    fraction, an exponent, [inf] or [nan]). *)
Record pylib_ok (L : pylib) : Prop := PyLibOk {
  sort_values_perm : forall key l, Permutation (sort_values L key l) l;
  sort_values_desc : forall key l,
    Forall (fun r => PyNum.isnan (key r) = false) l ->
    descending key (sort_values L key l);
  str_float_inj : forall x y, str_float L x = str_float L y -> x = y;
  str_float_plain : forall x, Py.contains "_" (str_float L x) = false;
  str_float_not_int : forall x z, str_float L x <> Py.str_int z
}.

(** The claim that ranking keeps rows with equal keys in the order the join
    gave them. *)
Definition keeps_join_order (key : merged_row -> float)
    (before after : list merged_row) : Prop :=
  forall k, List.filter (fun r => PyNum.feq (key r) k) after
            = List.filter (fun r => PyNum.feq (key r) k) before.

(** ** Reference instances of the libraries *)

Module Ref.

(** Insertion sort from the largest key down.  [before x y] says whether
    a new row [x] goes in front of a row [y] already placed. *)
Section Insertion.
Variable before : float -> float -> bool.
Variable key : merged_row -> float.

Fixpoint insert (x : merged_row) (l : list merged_row) : list merged_row :=
  match l with
  | [] => [x]
  | y :: t => if before (key x) (key y) then x :: y :: t else y :: insert x t
  end.

Definition isort (l : list merged_row) : list merged_row :=
  fold_right insert [] l.
End Insertion.

(** Equal keys keep their order (what numpy's small-array insertion sort does). *)
Definition sort_stable := isort (fun kx ky => PyNum.ge kx ky).
(** Equal keys come out reversed. *)
Definition sort_reversing := isort (fun kx ky => PyNum.gt kx ky).

(** [rint(x * 100) / 100], numpy's [round(x, 2)] *)
Definition rint (y : float) : float :=
  let big := 4503599627370496%float in
  if PrimFloat.ltb (PrimFloat.abs y) big then
    if PrimFloat.ltb y 0%float then (- ((- y + big) - big))%float
    else ((y + big) - big)%float
  else y.

Definition round2 (x : float) : float := (rint (x * 100) / 100)%float.

(** A float printed as its sign, mantissa and binary exponent: like
    [repr], a different text for every float. *)
Definition str_float (x : float) : string :=
  match Prim2SF x with
  | S754_zero s => if s then "-0.0" else "0.0"
  | S754_infinity s => if s then "-inf" else "inf"
  | S754_nan => "nan"
  | S754_finite s m e =>
      Py.str_int (if s then Z.neg m else Z.pos m) +:+ String "p" (Py.str_int e)
  end.

Definition round_half_even_div (n d : Z) : Z :=
  let q := (n / d)%Z in
  let r := (n mod d)%Z in
  if (2 * r <? d)%Z then q
  else if (d <? 2 * r)%Z then (q + 1)%Z
  else if Z.even q then q else (q + 1)%Z.

Definition hundredths (m : positive) (e : Z) : Z :=
  if (0 <=? e)%Z then (Z.pos m * 100 * 2 ^ e)%Z
  else round_half_even_div (Z.pos m * 100) (2 ^ (- e)).

Definition two_decimals (h : Z) : string :=
  Py.str_int (h / 100) +:+ "."
  +:+ (if (h mod 100 <? 10)%Z then "0" else "") +:+ Py.str_int (h mod 100).

(** [f"{x:.2f}"] with [plus] the text put before a value that is not negative *)
Definition fmt_fixed2 (plus : string) (x : float) : string :=
  match Prim2SF x with
  | S754_zero s => (if s then "-" else plus) +:+ "0.00"
  | S754_infinity s => (if s then "-" else plus) +:+ "inf"
  | S754_nan => plus +:+ "nan"
  | S754_finite s m e => (if s then "-" else plus) +:+ two_decimals (hundredths m e)
  end.

(** [Series.sum()]: NaN skipped *)
Definition series_sum (l : list float) : float :=
  fold_left (fun acc x => if PyNum.isnan x then acc else (acc + x)%float) l 0%float.

Fixpoint tally (l : list string) (acc : list (string * Z)) : list (string * Z) :=
  match l with
  | [] => acc
  | x :: t =>
      tally t (match dict_get x acc with
               | Some n => dict_set x (n + 1)%Z acc
               | None => acc ++ [(x, 1%Z)]
               end)
  end.

Fixpoint insert_count (x : string * Z) (l : list (string * Z)) : list (string * Z) :=
  match l with
  | [] => [x]
  | y :: t => if (snd y <? snd x)%Z then x :: y :: t else y :: insert_count x t
  end.

(** [value_counts()]: most frequent first *)
Definition value_counts (l : list string) : list (string * Z) :=
  fold_right insert_count [] (tally l []).

(** [int(x)]: towards zero *)
Definition int_of_float (x : float) : res Z :=
  match Prim2SF x with
  | S754_zero _ => Ok 0%Z
  | S754_infinity _ =>
      Raise (Exn "OverflowError" "cannot convert float infinity to integer")
  | S754_nan => Raise (Exn "ValueError" "cannot convert float NaN to integer")
  | S754_finite s m e =>
      let a := if (0 <=? e)%Z then (Z.pos m * 2 ^ e)%Z else (Z.pos m / 2 ^ (- e))%Z in
      Ok (if s then (- a)%Z else a)
  end.

Definition pad2 (n : Z) : string :=
  (if (n <? 10)%Z then "0" else "") +:+ Py.str_int n.

(** The civil date of a day count from 1970-01-01, as [%Y-%m-%d] *)
Definition strftime_ymd (days : Z) : string :=
  let z := (days + 719468)%Z in
  let era := (z / 146097)%Z in
  let doe := (z - era * 146097)%Z in
  let yoe := ((doe - doe / 1460 + doe / 36524 - doe / 146096) / 365)%Z in
  let doy := (doe - (365 * yoe + yoe / 4 - yoe / 100))%Z in
  let mp := ((5 * doy + 2) / 153)%Z in
  let d := (doy - (153 * mp + 2) / 5 + 1)%Z in
  let m := (if (mp <? 10)%Z then mp + 3 else mp - 9)%Z in
  let y := (yoe + era * 400 + (if (m <=? 2)%Z then 1 else 0))%Z in
  Py.str_int y +:+ "-" +:+ pad2 m +:+ "-" +:+ pad2 d.

Definition lib_with (sort : (merged_row -> float) -> list merged_row -> list merged_row)
  : pylib :=
  PyLib sort round2 str_float (fmt_fixed2 "") (fmt_fixed2 "+")
        series_sum value_counts int_of_float strftime_ymd.

Definition lib : pylib := lib_with sort_stable.
Definition lib_reversing : pylib := lib_with sort_reversing.

End Ref.

(** ** Notions used in the statements *)

(** The characters [str] of an [int] is made of *)
Definition numeric_char (a : ascii) : bool :=
  Py.char_isdigit a || Ascii.eqb a "-".

(** A text read backwards *)
Fixpoint str_rev (s : string) : string :=
  match s with
  | EmptyString => EmptyString
  | String a t => str_rev t +:+ String a EmptyString
  end.

(** A record of [data] shows the row it was built from, after the display
    rounding. *)
Definition shows (L : pylib) (d : pydict) (r : merged_row) : Prop :=
  exists c hi, d = stock_data_of L c hi (round_row L r).

(** [total_matched] is absent or the number of records of [data]. *)
Definition counts_data (p : payload) : Prop :=
  total_matched p = None
  \/ total_matched p = Some (Z.of_nat (length (data p))).

(** What a returned payload owes to the criteria of the call: its records
    show rows that all pass the four thresholds, in the rank order asked for. *)
Definition answers (L : pylib) (c : criteria) (p : payload) : Prop :=
  exists result : list merged_row,
    Forall2 (shows L) (data p) result
    /\ Forall (fun r => passes c r = true) result
    /\ descending (rank_key (sort_by c)) result
    /\ counts_data p.

(** Every entry of [_request_cache] answers the criteria that lead to its key. *)
Definition cache_inv (L : pylib) (request_cache : gmap string (payload * float)) : Prop :=
  forall c p t, request_cache !! cache_key L c = Some (p, t) -> answers L c p.

(** The same query with another cap *)
Definition with_max_results (n : Z) (c : criteria) : criteria :=
  Criteria (main_fund_inflow_argument c) (turnover_ratio_threshold c)
           (price_change_threshold c) (main_fund_ratio_threshold c)
           (stock_type c) n (sort_by c) (analyze_holding c) (use_cache c).

(** Line 274 as it was meant: the code passed for [symbol]. *)
Definition clean_code_repaired (stock_code : string) : res string :=
  call_format_stock_code [("symbol", stock_code)].

(** The same query with another [use_cache] *)
Definition with_use_cache (b : bool) (c : criteria) : criteria :=
  Criteria (main_fund_inflow_argument c) (turnover_ratio_threshold c)
           (price_change_threshold c) (main_fund_ratio_threshold c)
           (stock_type c) (max_results c) (sort_by c) (analyze_holding c) b.

(** The same query with the inflow threshold arriving otherwise *)
Definition with_inflow (a : inflow_argument) (c : criteria) : criteria :=
  Criteria a (turnover_ratio_threshold c)
           (price_change_threshold c) (main_fund_ratio_threshold c)
           (stock_type c) (max_results c) (sort_by c) (analyze_holding c)
           (use_cache c).

(** The columns of the fund-flow table that carry the ratio once lines
    128-131 have renamed them *)
Definition ratio_columns (df : frame fund_row) : nat :=
  (label_count "今日排行榜-主力净占比" df + label_count "主力净流入-净占比" df)%nat.

(** The requests of step 11 *)
Definition holdings_request (rq : request) : bool :=
  match rq with
  | ReqInstituteHold _ _ | ReqStockHolder _ => true
  | ReqMainFundFlow _ | ReqSpot => false
  end.

(** The sum of the counters of a trend dictionary *)
Definition trend_total (trends : list (string * Z)) : Z :=
  fold_right (fun kv acc => (snd kv + acc)%Z) 0%Z trends.

(** The keys of [inst_trends] and [holder_trends] (lines 666-667) *)
Definition trend_labels : list string := map fst zero_trends.

(** An entry of [holding_info] whose two trends the statistics can count:
    each is a key of the counters. *)
Definition countable (L : pylib) (h : stock_holding) : Prop :=
  In (trend_label L "持股趋势" (inst_of h)) trend_labels
  /\ In (trend_label L "总体趋势" (holders_of h)) trend_labels.

(** ** A small market *)

Module Example.

Definition fund_columns : list string :=
  ["序号"; "代码"; "名称"; "最新价"; "今日排行榜-主力净占比"].

Definition quote_columns : list string :=
  ["序号"; "代码"; "名称"; "最新价"; "涨跌幅"; "成交量"; "成交额"; "总市值"].

(** Two stocks with the same absolute net inflow (20000 in units of ten
    thousand), one bought and one sold, and one that moved too little. *)
Definition df_main_fund : frame fund_row :=
  Frame fund_columns
    [ FundRow "000001" "PAB" 10%float;
      FundRow "600519" "KWM" (-10)%float;
      FundRow "300750" "CATL" 10%float ].

Definition df_quote : frame quote_row :=
  Frame quote_columns
    [ QuoteRow "000001" "PAB" 10%float 5%float 1000000%float
               2000000000%float 20000000000%float;
      QuoteRow "600519" "KWM" 1500%float (-4)%float 500000%float
               2000000000%float 10000000000%float;
      QuoteRow "300750" "CATL" 200%float 1%float 800000%float
               2000000000%float 20000000000%float ].

(** The holdings source answers for "000001" only; it fails for the rest. *)
Definition institute (stock quarter : string) : res (frame inst_row) :=
  if String.eqb stock "000001"
  then Ok (Frame ["持股比例"; "持股比例增幅"; "持股机构类型"]
                 [InstRow 0%float 2.5%float 0.5%float "基金"])
  else Raise (Exn "ConnectionError" "remote end closed connection").

Definition holders (stock : string) : res (frame holder_row) :=
  if String.eqb stock "000001"
  then Ok (Frame ["截至日期"; "股东名称"; "持股比例"; "股东总数"]
                 [ HolderRow 20000 "HK" 50%float 1000%float;
                   HolderRow 19900 "HK" 49%float 1000%float ])
  else Raise (Exn "ConnectionError" "remote end closed connection").

Definition world_at (t : float) : world :=
  World t 2025 11 (fun _ => Ok df_main_fund) (Ok df_quote) institute holders.

Definition w0 : world := world_at 1000%float.
(** A hundred seconds later *)
Definition w1 : world := world_at 1100%float.

(** The thresholds left to their defaults, without and with the holdings *)
Definition query : criteria :=
  Criteria Omitted 6%float 3%float 10%float "全部股票" 10 main_fund false true.

Definition query_holding : criteria :=
  Criteria Omitted 6%float 3%float 10%float "全部股票" 10 main_fund true true.

(** [d["代码"]] of the records of a payload *)
Definition codes (p : payload) : list (option pyval) :=
  map (dict_get "代码") (data p).

Definition returned (r : res payload * gmap string (payload * float) * list request)
  : res payload := fst (fst r).
Definition cache_after (r : res payload * gmap string (payload * float) * list request)
  : gmap string (payload * float) := snd (fst r).
Definition requests (r : res payload * gmap string (payload * float) * list request)
  : list request := snd r.

(** The payload of a call that returned one *)
Definition payload_of (r : res payload * gmap string (payload * float) * list request)
  : payload :=
  match returned r with
  | Ok p => p
  | Raise _ => message_only "" None
  end.

(** The join of the two tables *)
Definition merged : list merged_row :=
  match reconcile df_main_fund df_quote with
  | Ok (inr m) => m
  | _ => []
  end.

(** The holdings asked for, the result cache bypassed *)
Definition query_holding_fresh : criteria :=
  Criteria Omitted 6%float 3%float 10%float "全部股票" 10 main_fund true false.

(** The first call of a session, and a second one a hundred seconds later *)
Definition first_call (L : pylib) (c : criteria) :=
  analyze_large_fund_flow L w0 c ∅.
Definition second_call (L : pylib) (c c' : criteria) :=
  analyze_large_fund_flow L w1 c' (cache_after (first_call L c)).

(** The same two calls with the call of line 274 repaired *)
Definition first_call_repaired (L : pylib) (c : criteria) :=
  analyze_with L clean_code_repaired w0 c ∅.
Definition second_call_repaired (L : pylib) (c c' : criteria) :=
  analyze_with L clean_code_repaired w1 c' (cache_after (first_call_repaired L c)).

(** The same query, the result cache bypassed *)
Definition query_fresh : criteria := with_use_cache false query.

(** The same query with the threshold 5000 passed instead of left out *)
Definition query_passed : criteria := with_inflow (Passed 5000%float) query.

(** The same query ranked by turnover ratio *)
Definition query_by_turnover : criteria :=
  Criteria Omitted 6%float 3%float 10%float "全部股票" 10 turnover_ratio false true.

(** The fund-flow table with a 成交额 column of its own, and with the ratio
    under both of its names *)
Definition df_main_fund_with_amount : frame fund_row :=
  Frame (fund_columns ++ ["成交额"]) (rows df_main_fund).
Definition df_main_fund_two_ratios : frame fund_row :=
  Frame (fund_columns ++ ["主力净流入-净占比"]) (rows df_main_fund).

(** A row of nothing, the default of [nth] *)
Definition no_row : merged_row :=
  MergedRow "" "" 0%float 0%float 0%float 0%float 0%float 0%float 0%float
            0%float 0%float 0%float 0%float "".

(** The first and the second joined row that pass the default thresholds *)
Definition first_passing : merged_row := nth 0 (filtered_df query merged) no_row.
Definition second_passing : merged_row := nth 1 (filtered_df query merged) no_row.

(** Two holders at the latest date, one of them already there at the date before *)
Definition df_holders : frame holder_row :=
  Frame ["截至日期"; "股东名称"; "持股比例"; "股东总数"]
        [ HolderRow 20000 "HK" 50%float 1000%float;
          HolderRow 20000 "CSF" 3%float 1000%float;
          HolderRow 19900 "HK" 49%float 1000%float ].

(** The summary of [df_holders] *)
Definition holders_summary : pydict :=
  match holder_summary Ref.lib df_holders with
  | Ok d => d
  | Raise _ => []
  end.

(** The holdings of two stocks: one looked up, one that failed as a whole *)
Definition holding_info : list (string * stock_holding) :=
  [ ("000001", Holding [("状态", VStr "无机构持股数据")] [("总体趋势", VStr "增持")]);
    ("600519", HoldingError "timeout") ].

(** The holdings of a stock whose two lookups failed *)
Definition failed_lookups : stock_holding :=
  Holding [("错误", VStr "timeout")] [("错误", VStr "timeout")].

End Example.

(* ===================================================================== *)
(** * Part II: properties *)
(* ===================================================================== *)

(** In the proofs text concatenation unfolds on a literal prefix. *)
#[local] Arguments append !s1 s2 / : simpl nomatch.

(** ** Strings *)

Lemma append_last_inj (a b : string) (c c' : ascii) :
  a +:+ String c "" = b +:+ String c' "" -> a = b /\ c = c'.
Proof.
  revert b; induction a as [|x a IH]; intros [|y b] H; simpl in H.
  - injection H as ->. auto.
  - injection H as -> H. destruct b; discriminate.
  - injection H as -> H. destruct a; discriminate.
  - injection H as -> H. destruct (IH _ H) as [-> ->]. auto.
Qed.

Lemma str_int_inj (x y : Z) : Py.str_int x = Py.str_int y -> x = y.
Proof.
  unfold Py.str_int. intros H. apply DecimalZ.to_int_inj.
  pose proof (NilEmpty.isi (Z.to_int x)) as Hx.
  pose proof (NilEmpty.isi (Z.to_int y)) as Hy.
  rewrite H in Hx. rewrite Hx in Hy. now injection Hy.
Qed.

Lemma contains_app (c : ascii) (a b : string) :
  Py.contains c (a +:+ b) = Py.contains c a || Py.contains c b.
Proof.
  induction a as [|x a IH]; simpl; [reflexivity|].
  rewrite IH. now rewrite orb_assoc.
Qed.

(** A text is cut in one way only at the first occurrence of a character. *)
Lemma split_unique (c : ascii) (a a' b b' : string) :
  Py.contains c a = false -> Py.contains c a' = false ->
  a +:+ String c b = a' +:+ String c b' -> a = a' /\ b = b'.
Proof.
  revert a'; induction a as [|x a IH]; intros [|y a'] Ha Ha' H; simpl in *.
  - injection H as ->. auto.
  - injection H as <- _. rewrite Ascii.eqb_refl in Ha'. discriminate.
  - injection H as -> _. rewrite Ascii.eqb_refl in Ha. discriminate.
  - injection H as -> H.
    apply orb_false_iff in Ha as [_ Ha]. apply orb_false_iff in Ha' as [_ Ha'].
    destruct (IH _ Ha Ha' H) as [-> ->]. auto.
Qed.

(** ** [dict.fromkeys] *)

Lemma dict_fromkeys_In (x : string) (l : list string) :
  In x (Py.dict_fromkeys l) <-> In x l.
Proof.
  induction l as [|y l IH]; simpl; [tauto|].
  rewrite filter_In, IH.
  destruct (String.eqb_spec y x) as [->|Hne]; simpl; [tauto|].
  split; [tauto|]. intros [?|?]; [tauto|]. right. split; auto.
Qed.

Lemma dict_fromkeys_NoDup (l : list string) : List.NoDup (Py.dict_fromkeys l).
Proof.
  induction l as [|y l IH]; simpl; constructor.
  - rewrite filter_In, String.eqb_refl. simpl. intros [_ H]. discriminate.
  - now apply List.NoDup_filter.
Qed.

Lemma filter_all {A} (p : A -> bool) (l : list A) :
  (forall x, In x l -> p x = true) -> List.filter p l = l.
Proof.
  induction l as [|y l IH]; simpl; intros H; [reflexivity|].
  rewrite (H y) by auto. f_equal. apply IH. auto.
Qed.

Lemma dict_fromkeys_id (l : list string) :
  List.NoDup l -> Py.dict_fromkeys l = l.
Proof.
  induction 1 as [|x l Hx Hl IH]; simpl; [reflexivity|].
  rewrite IH. f_equal. apply filter_all. intros y Hy.
  destruct (String.eqb_spec x y) as [->|]; [contradiction|reflexivity].
Qed.

Lemma dict_fromkeys_twice (x : string) (l : list string) :
  Py.dict_fromkeys (x :: x :: l) = Py.dict_fromkeys (x :: l).
Proof.
  simpl. rewrite String.eqb_refl. simpl. f_equal.
  apply filter_all. intros y Hy. apply filter_In in Hy. tauto.
Qed.

Lemma dict_fromkeys_hd (l : list string) :
  hd_error (Py.dict_fromkeys l) = hd_error l.
Proof. destruct l; reflexivity. Qed.

(** ** The utilities *)

Example format_stock_code_prefixed : format_stock_code "SZ000001" = "000001".
Proof. reflexivity. Qed.

Example format_stock_code_plain : format_stock_code "600519" = "600519".
Proof. reflexivity. Qed.

Example get_stock_market_sh : get_stock_market "600519" = Ok (Some "sh").
Proof. reflexivity. Qed.

Example get_stock_market_sz : get_stock_market "000001" = Ok (Some "sz").
Proof. reflexivity. Qed.

Example get_stock_market_bj : get_stock_market "830799" = Ok (Some "bj").
Proof. reflexivity. Qed.

(** Anything that is not six digits is refused. *)
Lemma get_stock_market_invalid (symbol : string) :
  (String.length symbol =? 6)%nat && Py.isdigit symbol = false ->
  get_stock_market symbol = Raise (Exn "ValueError" "股票代码必须为6位数字字符串").
Proof. unfold get_stock_market. now intros ->. Qed.

(** Six digits are never refused: the answer is a market or [None]. *)
Lemma get_stock_market_valid (symbol : string) :
  (String.length symbol =? 6)%nat && Py.isdigit symbol = true ->
  exists m, get_stock_market symbol = Ok m
            /\ (m = None \/ m = Some "sh" \/ m = Some "sz" \/ m = Some "bj").
Proof.
  unfold get_stock_market. intros ->. simpl.
  repeat match goal with
         | |- context [if ?b then _ else _] => destruct b
         end; eauto 8.
Qed.

(** A two-character prefix is never the three-character entry "002". *)
Lemma first_chars_2_not_002 (symbol : string) :
  String.eqb (Py.first_chars 2 symbol) "002" = false.
Proof.
  unfold Py.first_chars.
  destruct symbol as [|a [|b [|c s]]]; apply String.eqb_neq; simpl;
    intros H; discriminate H.
Qed.

(** Six digits with a prefix of no exchange: the function ends without a
    [return]. *)
Lemma get_stock_market_other_prefix (symbol : string) :
  (String.length symbol =? 6)%nat && Py.isdigit symbol = true ->
  Py.str_in (Py.first_chars 2 symbol)
            ["60"; "68"; "00"; "30"; "43"; "83"; "87"; "88"] = false ->
  get_stock_market symbol = Ok None.
Proof.
  unfold get_stock_market, Py.str_in. intros -> H. simpl in *.
  repeat (apply orb_false_iff in H as [? H]).
  repeat match goal with
         | E : String.eqb ?a ?b = false |- _ => rewrite E; clear E
         end.
  rewrite first_chars_2_not_002. reflexivity.
Qed.

(** C9 (defect).  For the six-digit code "999999", whose prefix belongs to no
    exchange, the classifier returns Python's [None]: not the "unknown
    market" text its docstring names, and no string at all. *)
Theorem get_stock_market_unknown_prefix_is_none :
  get_stock_market "999999" = Ok None
  /\ get_stock_market "999999" <> Ok (Some unknown_market).
Proof. split; [reflexivity | discriminate]. Qed.

(** C10 (defect).  The last six characters are kept before the suffix is cut
    at the dot, so "600519.SH" is normalised to "519", not to "600519". *)
Theorem format_stock_code_suffixed_loses_digits :
  format_stock_code "600519.SH" = "519"
  /\ format_stock_code "600519.SH" <> "600519".
Proof. split; [reflexivity | discriminate]. Qed.

(** ** Reporting quarters *)

Example quarters_nov : quarters_to_try 2025 11 =
  ["20253"; "20252"; "20251"; "20244"; "20243"; "20242"; "20241"].
Proof. vm_compute. reflexivity. Qed.

Example quarters_apr : quarters_to_try 2025 4 =
  ["20251"; "20244"; "20243"; "20242"; "20241"].
Proof. vm_compute. reflexivity. Qed.

Ltac quarter_ids_differ :=
  match goal with
  | H : Py.str_int _ +:+ String _ "" = Py.str_int _ +:+ String _ "" |- _ =>
      let Hc := fresh "Hc" in
      apply append_last_inj in H; destruct H as [H Hc];
      first [ discriminate Hc | apply str_int_inj in H; lia ]
  end.

Lemma quarter_ids_NoDup (y : Z) :
  List.NoDup [ quarter_id y "3"; quarter_id y "2"; quarter_id y "1";
               quarter_id (y - 1) "4"; quarter_id (y - 1) "3";
               quarter_id (y - 1) "2"; quarter_id (y - 1) "1" ].
Proof.
  unfold quarter_id.
  repeat (constructor;
          [ simpl; intros H;
            repeat (destruct H as [H|H]; [quarter_ids_differ|]); exact H | ]).
  constructor.
Qed.

(** The list in closed form, for every month number. *)
Lemma quarters_to_try_closed (y m : Z) :
  quarters_to_try y m =
    (if (10 <=? m)%Z then [quarter_id y "3"; quarter_id y "2"; quarter_id y "1"]
     else if (8 <=? m)%Z then [quarter_id y "2"; quarter_id y "1"]
     else [quarter_id y "1"])
    ++ [ quarter_id (y - 1) "4"; quarter_id (y - 1) "3";
         quarter_id (y - 1) "2"; quarter_id (y - 1) "1" ].
Proof.
  pose proof (quarter_ids_NoDup y) as H7.
  pose proof H7 as H6. apply List.NoDup_cons_iff in H6 as [_ H6].
  pose proof H6 as H5. apply List.NoDup_cons_iff in H5 as [_ H5].
  unfold quarters_to_try. fold (quarter_id y "1") (quarter_id y "2")
    (quarter_id y "3") (quarter_id (y - 1) "4") (quarter_id (y - 1) "3")
    (quarter_id (y - 1) "2") (quarter_id (y - 1) "1").
  destruct (Z.leb_spec 4 m), (Z.leb_spec 8 m), (Z.leb_spec 10 m),
    (Z.leb_spec m 4); try lia; cbn [app];
    rewrite ?dict_fromkeys_twice; now apply dict_fromkeys_id.
Qed.

(** C5.  The candidate list is a function of the year and the month and
    holds no identifier twice.  The current year's quarter 1 is in it from
    April on, quarter 2 from August on, quarter 3 from October on, the most
    recent first and ahead of the previous year's quarter 4, which is always
    there; in November the list begins with the current year's quarter 3. *)
Theorem quarters_to_try_candidates (y m : Z) :
  List.NoDup (quarters_to_try y m)
  /\ In (quarter_id (y - 1) "4") (quarters_to_try y m)
  /\ (4 <= m -> In (quarter_id y "1") (quarters_to_try y m))
  /\ (8 <= m -> In (quarter_id y "2") (quarters_to_try y m))
  /\ (10 <= m -> In (quarter_id y "3") (quarters_to_try y m))
  /\ (4 <= m < 8 -> exists rest,
        quarters_to_try y m = quarter_id y "1" :: quarter_id (y - 1) "4" :: rest)
  /\ (8 <= m < 10 -> exists rest,
        quarters_to_try y m
        = quarter_id y "2" :: quarter_id y "1" :: quarter_id (y - 1) "4" :: rest)
  /\ (10 <= m -> exists rest,
        quarters_to_try y m
        = quarter_id y "3" :: quarter_id y "2" :: quarter_id y "1"
          :: quarter_id (y - 1) "4" :: rest)
  /\ hd_error (quarters_to_try y 11) = Some (quarter_id y "3").
Proof.
  split; [apply dict_fromkeys_NoDup|].
  rewrite !quarters_to_try_closed.
  destruct (Z.leb_spec 10 m), (Z.leb_spec 8 m); try lia; cbn [app];
    repeat split; intros; try lia; simpl; eauto 8.
Qed.

Lemma quarters_to_try_candidates_witness :
  In (quarter_id 2025 "3") (quarters_to_try 2025 11)
  /\ exists rest, quarters_to_try 2025 11
       = quarter_id 2025 "3" :: quarter_id 2025 "2" :: quarter_id 2025 "1"
         :: quarter_id (2025 - 1) "4" :: rest.
Proof.
  destruct (quarters_to_try_candidates 2025 11)
    as (_ & _ & _ & _ & H3 & _ & _ & Hfirst & _).
  split; [apply H3 | apply Hfirst]; lia.
Defined.

(** Before August the current year's quarter 2 is not probed, and before
    October its quarter 3 is not; its quarter 1 is probed in every month. *)
Lemma quarters_to_try_not_yet (y m : Z) :
  (m < 8 -> ~ In (quarter_id y "2") (quarters_to_try y m))
  /\ (m < 10 -> ~ In (quarter_id y "3") (quarters_to_try y m))
  /\ In (quarter_id y "1") (quarters_to_try y m).
Proof.
  rewrite quarters_to_try_closed. unfold quarter_id.
  destruct (Z.leb_spec 10 m), (Z.leb_spec 8 m); try lia; cbn [app];
    repeat split; intros; try lia; simpl; auto;
    intros H'; repeat (destruct H' as [H'|H']; [quarter_ids_differ|]); exact H'.
Qed.

(** ** Floats *)

Lemma SFcompare_antisym (x y : spec_float) :
  SFcompare y x = option_map CompOpp (SFcompare x y).
Proof.
  destruct x as [sx|sx| |sx mx ex], y as [sy|sy| |sy my ey]; simpl;
    try reflexivity; try (destruct sx; reflexivity);
    try (destruct sy; reflexivity); try (destruct sx, sy; reflexivity).
  destruct sx, sy; try reflexivity; simpl;
    rewrite (Z.compare_antisym ex ey); destruct (ex ?= ey)%Z; simpl;
    try reflexivity;
    rewrite (Pos.compare_cont_antisym mx my Eq); reflexivity.
Qed.

Lemma SFcompare_refl (x : spec_float) :
  x <> S754_nan -> SFcompare x x = Some Eq.
Proof.
  destruct x as [s|s| |s m e]; simpl; intros H; try congruence.
  - now destruct s.
  - destruct s; rewrite Z.compare_refl, Pos.compare_cont_refl; reflexivity.
Qed.

Lemma isnan_false (a : float) :
  PyNum.isnan a = false <-> Prim2SF a <> S754_nan.
Proof.
  unfold PyNum.isnan. rewrite FloatAxioms.eqb_spec. unfold SFeqb. split.
  - intros H Hn. rewrite Hn in H. discriminate.
  - intros H. now rewrite (SFcompare_refl _ H).
Qed.

Lemma SFcompare_some (x y : spec_float) :
  x <> S754_nan -> y <> S754_nan -> exists c, SFcompare x y = Some c.
Proof.
  destruct x as [sx|sx| |sx mx ex], y as [sy|sy| |sy my ey]; simpl;
    intros Hx Hy; try congruence; eauto.
Qed.

(** A comparison that holds has two numbers on its sides. *)
Lemma ge_not_nan (a b : float) :
  PyNum.ge a b = true -> PyNum.isnan a = false /\ PyNum.isnan b = false.
Proof.
  unfold PyNum.ge. rewrite FloatAxioms.leb_spec, !isnan_false. unfold SFleb.
  destruct (Prim2SF b), (Prim2SF a); cbn; intros H; split; congruence.
Qed.

(** Numbers are totally ordered. *)
Lemma ge_total (a b : float) :
  PyNum.isnan a = false -> PyNum.isnan b = false ->
  PyNum.ge a b = false -> PyNum.ge b a = true.
Proof.
  unfold PyNum.ge. rewrite !FloatAxioms.leb_spec, !isnan_false. unfold SFleb.
  intros Ha Hb. rewrite (SFcompare_antisym (Prim2SF b) (Prim2SF a)).
  destruct (SFcompare_some _ _ Hb Ha) as [c ->]. now destruct c.
Qed.

Lemma gt_ge (a b : float) : PyNum.gt a b = true -> PyNum.ge a b = true.
Proof.
  unfold PyNum.gt, PyNum.ge. rewrite FloatAxioms.ltb_spec, FloatAxioms.leb_spec. unfold SFltb, SFleb.
  now destruct (SFcompare (Prim2SF b) (Prim2SF a)) as [[]|].
Qed.

Lemma not_gt_ge (a b : float) :
  PyNum.isnan a = false -> PyNum.isnan b = false ->
  PyNum.gt a b = false -> PyNum.ge b a = true.
Proof.
  unfold PyNum.gt, PyNum.ge. rewrite FloatAxioms.ltb_spec, FloatAxioms.leb_spec, !isnan_false.
  unfold SFltb, SFleb. intros Ha Hb.
  rewrite (SFcompare_antisym (Prim2SF b) (Prim2SF a)).
  destruct (SFcompare_some _ _ Hb Ha) as [c ->]. now destruct c.
Qed.

(** ** The reference libraries meet the contract *)

Section InsertionSort.
Variable before : float -> float -> bool.
Variable key : merged_row -> float.
Hypothesis before_ge : forall a b, before a b = true -> PyNum.ge a b = true.
Hypothesis not_before_ge : forall a b,
  PyNum.isnan a = false -> PyNum.isnan b = false ->
  before a b = false -> PyNum.ge b a = true.

Lemma insert_perm (x : merged_row) (l : list merged_row) :
  Permutation (Ref.insert before key x l) (x :: l).
Proof.
  induction l as [|y t IH]; simpl; [reflexivity|].
  destruct (before (key x) (key y)); [reflexivity|].
  rewrite IH. apply perm_swap.
Qed.

Lemma isort_perm (l : list merged_row) :
  Permutation (Ref.isort before key l) l.
Proof.
  induction l as [|x t IH]; simpl; [reflexivity|].
  rewrite insert_perm. now constructor.
Qed.

Lemma insert_descending (x : merged_row) (l : list merged_row) :
  PyNum.isnan (key x) = false ->
  Forall (fun r => PyNum.isnan (key r) = false) l ->
  descending key l -> descending key (Ref.insert before key x l).
Proof.
  unfold descending. intros Hx Hl Hs.
  induction l as [|y t IH]; simpl.
  - repeat constructor.
  - inversion Hl as [|? ? Hy Ht]; subst. inversion Hs as [|? ? Hst Hhd]; subst.
    destruct (before (key x) (key y)) eqn:E.
    + constructor; [assumption|]. constructor. now apply before_ge.
    + constructor; [now apply IH|].
      destruct t as [|z t']; simpl.
      * constructor. now apply not_before_ge.
      * destruct (before (key x) (key z)).
        -- constructor. now apply not_before_ge.
        -- inversion Hhd; subst. now constructor.
Qed.

Lemma isort_descending (l : list merged_row) :
  Forall (fun r => PyNum.isnan (key r) = false) l ->
  descending key (Ref.isort before key l).
Proof.
  induction 1 as [|x t Hx Ht IH]; simpl; [constructor|].
  apply insert_descending; auto.
  eapply Permutation_Forall; [symmetry; apply isort_perm | exact Ht].
Qed.
End InsertionSort.

Lemma all_chars_contains (p : ascii -> bool) (c : ascii) (s : string) :
  Py.all_chars p s = true -> p c = false -> Py.contains c s = false.
Proof.
  induction s as [|a s IH]; simpl; [reflexivity|].
  intros H Hc. apply andb_true_iff in H as [Ha Hs].
  rewrite (IH Hs Hc), orb_false_r.
  destruct (Ascii.eqb_spec a c) as [->|]; [congruence|reflexivity].
Qed.

Lemma str_int_numeric (z : Z) : Py.all_chars numeric_char (Py.str_int z) = true.
Proof.
  unfold Py.str_int.
  assert (Hu : forall d, Py.all_chars numeric_char (NilEmpty.string_of_uint d) = true)
    by (induction d; simpl; auto).
  destruct (Z.to_int z); simpl; auto.
Qed.

Lemma str_int_without (c : ascii) (z : Z) :
  numeric_char c = false -> Py.contains c (Py.str_int z) = false.
Proof. intros Hc. eapply all_chars_contains; [apply str_int_numeric | exact Hc]. Qed.

Lemma ref_str_float_inj (x y : float) :
  Ref.str_float x = Ref.str_float y -> x = y.
Proof.
  intros H. apply Prim2SF_inj. revert H. unfold Ref.str_float.
  assert (Hp : forall z, Py.contains "p" (Py.str_int z) = false)
    by (intros z; now apply str_int_without).
  assert (Hfin : forall z e, Py.contains "p" (Py.str_int z +:+ String "p" (Py.str_int e)) = true).
  { intros z e. rewrite contains_app. simpl. apply orb_true_r. }
  destruct (Prim2SF x) as [sx|sx| |sx mx ex], (Prim2SF y) as [sy|sy| |sy my ey];
    intros H;
    try (destruct sx, sy; (reflexivity || discriminate H));
    try (destruct sx; discriminate H); try (destruct sy; discriminate H);
    try reflexivity;
    try (apply (f_equal (Py.contains "p")) in H; rewrite Hfin in H;
         try destruct s; try destruct sx; try destruct sy; discriminate H).
  apply split_unique in H; [|apply Hp|apply Hp].
  destruct H as [Hm He]. apply str_int_inj in Hm, He. subst.
  destruct sx, sy; congruence.
Qed.

Lemma ref_str_float_plain (x : float) :
  Py.contains "_" (Ref.str_float x) = false.
Proof.
  unfold Ref.str_float.
  destruct (Prim2SF x) as [s|s| |s m e]; try (destruct s; reflexivity);
    try reflexivity.
  rewrite contains_app. simpl. now rewrite !str_int_without.
Qed.

Lemma ref_str_float_not_int (x : float) (z : Z) :
  Ref.str_float x <> Py.str_int z.
Proof.
  unfold Ref.str_float. intros H.
  destruct (Prim2SF x) as [s|s| |s m e].
  - apply (f_equal (Py.contains ".")) in H.
    rewrite str_int_without in H by reflexivity. destruct s; discriminate H.
  - apply (f_equal (Py.contains "i")) in H.
    rewrite str_int_without in H by reflexivity. destruct s; discriminate H.
  - apply (f_equal (Py.contains "n")) in H.
    rewrite str_int_without in H by reflexivity. discriminate H.
  - apply (f_equal (Py.contains "p")) in H.
    rewrite contains_app, (str_int_without "p" z) in H by reflexivity.
    simpl in H. rewrite orb_true_r in H. discriminate H.
Qed.

Lemma ref_lib_with_ok (before : float -> float -> bool) :
  (forall a b, before a b = true -> PyNum.ge a b = true) ->
  (forall a b, PyNum.isnan a = false -> PyNum.isnan b = false ->
               before a b = false -> PyNum.ge b a = true) ->
  pylib_ok (Ref.lib_with (Ref.isort before)).
Proof.
  intros H1 H2. constructor; simpl.
  - intros key l. apply isort_perm.
  - intros key l. now apply isort_descending.
  - apply ref_str_float_inj.
  - apply ref_str_float_plain.
  - apply ref_str_float_not_int.
Qed.

Lemma ref_lib_ok : pylib_ok Ref.lib.
Proof.
  apply ref_lib_with_ok.
  - auto.
  - intros a b Ha Hb. now apply ge_total.
Qed.

Lemma ref_lib_reversing_ok : pylib_ok Ref.lib_reversing.
Proof.
  apply ref_lib_with_ok.
  - apply gt_ge.
  - apply not_gt_ge.
Qed.

(** ** The small market, run *)

Example example_merged :
  (let+ m := process_main_fund Example.df_main_fund Example.df_quote in
   let+ q := process_quote Example.df_quote in
   Ok (map (fun r => (r_code r, r_wan r, r_turnover r, r_mf_ratio r, r_direction r))
           (merged_df m q Example.df_quote)))
  = Ok [ ("000001", 20000%float, 10%float, 10%float, "流入");
         ("600519", (-20000)%float, 20%float, 10%float, "流出");
         ("300750", 20000%float, 10%float, 10%float, "流入") ].
Proof. vm_compute. reflexivity. Qed.

Example example_run :
  option_map Example.codes
    (match Example.returned (analyze_large_fund_flow Ref.lib Example.w0 Example.query ∅) with
     | Ok p => Some p | Raise _ => None end)
  = Some [Some (VStr "000001"); Some (VStr "600519")].
Proof. vm_compute. reflexivity. Qed.

(** ** Filter, rank, cap *)

Lemma head_firstn {R} (n : Z) (l : list R) : exists k, head n l = firstn k l.
Proof. unfold head. destruct (0 <=? n)%Z; eauto. Qed.

Lemma head_length {R} (n : Z) (l : list R) :
  (0 <= n)%Z -> length (head n l) = Nat.min (Z.to_nat n) (length l).
Proof.
  intros Hn. unfold head. destruct (Z.leb_spec 0 n); [|lia].
  apply length_firstn.
Qed.

Lemma Sorted_firstn {A} (R : A -> A -> Prop) (k : nat) (l : list A) :
  Sorted R l -> Sorted R (firstn k l).
Proof.
  revert k; induction l as [|x l IH]; intros [|k] H; simpl; try constructor.
  - apply IH. now inversion H.
  - inversion H as [|? ? _ Hhd]; subst.
    destruct l as [|y l], k as [|k]; simpl; constructor.
    now inversion Hhd.
Qed.

Lemma firstn_In {A} (x : A) (k : nat) (l : list A) :
  In x (firstn k l) -> In x l.
Proof.
  intros H. rewrite <- (firstn_skipn k l). apply in_or_app. now left.
Qed.

Lemma Forall_firstn {A} (P : A -> Prop) (k : nat) (l : list A) :
  Forall P l -> Forall P (firstn k l).
Proof.
  intros H. apply List.Forall_forall. intros x Hx.
  eapply List.Forall_forall; [exact H|]. eapply firstn_In; eauto.
Qed.

Lemma passes_thresholds (c : criteria) (r : merged_row) :
  passes c r = true <->
  PyNum.ge (PrimFloat.abs (r_wan r)) (main_fund_inflow_threshold c) = true
  /\ PyNum.ge (r_turnover r) (turnover_ratio_threshold c) = true
  /\ PyNum.ge (PrimFloat.abs (r_chg r)) (price_change_threshold c) = true
  /\ PyNum.ge (r_mf_ratio r) (main_fund_ratio_threshold c) = true.
Proof. unfold passes. rewrite !andb_true_iff. tauto. Qed.

(** A row that passes has a number for either rank key. *)
Lemma passes_rank_key (c : criteria) (k : sort_key) (r : merged_row) :
  passes c r = true -> PyNum.isnan (rank_key k r) = false.
Proof.
  rewrite passes_thresholds. intros (H1 & H2 & _ & _).
  destruct k; simpl; [apply (ge_not_nan _ _ H1) | apply (ge_not_nan _ _ H2)].
Qed.

Lemma filtered_df_passes (c : criteria) (merged : list merged_row) :
  Forall (fun r => passes c r = true) (filtered_df c merged).
Proof.
  apply List.Forall_forall. intros r Hr. apply filter_In in Hr. tauto.
Qed.

Section Ranked.
Variable L : pylib.
Hypothesis HL : pylib_ok L.
Variable c : criteria.
Variable merged : list merged_row.

Lemma sorted_df_perm : Permutation (sorted_df L c merged) (filtered_df c merged).
Proof. apply (sort_values_perm L HL). Qed.

Lemma sorted_df_passes : Forall (fun r => passes c r = true) (sorted_df L c merged).
Proof.
  eapply Permutation_Forall; [symmetry; apply sorted_df_perm|].
  apply filtered_df_passes.
Qed.

Lemma sorted_df_descending :
  descending (rank_key (sort_by c)) (sorted_df L c merged).
Proof.
  apply (sort_values_desc L HL).
  eapply List.Forall_impl; [|apply filtered_df_passes].
  intros r. apply passes_rank_key.
Qed.

Lemma result_rows_passes : Forall (fun r => passes c r = true) (result_rows L c merged).
Proof.
  unfold result_rows. destruct (head_firstn (max_results c) (sorted_df L c merged)) as [k ->].
  apply Forall_firstn, sorted_df_passes.
Qed.

Lemma result_rows_descending :
  descending (rank_key (sort_by c)) (result_rows L c merged).
Proof.
  unfold result_rows. destruct (head_firstn (max_results c) (sorted_df L c merged)) as [k ->].
  apply Sorted_firstn, sorted_df_descending.
Qed.

(** The rows kept come from the join. *)
Lemma result_rows_incl : incl (result_rows L c merged) merged.
Proof.
  unfold result_rows. destruct (head_firstn (max_results c) (sorted_df L c merged)) as [k ->].
  intros r Hr. apply firstn_In in Hr.
  apply (Permutation_in _ sorted_df_perm) in Hr.
  apply filter_In in Hr. tauto.
Qed.

(** A freshly computed result has as many rows as pass the filters, up to the cap. *)
Lemma result_rows_length :
  (0 <= max_results c)%Z ->
  length (result_rows L c merged)
  = Nat.min (Z.to_nat (max_results c)) (length (filtered_df c merged)).
Proof.
  intros Hn. unfold result_rows. rewrite head_length by assumption.
  now rewrite (Permutation_length sorted_df_perm).
Qed.
End Ranked.

(** ** The envelope *)

Lemma build_result_ok (L : pylib) (W : world) (c : criteria)
    (holding_info : list (string * stock_holding)) (result : list merged_row)
    (p : payload) :
  build_result L W c holding_info result = Ok p ->
  data p = map (stock_data_of L c holding_info) result
  /\ total_matched p = Some (Z.of_nat (length (data p)))
  /\ timestamp p = Some (now W)
  /\ message p = "分析完成".
Proof.
  unfold build_result, res_bind. intros H.
  destruct (if analyze_holding c then _ else _) as [stats|e]; [|discriminate].
  injection H as <-. simpl. auto.
Qed.

Lemma reconcile_early (df_main_fund : frame fund_row) (df_quote : frame quote_row)
    (p : payload) :
  reconcile df_main_fund df_quote = Ok (inl p) ->
  data p = [] /\ total_matched p = None.
Proof.
  unfold reconcile, res_bind. intros H.
  destruct (_ && _); [destruct (has_column "代码" df_main_fund)|].
  - destruct process_main_fund; [|discriminate].
    destruct process_quote; discriminate.
  - injection H as <-. auto.
  - injection H as <-. auto.
Qed.

(** How the body of the [try] can end well. *)
Lemma screen_with_ok (L : pylib) (W : world) (clean : string -> res string)
    (holding_cache : gmap string (stock_holding * float)) (c : criteria)
    (sent sent' : list request) (o : outcome) :
  screen_with L W clean holding_cache c sent = (Ok o, sent') ->
  match o with
  | Early p => data p = [] /\ total_matched p = None
  | Full p => exists merged holding_info,
      build_result L W c holding_info (result_df L c merged) = Ok p
  end.
Proof.
  unfold screen_with, io_bind, fetch, io_ret, io_lift. intros H.
  destruct (stock_main_fund_flow W (stock_type c)) as [df_main_fund|e]; [|discriminate].
  destruct (frame_empty df_main_fund).
  { injection H as <- _. auto. }
  destruct (stock_zh_a_spot_em W) as [df_quote|e]; [|discriminate].
  destruct (frame_empty df_quote).
  { injection H as <- _. auto. }
  destruct (reconcile df_main_fund df_quote) as [[q|merged]|e] eqn:Hrec; [| |discriminate].
  { injection H as <- _. eapply reconcile_early; eauto. }
  destruct (if analyze_holding c && _ then _ else _) as [[holding_info|e] sent1];
    [|discriminate].
  destruct (build_result L W c holding_info (result_df L c merged)) as [p|e] eqn:Hb;
    [|discriminate].
  injection H as <- _. eauto.
Qed.

Lemma full_answers (L : pylib) (HL : pylib_ok L) (W : world) (c : criteria)
    (holding_info : list (string * stock_holding)) (merged : list merged_row)
    (p : payload) :
  build_result L W c holding_info (result_df L c merged) = Ok p ->
  answers L c p.
Proof.
  intros H. apply build_result_ok in H as (Hd & Ht & _ & _).
  exists (result_rows L c merged). repeat split.
  - rewrite Hd. unfold result_df.
    induction (result_rows L c merged) as [|r l IH]; simpl; constructor; auto.
    now exists c, holding_info.
  - now apply result_rows_passes.
  - now apply result_rows_descending.
  - now right.
Qed.

Lemma early_answers (L : pylib) (c : criteria) (p : payload) :
  data p = [] -> total_matched p = None -> answers L c p.
Proof.
  intros Hd Ht. exists []. rewrite Hd.
  split; [constructor|]. split; [constructor|]. split; [constructor|].
  now left.
Qed.

(** ** The cache key *)

Lemma append_nil_r (a : string) : a +:+ "" = a.
Proof. induction a as [|x a IH]; simpl; [reflexivity | now rewrite IH]. Qed.

Lemma append_assoc (a b c : string) : (a +:+ b) +:+ c = a +:+ (b +:+ c).
Proof. induction a as [|x a IH]; simpl; [reflexivity | now rewrite IH]. Qed.

Lemma str_rev_app (a b : string) : str_rev (a +:+ b) = str_rev b +:+ str_rev a.
Proof.
  induction a as [|x a IH]; simpl.
  - now rewrite append_nil_r.
  - now rewrite IH, append_assoc.
Qed.

Lemma str_rev_involutive (a : string) : str_rev (str_rev a) = a.
Proof.
  induction a as [|x a IH]; simpl; [reflexivity|].
  rewrite str_rev_app, IH. reflexivity.
Qed.

Lemma str_rev_inj (a b : string) : str_rev a = str_rev b -> a = b.
Proof.
  intros H. rewrite <- (str_rev_involutive a), <- (str_rev_involutive b).
  now rewrite H.
Qed.

(** The end of the key tells the universe, the sort key and the flag apart. *)
Lemma key_tail_inj (st st' : string) (k k' : sort_key) (b b' : bool) :
  st +:+ "_" +:+ sort_key_str k +:+ "_" +:+ str_bool b
  = st' +:+ "_" +:+ sort_key_str k' +:+ "_" +:+ str_bool b' ->
  st = st' /\ k = k' /\ b = b'.
Proof.
  intros H. apply (f_equal str_rev) in H. rewrite !str_rev_app in H.
  destruct k, k', b, b'; simpl in H;
    repeat lazymatch type of H with
           | String ?x _ = String ?x _ => injection H as H
           end;
    try discriminate H;
    apply str_rev_inj in H; auto.
Qed.

Lemma main_fund_inflow_str_plain (L : pylib) (HL : pylib_ok L) (c : criteria) :
  Py.contains "_" (main_fund_inflow_str L c) = false.
Proof.
  unfold main_fund_inflow_str.
  destruct (main_fund_inflow_argument c); [reflexivity | apply (str_float_plain L HL)].
Qed.

Lemma main_fund_inflow_str_inj (L : pylib) (HL : pylib_ok L) (c c' : criteria) :
  main_fund_inflow_str L c = main_fund_inflow_str L c' ->
  main_fund_inflow_argument c = main_fund_inflow_argument c'.
Proof.
  unfold main_fund_inflow_str.
  destruct (main_fund_inflow_argument c) as [|x],
    (main_fund_inflow_argument c') as [|y]; intros H.
  - reflexivity.
  - symmetry in H. now apply (str_float_not_int L HL) in H.
  - now apply (str_float_not_int L HL) in H.
  - f_equal. now apply (str_float_inj L HL).
Qed.

(** The key tells apart every parameter it is built from, the inflow
    threshold as it arrived (omitted, or the float passed): all of the
    criteria but [max_results] (and [use_cache]). *)
Lemma cache_key_inj_argument (L : pylib) (HL : pylib_ok L) (c c' : criteria) :
  cache_key L c = cache_key L c' ->
  main_fund_inflow_argument c = main_fund_inflow_argument c'
  /\ turnover_ratio_threshold c = turnover_ratio_threshold c'
  /\ price_change_threshold c = price_change_threshold c'
  /\ main_fund_ratio_threshold c = main_fund_ratio_threshold c'
  /\ stock_type c = stock_type c'
  /\ sort_by c = sort_by c'
  /\ analyze_holding c = analyze_holding c'.
Proof.
  unfold cache_key. intros H.
  assert (Hp := str_float_plain L HL). assert (Hi := str_float_inj L HL).
  assert (Hq := main_fund_inflow_str_plain L HL).
  simpl in H. injection H as H.
  apply split_unique in H as [H1 H]; [|apply Hq|apply Hq].
  apply split_unique in H as [H2 H]; [|apply Hp|apply Hp].
  apply split_unique in H as [H3 H]; [|apply Hp|apply Hp].
  apply split_unique in H as [H4 H]; [|apply Hp|apply Hp].
  apply (key_tail_inj (stock_type c) (stock_type c')) in H as (? & ? & ?).
  apply (main_fund_inflow_str_inj L HL) in H1.
  auto 10.
Qed.

Lemma cache_key_inj (L : pylib) (HL : pylib_ok L) (c c' : criteria) :
  cache_key L c = cache_key L c' ->
  main_fund_inflow_threshold c = main_fund_inflow_threshold c'
  /\ turnover_ratio_threshold c = turnover_ratio_threshold c'
  /\ price_change_threshold c = price_change_threshold c'
  /\ main_fund_ratio_threshold c = main_fund_ratio_threshold c'
  /\ stock_type c = stock_type c'
  /\ sort_by c = sort_by c'
  /\ analyze_holding c = analyze_holding c'.
Proof.
  intros H. apply (cache_key_inj_argument L HL) in H as (H1 & H).
  split; [|exact H]. unfold main_fund_inflow_threshold. now rewrite H1.
Qed.

Lemma cache_key_passes (L : pylib) (HL : pylib_ok L) (c c' : criteria) (r : merged_row) :
  cache_key L c = cache_key L c' -> passes c r = passes c' r.
Proof.
  intros H. apply (cache_key_inj L HL) in H as (H1 & H2 & H3 & H4 & _).
  unfold passes. now rewrite H1, H2, H3, H4.
Qed.

(** An entry answers every query that leads to its key. *)
Lemma answers_same_key (L : pylib) (HL : pylib_ok L) (c c' : criteria) (p : payload) :
  cache_key L c = cache_key L c' -> answers L c p -> answers L c' p.
Proof.
  intros Hk (result & Hshow & Hpass & Hdesc & Hcount).
  exists result. repeat split; auto.
  - revert Hpass. apply List.Forall_impl.
    intros r. now rewrite (cache_key_passes L HL c c' r Hk).
  - apply (cache_key_inj L HL) in Hk as (_ & _ & _ & _ & _ & <- & _). exact Hdesc.
Qed.

(** The key does not see the cap. *)
Lemma cache_key_max_results (L : pylib) (n : Z) (c : criteria) :
  cache_key L (with_max_results n c) = cache_key L c.
Proof. reflexivity. Qed.

(** ** The cache over a session *)

Lemma cache_hit_lookup (L : pylib) (W : world) (c : criteria)
    (request_cache : gmap string (payload * float)) (p : payload) :
  cache_hit L W c request_cache = Some p ->
  use_cache c = true
  /\ exists t, request_cache !! cache_key L c = Some (p, t)
               /\ PyNum.lt (now W - t)%float cache_duration = true.
Proof.
  unfold cache_hit. destruct (use_cache c); [|discriminate].
  destruct (request_cache !! cache_key L c) as [[q t]|]; [|discriminate].
  destruct (PyNum.lt _ _) eqn:E; [|discriminate].
  intros [= <-]. eauto.
Qed.

(** One call keeps the invariant, and what it returns answers its criteria. *)
Lemma analyze_with_inv (L : pylib) (HL : pylib_ok L) (clean : string -> res string)
    (W : world) (c : criteria) (request_cache : gmap string (payload * float)) :
  cache_inv L request_cache ->
  cache_inv L (snd (fst (analyze_with L clean W c request_cache)))
  /\ forall p, fst (fst (analyze_with L clean W c request_cache)) = Ok p ->
               answers L c p.
Proof.
  intros Hinv. unfold analyze_with.
  destruct (cache_hit L W c request_cache) as [q|] eqn:Hhit; simpl.
  - split; [assumption|]. intros p [= <-].
    apply cache_hit_lookup in Hhit as (_ & t & Hl & _). eauto.
  - destruct (screen_with L W clean ∅ c []) as [[[q|q]|e] sent] eqn:Hs; simpl.
    + apply screen_with_ok in Hs as [Hd Ht].
      split; [assumption|]. intros p [= <-]. now apply early_answers.
    + apply screen_with_ok in Hs as (merged & hi & Hb).
      pose proof (full_answers L HL W c hi merged q Hb) as Hq.
      split; [|now intros p [= <-]].
      intros c' p t. rewrite lookup_insert.
      destruct (decide (cache_key L c = cache_key L c')) as [Hk|Hk].
      * intros [= <- _]. now apply (answers_same_key L HL c c').
      * apply Hinv.
    + split; [assumption|]. discriminate.
Qed.

Lemma cache_inv_empty (L : pylib) : cache_inv L ∅.
Proof. intros c p t H. rewrite lookup_empty in H. discriminate. Qed.

Lemma session_inv (L : pylib) (HL : pylib_ok L) (calls : list (world * criteria))
    (request_cache : gmap string (payload * float)) :
  cache_inv L request_cache -> cache_inv L (session L calls request_cache).
Proof.
  revert request_cache. induction calls as [|[W c] calls IH]; intros rc H; simpl.
  - assumption.
  - apply IH. now apply analyze_with_inv.
Qed.

(** Whatever a call of a session returns answers its criteria. *)
Lemma session_answers (L : pylib) (HL : pylib_ok L) (calls : list (world * criteria))
    (W : world) (c : criteria) (p : payload) :
  fst (fst (analyze_large_fund_flow L W c (session L calls ∅))) = Ok p ->
  answers L c p.
Proof.
  intros H.
  destruct (analyze_with_inv L HL clean_code_of W c (session L calls ∅)) as [_ Ha].
  - apply session_inv; [assumption|]. apply cache_inv_empty.
  - apply Ha. exact H.
Qed.

(** How the body of the [try] ends at an early [return]. *)
Lemma screen_with_early (L : pylib) (W : world) (clean : string -> res string)
    (holding_cache : gmap string (stock_holding * float)) (c : criteria)
    (sent sent' : list request) (p : payload) :
  screen_with L W clean holding_cache c sent = (Ok (Early p), sent') ->
  exists msg cols, p = message_only msg cols
    /\ In msg ["未查询到主力资金流数据"; "未查询到A股实时行情数据";
               "市值数据格式异常"; "主力资金流数据格式异常"].
Proof.
  unfold screen_with, io_bind, fetch, io_ret, io_lift. intros H.
  destruct (stock_main_fund_flow W (stock_type c)) as [df_main_fund|e]; [|discriminate].
  destruct (frame_empty df_main_fund).
  { injection H as <- _. do 2 eexists. split; [reflexivity|]. simpl. auto. }
  destruct (stock_zh_a_spot_em W) as [df_quote|e]; [|discriminate].
  destruct (frame_empty df_quote).
  { injection H as <- _. do 2 eexists. split; [reflexivity|]. simpl. auto. }
  destruct (reconcile df_main_fund df_quote) as [[q|merged]|e] eqn:Hrec; [| |discriminate].
  - injection H as <- _. revert Hrec. unfold reconcile, res_bind.
    destruct (_ && _); [destruct (has_column "代码" df_main_fund)|].
    + destruct process_main_fund; [|discriminate].
      destruct process_quote; discriminate.
    + intros [= <-]. do 2 eexists. split; [reflexivity|]. simpl. auto.
    + intros [= <-]. do 2 eexists. split; [reflexivity|]. simpl. auto.
  - destruct (if analyze_holding c && _ then _ else _) as [[holding_info|e] sent1];
      [|discriminate].
    destruct (build_result L W c holding_info (result_df L c merged)); discriminate.
Qed.

Lemma screen_with_early_message (L : pylib) (W : world) (clean : string -> res string)
    (holding_cache : gmap string (stock_holding * float)) (c : criteria)
    (sent sent' : list request) (p : payload) :
  screen_with L W clean holding_cache c sent = (Ok (Early p), sent') ->
  message p <> "分析完成" /\ timestamp p = None.
Proof.
  intros H. apply screen_with_early in H as (msg & cols & -> & Hm). simpl.
  split; [|reflexivity].
  repeat (destruct Hm as [<-|Hm]; [discriminate|]). contradiction.
Qed.

Lemma screen_with_full (L : pylib) (W : world) (clean : string -> res string)
    (holding_cache : gmap string (stock_holding * float)) (c : criteria)
    (sent sent' : list request) (p : payload) :
  screen_with L W clean holding_cache c sent = (Ok (Full p), sent') ->
  message p = "分析完成" /\ timestamp p = Some (now W)
  /\ total_matched p = Some (Z.of_nat (length (data p))).
Proof.
  intros H. apply screen_with_ok in H as (merged & hi & Hb).
  apply build_result_ok in Hb as (_ & H1 & H2 & H3). auto.
Qed.

(** What a session keeps of its calls. *)
Lemma session_entries (L : pylib) (S : world -> criteria -> Prop)
    (calls : list (world * criteria)) :
  forall request_cache,
  (forall W c, In (W, c) calls -> S W c) ->
  (forall k p t, request_cache !! k = Some (p, t) ->
     message p = "分析完成" /\ timestamp p = Some t
     /\ total_matched p = Some (Z.of_nat (length (data p)))
     /\ exists W c, S W c /\ k = cache_key L c /\ t = now W) ->
  forall k p t, session L calls request_cache !! k = Some (p, t) ->
     message p = "分析完成" /\ timestamp p = Some t
     /\ total_matched p = Some (Z.of_nat (length (data p)))
     /\ exists W c, S W c /\ k = cache_key L c /\ t = now W.
Proof.
  induction calls as [|[W c] calls IH]; intros rc HS Hrc; simpl; [exact Hrc|].
  apply IH; [intros W' c' H; apply HS; now right|].
  unfold analyze_large_fund_flow, analyze_with.
  destruct (cache_hit L W c rc) as [q|]; simpl; [exact Hrc|].
  destruct (screen_with L W clean_code_of ∅ c []) as [[[q|q]|e] sent] eqn:Hs; simpl;
    try exact Hrc.
  apply screen_with_full in Hs as (H1 & H2 & H3).
  intros k p t. destruct (decide (cache_key L c = k)) as [<-|N].
  - rewrite lookup_insert_eq. intros [= <- <-].
    repeat split; try assumption. exists W, c. split; [|auto]. apply HS. now left.
  - rewrite lookup_insert_ne by assumption. apply Hrc.
Qed.

(** ** C1: the filter *)

(** C1.  In every session, whatever a call returns, every record of [data]
    shows a joined row whose absolute net inflow (in ten thousands), turnover
    ratio, absolute price change and main-fund ratio all reach the
    thresholds of that call. *)
Theorem data_rows_pass_all_thresholds (L : pylib) (HL : pylib_ok L)
    (calls : list (world * criteria)) (W : world) (c : criteria) (p : payload) :
  fst (fst (analyze_large_fund_flow L W c (session L calls ∅))) = Ok p ->
  exists result : list merged_row,
    Forall2 (shows L) (data p) result
    /\ Forall (fun r =>
         PyNum.ge (PrimFloat.abs (r_wan r)) (main_fund_inflow_threshold c) = true
         /\ PyNum.ge (r_turnover r) (turnover_ratio_threshold c) = true
         /\ PyNum.ge (PrimFloat.abs (r_chg r)) (price_change_threshold c) = true
         /\ PyNum.ge (r_mf_ratio r) (main_fund_ratio_threshold c) = true) result.
Proof.
  intros H. apply (session_answers L HL) in H as (result & Hshow & Hpass & _).
  exists result. split; [assumption|].
  revert Hpass. apply List.Forall_impl. intros r. apply passes_thresholds.
Qed.

Lemma data_rows_pass_all_thresholds_witness :
  pylib_ok Ref.lib
  /\ fst (fst (analyze_large_fund_flow Ref.lib Example.w1 Example.query
                 (session Ref.lib [(Example.w0, Example.query)] ∅)))
     = Ok (Example.payload_of (Example.first_call Ref.lib Example.query))
  /\ length (data (Example.payload_of (Example.first_call Ref.lib Example.query))) = 2%nat
  /\ exists result : list merged_row,
       Forall2 (shows Ref.lib)
         (data (Example.payload_of (Example.first_call Ref.lib Example.query))) result
       /\ Forall (fun r =>
            PyNum.ge (PrimFloat.abs (r_wan r))
                     (main_fund_inflow_threshold Example.query) = true
            /\ PyNum.ge (r_turnover r) (turnover_ratio_threshold Example.query) = true
            /\ PyNum.ge (PrimFloat.abs (r_chg r))
                        (price_change_threshold Example.query) = true
            /\ PyNum.ge (r_mf_ratio r)
                        (main_fund_ratio_threshold Example.query) = true) result.
Proof.
  split; [exact ref_lib_ok|].
  split; [vm_compute; reflexivity|].
  split; [vm_compute; reflexivity|].
  apply (data_rows_pass_all_thresholds Ref.lib ref_lib_ok
           [(Example.w0, Example.query)] Example.w1 Example.query).
  vm_compute. reflexivity.
Defined.

(** ** C2: the ranking *)

Example example_merged_codes :
  map r_code Example.merged = ["000001"; "600519"; "300750"]
  /\ map (rank_key main_fund) (filtered_df Example.query Example.merged)
     = [20000%float; 20000%float].
Proof. vm_compute. auto. Qed.

(** The order of rows with equal keys is left to the default sort, whose
    contract says: the same rows, keys descending.  A sort that keeps such
    rows in the order of the join meets it, and so does one that reverses
    them; with the second the two stocks of equal absolute inflow are listed
    against the order of the join. *)
Example example_ties_reversed :
  Example.codes (Example.payload_of (Example.first_call Ref.lib_reversing Example.query))
  = [Some (VStr "600519"); Some (VStr "000001")].
Proof. vm_compute. reflexivity. Qed.

(** The contract of the default sort alone does not make the ranking keep
    rows with equal keys in the order of the join. *)
Lemma ranking_need_not_keep_join_order :
  ~ (forall L, pylib_ok L ->
     forall c merged,
       keeps_join_order (rank_key (sort_by c))
                        (filtered_df c merged) (sorted_df L c merged)).
Proof.
  intros H.
  specialize (H Ref.lib_reversing ref_lib_reversing_ok Example.query
                Example.merged 20000%float).
  vm_compute in H. discriminate H.
Qed.

(** ** C8: [total_matched] *)

(** A freshly computed result counts the rows that pass the filters, up to the cap. *)
Lemma fresh_total_matched (L : pylib) (HL : pylib_ok L) (W : world) (c : criteria)
    (holding_info : list (string * stock_holding)) (merged : list merged_row)
    (p : payload) :
  build_result L W c holding_info (result_df L c merged) = Ok p ->
  (0 <= max_results c)%Z ->
  total_matched p
  = Some (Z.min (max_results c) (Z.of_nat (length (filtered_df c merged)))).
Proof.
  intros H Hn. apply build_result_ok in H as (Hd & -> & _ & _).
  rewrite Hd. unfold result_df. rewrite !length_map.
  rewrite (result_rows_length L HL c merged Hn). f_equal. lia.
Qed.

(** C8, as stated, fails: two rows pass the filters, the cap is one, and
    [total_matched] is one. *)
Lemma total_matched_is_not_the_filtered_count :
  reconcile Example.df_main_fund Example.df_quote = Ok (inr Example.merged)
  /\ length (filtered_df (with_max_results 1 Example.query) Example.merged) = 2%nat
  /\ total_matched (Example.payload_of
       (Example.first_call Ref.lib (with_max_results 1 Example.query))) = Some 1%Z.
Proof. vm_compute. auto. Qed.

(** C8 (amended).  In every session a call returns either a complete
    result, whose message is 分析完成 and whose [total_matched] is the number
    of records of its [data], the count after truncation, or one of the
    message-only answers, which has no [total_matched] and no record.  When
    the call is not answered from the cache and steps 1 to 7 give joined rows,
    [total_matched] is the smaller of [max_results] and the number of rows
    that pass the filters, for [max_results] not negative. *)
Theorem total_matched_counts_data (L : pylib) (HL : pylib_ok L)
    (calls : list (world * criteria)) (W : world) (c : criteria) (p : payload) :
  fst (fst (analyze_large_fund_flow L W c (session L calls ∅))) = Ok p ->
  ((message p = "分析完成"
    /\ total_matched p = Some (Z.of_nat (length (data p))))
   \/ (message p <> "分析完成" /\ total_matched p = None /\ data p = []))
  /\ (forall df_main_fund df_quote merged,
        cache_hit L W c (session L calls ∅) = None ->
        stock_main_fund_flow W (stock_type c) = Ok df_main_fund ->
        frame_empty df_main_fund = false ->
        stock_zh_a_spot_em W = Ok df_quote ->
        frame_empty df_quote = false ->
        reconcile df_main_fund df_quote = Ok (inr merged) ->
        (0 <= max_results c)%Z ->
        message p = "分析完成"
        /\ total_matched p
           = Some (Z.min (max_results c) (Z.of_nat (length (filtered_df c merged))))).
Proof.
  intros H. split.
  - revert H. unfold analyze_large_fund_flow, analyze_with.
    destruct (cache_hit L W c (session L calls ∅)) as [q|] eqn:Hh.
    + intros [= <-]. left. revert Hh. unfold cache_hit.
      destruct (use_cache c); [|discriminate].
      destruct (session L calls ∅ !! cache_key L c) as [[q' t]|] eqn:Hq; [|discriminate].
      destruct (PyNum.lt _ _); [|discriminate]. intros [= <-].
      destruct (session_entries L (fun _ _ => True) calls ∅ (fun _ _ _ => I)
                  (fun k p' t' E => ltac:(rewrite lookup_empty in E; discriminate E))
                  _ _ _ Hq) as (H1 & _ & H3 & _).
      auto.
    + destruct (screen_with L W clean_code_of ∅ c []) as [[[q|q]|e] sent] eqn:Hs;
        simpl; [| |discriminate].
      * intros [= <-]. right.
        pose proof (screen_with_early_message _ _ _ _ _ _ _ _ Hs) as [Hm _].
        apply screen_with_early in Hs as (msg & cols & -> & _). auto.
      * intros [= <-]. left.
        apply screen_with_full in Hs as (H1 & _ & H3). auto.
  - intros df_main_fund df_quote merged Hh Hm Hme Hq Hqe Hr Hn.
    revert H. unfold analyze_large_fund_flow, analyze_with. rewrite Hh.
    unfold screen_with, io_bind, fetch, io_lift, io_ret.
    rewrite Hm, Hme, Hq, Hqe, Hr.
    destruct (if analyze_holding c && negb (is_nil (result_df L c merged))
              then _ else _) as [[holding_info|e] sent]; [|discriminate].
    destruct (build_result L W c holding_info (result_df L c merged)) as [q|e] eqn:Hb;
      simpl; [|discriminate].
    intros [= <-]. split.
    + now apply build_result_ok in Hb.
    + now apply (fresh_total_matched L HL W c holding_info merged q).
Qed.

Lemma total_matched_counts_data_witness :
  pylib_ok Ref.lib
  /\ fst (fst (analyze_large_fund_flow Ref.lib Example.w0
                 (with_max_results 1 Example.query) (session Ref.lib [] ∅)))
     = Ok (Example.payload_of
             (Example.first_call Ref.lib (with_max_results 1 Example.query)))
  /\ length (filtered_df (with_max_results 1 Example.query) Example.merged) = 2%nat
  /\ message (Example.payload_of
        (Example.first_call Ref.lib (with_max_results 1 Example.query))) = "分析完成"
  /\ total_matched (Example.payload_of
        (Example.first_call Ref.lib (with_max_results 1 Example.query)))
     = Some (Z.min (max_results (with_max_results 1 Example.query))
                   (Z.of_nat (length (filtered_df (with_max_results 1 Example.query)
                                                  Example.merged)))).
Proof.
  split; [exact ref_lib_ok|].
  split; [vm_compute; reflexivity|].
  split; [vm_compute; reflexivity|].
  destruct (total_matched_counts_data Ref.lib ref_lib_ok [] Example.w0
              (with_max_results 1 Example.query)
              (Example.payload_of
                 (Example.first_call Ref.lib (with_max_results 1 Example.query))))
    as [_ Hfresh]; [vm_compute; reflexivity|].
  apply (Hfresh Example.df_main_fund Example.df_quote Example.merged);
    vm_compute; reflexivity || discriminate.
Defined.

(** ** C3 and C4: the cap and the cache *)

(** A result that is computed, not answered from the cache, respects the cap. *)
Lemma fresh_data_within_cap (L : pylib) (HL : pylib_ok L) (W : world) (c : criteria)
    (holding_info : list (string * stock_holding)) (merged : list merged_row)
    (p : payload) :
  build_result L W c holding_info (result_df L c merged) = Ok p ->
  (0 <= max_results c)%Z ->
  (Z.of_nat (length (data p)) <= max_results c)%Z.
Proof.
  intros H Hn. apply build_result_ok in H as (Hd & _).
  rewrite Hd. unfold result_df. rewrite !length_map.
  rewrite (result_rows_length L HL c merged Hn). lia.
Qed.

(** With [max_results = 0] a result that is computed is empty, and the call
    succeeds whatever [analyze_holding] says. *)
Lemma zero_cap_fresh_is_empty (L : pylib) (W : world) (clean : string -> res string)
    (c : criteria) (request_cache : gmap string (payload * float))
    (df_main_fund : frame fund_row) (df_quote : frame quote_row)
    (merged : list merged_row) :
  cache_hit L W c request_cache = None ->
  stock_main_fund_flow W (stock_type c) = Ok df_main_fund ->
  frame_empty df_main_fund = false ->
  stock_zh_a_spot_em W = Ok df_quote ->
  frame_empty df_quote = false ->
  reconcile df_main_fund df_quote = Ok (inr merged) ->
  max_results c = 0%Z ->
  exists p, fst (fst (analyze_with L clean W c request_cache)) = Ok p
            /\ data p = [] /\ total_matched p = Some 0%Z.
Proof.
  intros Hh Hm Hme Hq Hqe Hr Hn.
  unfold analyze_with. rewrite Hh.
  unfold screen_with, io_bind, fetch, io_lift, io_ret.
  rewrite Hm, Hme, Hq, Hqe, Hr.
  unfold result_df, result_rows, head. rewrite Hn. simpl.
  rewrite andb_false_r. unfold build_result, res_bind. simpl.
  destruct (analyze_holding c); simpl; eauto.
Qed.

(** A call is answered from an entry under its key that is younger than
    [_cache_duration]: the stored payload as it is, timestamp included, the
    cache untouched and nothing requested. *)
Lemma answered_from_cache (L : pylib) (clean : string -> res string) (W : world)
    (c : criteria) (request_cache : gmap string (payload * float))
    (p : payload) (t : float) :
  use_cache c = true ->
  request_cache !! cache_key L c = Some (p, t) ->
  PyNum.lt (now W - t)%float cache_duration = true ->
  analyze_with L clean W c request_cache = (Ok p, request_cache, []).
Proof.
  intros Hu Hl Hf. unfold analyze_with, cache_hit. now rewrite Hu, Hl, Hf.
Qed.

(** A call that runs to the last [return] stores what it returns under its key. *)
Lemma full_call_stores (L : pylib) (clean : string -> res string) (W : world)
    (c : criteria) (request_cache : gmap string (payload * float))
    (p : payload) (sent : list request) :
  cache_hit L W c request_cache = None ->
  screen_with L W clean ∅ c [] = (Ok (Full p), sent) ->
  analyze_with L clean W c request_cache
  = (Ok p, <[cache_key L c := (p, now W)]> request_cache, sent)
  /\ timestamp p = Some (now W).
Proof.
  intros Hh Hs. unfold analyze_with. rewrite Hh, Hs. split; [reflexivity|].
  apply screen_with_ok in Hs as (merged & hi & Hb).
  now apply build_result_ok in Hb.
Qed.

(** The same criteria again, within the window: the same payload. *)
Lemma repeated_call_same_payload (L : pylib) (clean : string -> res string)
    (W W' : world) (c : criteria) (request_cache : gmap string (payload * float))
    (p : payload) (sent : list request) :
  cache_hit L W c request_cache = None ->
  screen_with L W clean ∅ c [] = (Ok (Full p), sent) ->
  use_cache c = true ->
  PyNum.lt (now W' - now W)%float cache_duration = true ->
  analyze_with L clean W' c
    (snd (fst (analyze_with L clean W c request_cache)))
  = (Ok p, snd (fst (analyze_with L clean W c request_cache)), []).
Proof.
  intros Hh Hs Hu Hf.
  destruct (full_call_stores L clean W c request_cache p sent Hh Hs) as [-> _].
  simpl. eapply answered_from_cache; eauto. apply lookup_insert_eq.
Qed.

(** A call that differs from a stored one in the cap alone is answered with
    the stored payload, whatever its own cap. *)
Lemma other_cap_same_payload (L : pylib) (clean : string -> res string)
    (W W' : world) (c : criteria) (n : Z)
    (request_cache : gmap string (payload * float))
    (p : payload) (sent : list request) :
  cache_hit L W c request_cache = None ->
  screen_with L W clean ∅ c [] = (Ok (Full p), sent) ->
  use_cache c = true ->
  PyNum.lt (now W' - now W)%float cache_duration = true ->
  analyze_with L clean W' (with_max_results n c)
    (snd (fst (analyze_with L clean W c request_cache)))
  = (Ok p, snd (fst (analyze_with L clean W c request_cache)), []).
Proof.
  intros Hh Hs Hu Hf.
  destruct (full_call_stores L clean W c request_cache p sent Hh Hs) as [-> _].
  simpl. eapply answered_from_cache; eauto.
  rewrite cache_key_max_results. apply lookup_insert_eq.
Qed.

(** C3 (defect).  A call with [max_results = 0], made a hundred seconds
    after the same query with [max_results = 10], is answered from the cache
    with the two records of the earlier call: [data] is longer than the cap
    and not empty. *)
Theorem cap_not_enforced_on_cached_answer :
  max_results (with_max_results 0 Example.query) = 0%Z
  /\ is_ok (Example.returned
       (Example.second_call Ref.lib Example.query
          (with_max_results 0 Example.query))) = true
  /\ length (data (Example.payload_of
       (Example.second_call Ref.lib Example.query
          (with_max_results 0 Example.query)))) = 2%nat
  /\ Example.requests
       (Example.second_call Ref.lib Example.query
          (with_max_results 0 Example.query)) = [].
Proof. vm_compute. auto. Qed.

(** C4 (defect).  The key is the same for every cap, so two calls that
    differ in [max_results] alone share one entry: a call capped at one
    record is answered with the two records, and the timestamp, of the call
    capped at ten. *)
Theorem cache_key_ignores_max_results :
  (forall (L : pylib) (n : Z) (c : criteria),
      cache_key L (with_max_results n c) = cache_key L c)
  /\ Example.returned
       (Example.second_call Ref.lib Example.query (with_max_results 1 Example.query))
     = Example.returned (Example.first_call Ref.lib Example.query)
  /\ length (data (Example.payload_of
       (Example.second_call Ref.lib Example.query
          (with_max_results 1 Example.query)))) = 2%nat
  /\ timestamp (Example.payload_of
       (Example.second_call Ref.lib Example.query
          (with_max_results 1 Example.query))) = Some (now Example.w0).
Proof.
  split; [intros; apply cache_key_max_results|].
  vm_compute. auto.
Qed.

(** ** C6 and C7: the holdings *)

(** Line 274 raises for every stock code. *)
Lemma clean_code_of_raises (stock_code : string) :
  clean_code_of stock_code
  = Raise (Exn "TypeError"
             "format_stock_code() got an unexpected keyword argument 'stock_code'").
Proof. reflexivity. Qed.

(** So the loop over the stocks ends at its first stock, before any request. *)
Lemma holding_loop_raises (L : pylib) (W : world) (quarters : list string)
    (stock_code : string) (rest : list string)
    (holding_cache : gmap string (stock_holding * float))
    (holding_info : list (string * stock_holding)) (sent : list request) :
  holding_loop L W clean_code_of quarters (stock_code :: rest)
               holding_cache holding_info sent
  = (Raise (Exn "TypeError"
              "format_stock_code() got an unexpected keyword argument 'stock_code'"),
     sent).
Proof. reflexivity. Qed.

(** With holdings asked for, any result that is not empty makes the call raise. *)
Lemma holding_analysis_raises (L : pylib) (W : world)
    (holding_cache : gmap string (stock_holding * float))
    (row : merged_row) (result : list merged_row) (sent : list request) :
  holding_analysis L W clean_code_of holding_cache (row :: result) sent
  = (Raise (Exn "TypeError"
              "format_stock_code() got an unexpected keyword argument 'stock_code'"),
     sent).
Proof. reflexivity. Qed.

(** The two handlers of one stock catch whatever its lookups raise. *)
Lemma institution_block_returns (L : pylib) (W : world) (clean_code : string)
    (quarters : list string) (sent : list request) :
  exists d sent', institution_block L W clean_code quarters sent = (Ok d, sent').
Proof.
  unfold institution_block, try_except, io_bind, io_ret.
  destruct (probe_quarters L W clean_code 0 quarters [] sent) as [[a|e] sent'];
    eauto.
Qed.

Lemma holder_block_returns (L : pylib) (W : world) (clean_code : string)
    (sent : list request) :
  exists d sent', holder_block L W clean_code sent = (Ok d, sent').
Proof.
  unfold holder_block, try_except, io_bind, io_ret, fetch, io_lift.
  destruct (stock_main_stock_holder W clean_code) as [df|e]; eauto.
  destruct (holder_summary L df); eauto.
Qed.

(** With a call of line 274 that returns, the loop reaches every stock and
    returns, whatever the lookups raise. *)
Lemma holding_loop_returns (L : pylib) (W : world) (clean : string -> res string)
    (quarters : list string) (codes : list string) :
  (forall s, exists s', clean s = Ok s') ->
  forall holding_cache holding_info sent,
  exists st sent',
    holding_loop L W clean quarters codes holding_cache holding_info sent
    = (Ok st, sent').
Proof.
  intros Hclean. induction codes as [|stock_code rest IH]; intros hc hi sent.
  - simpl. unfold io_ret. eauto.
  - simpl. unfold io_bind at 1, io_lift.
    destruct (Hclean stock_code) as [clean_code ->].
    destruct (cached_holding W hc _) as [cache_data|]; [apply IH|].
    unfold io_bind at 1, try_except, io_bind, io_ret.
    destruct (institution_block_returns L W clean_code quarters sent)
      as (d1 & sent1 & ->).
    destruct (holder_block_returns L W clean_code sent1) as (d2 & sent2 & ->).
    apply IH.
Qed.

(** With holdings asked for, a call that computes a result with at least
    one row raises, in every world. *)
Lemma holdings_make_the_call_raise (L : pylib) (W : world) (c : criteria)
    (request_cache : gmap string (payload * float))
    (df_main_fund : frame fund_row) (df_quote : frame quote_row)
    (merged : list merged_row) :
  cache_hit L W c request_cache = None ->
  stock_main_fund_flow W (stock_type c) = Ok df_main_fund ->
  frame_empty df_main_fund = false ->
  stock_zh_a_spot_em W = Ok df_quote ->
  frame_empty df_quote = false ->
  reconcile df_main_fund df_quote = Ok (inr merged) ->
  analyze_holding c = true ->
  result_rows L c merged <> [] ->
  analyze_large_fund_flow L W c request_cache
  = (Raise (Exn "ValueError"
       "大额资金流分析失败: format_stock_code() got an unexpected keyword argument 'stock_code'"),
     request_cache, [ReqMainFundFlow (stock_type c); ReqSpot]).
Proof.
  intros Hh Hm Hme Hq Hqe Hr Ha Hne.
  unfold analyze_large_fund_flow, analyze_with. rewrite Hh.
  unfold screen_with, io_bind, fetch, io_lift, io_ret.
  rewrite Hm, Hme, Hq, Hqe, Hr, Ha. unfold result_df.
  destruct (result_rows L c merged) as [|row rows]; [contradiction|].
  reflexivity.
Qed.

Example example_repaired_isolates :
  map (fun d => (dict_get "代码" d, dict_get "机构持股" d, dict_get "十大股东" d,
                 dict_get "十大股东动向" d))
      (data (Example.payload_of
               (Example.first_call_repaired Ref.lib Example.query_holding_fresh)))
  = [ (Some (VStr "000001"), None, None, Some (VStr "增持"));
      (Some (VStr "600519"), Some (VStr "查询失败"), Some (VStr "查询失败"), None) ].
Proof. vm_compute. reflexivity. Qed.

(** C6 (defect).  With holdings asked for, the first stock of the result
    makes the whole call raise: the error of line 274 is raised before the
    handler of that stock is entered, no holding is requested for any stock,
    and no screening result is returned, although the same query without
    holdings returns its two records. *)
Theorem holdings_error_aborts_the_call :
  Example.returned (Example.first_call Ref.lib Example.query_holding)
  = Raise (Exn "ValueError"
      "大额资金流分析失败: format_stock_code() got an unexpected keyword argument 'stock_code'")
  /\ Example.requests (Example.first_call Ref.lib Example.query_holding)
     = [ReqMainFundFlow "全部股票"; ReqSpot]
  /\ is_ok (Example.returned (Example.first_call Ref.lib Example.query)) = true
  /\ length (data (Example.payload_of (Example.first_call Ref.lib Example.query)))
     = 2%nat.
Proof. vm_compute. auto. Qed.

(** C7 (defect).  The holding cache is created empty inside each call.  Even
    with line 274 repaired, a second call a hundred seconds after the first,
    far inside the 86400 seconds of the holding cache, requests the holdings
    of the same stocks again; as the source has it, both calls raise. *)
Theorem holding_cache_does_not_outlive_a_call :
  PyNum.lt (now Example.w1 - now Example.w0)%float holding_cache_duration = true
  /\ is_ok (Example.returned
       (Example.first_call_repaired Ref.lib Example.query_holding_fresh)) = true
  /\ Example.requests
       (Example.first_call_repaired Ref.lib Example.query_holding_fresh)
     = [ ReqMainFundFlow "全部股票"; ReqSpot;
         ReqInstituteHold "000001" "20253"; ReqInstituteHold "000001" "20252";
         ReqStockHolder "000001";
         ReqInstituteHold "600519" "20253"; ReqStockHolder "600519" ]
  /\ Example.requests
       (Example.second_call_repaired Ref.lib Example.query_holding_fresh
          Example.query_holding_fresh)
     = Example.requests
         (Example.first_call_repaired Ref.lib Example.query_holding_fresh)
  /\ is_ok (Example.returned
       (Example.first_call Ref.lib Example.query_holding_fresh)) = false
  /\ is_ok (Example.returned
       (Example.second_call Ref.lib Example.query_holding_fresh
          Example.query_holding_fresh)) = false.
Proof. vm_compute. auto 10. Qed.

(* ===================================================================== *)
(** * Part III: further properties of the code *)
(* ===================================================================== *)

(** ** [format_stock_code] and [get_stock_market] *)

Lemma substring_length_le (n m : nat) (s : string) :
  (String.length (substring n m s) <= m)%nat.
Proof.
  revert n m; induction s as [|a s IH]; intros [|n] [|m]; simpl; try lia.
  - specialize (IH 0%nat m). lia.
  - apply IH.
  - apply IH.
Qed.

Lemma split_first_without (c : ascii) (s : string) :
  Py.contains c (Py.split_first c s) = false.
Proof.
  induction s as [|a s IH]; simpl; [reflexivity|].
  destruct (Ascii.eqb a c) eqn:E; simpl; [reflexivity|]. now rewrite E.
Qed.

Lemma split_first_length (c : ascii) (s : string) :
  (String.length (Py.split_first c s) <= String.length s)%nat.
Proof.
  induction s as [|a s IH]; simpl; [lia|].
  destruct (Ascii.eqb a c); simpl; lia.
Qed.

Lemma format_stock_code_fixed (s : string) :
  (String.length s <= 6)%nat -> Py.contains "." s = false ->
  format_stock_code s = s.
Proof.
  intros Hl Hd. unfold format_stock_code.
  destruct (Nat.ltb_spec 6 (String.length s)); [lia|].
  now rewrite Hd.
Qed.

Lemma format_stock_code_shape (s : string) :
  Py.contains "." (format_stock_code s) = false
  /\ (String.length (format_stock_code s) <= 6)%nat.
Proof.
  unfold format_stock_code.
  set (s1 := if (6 <? String.length s)%nat then Py.last_chars 6 s else s).
  assert (H1 : (String.length s1 <= 6)%nat).
  { unfold s1. destruct (Nat.ltb_spec 6 (String.length s)); [|lia].
    apply substring_length_le. }
  destruct (Py.contains "." s1) eqn:E.
  - split; [apply split_first_without|].
    pose proof (split_first_length "." s1). lia.
  - now split.
Qed.

(** X1.  Whatever the input, [format_stock_code] returns a text without a
    dot, of at most six characters, and never longer than its input. *)
Theorem format_stock_code_never_dotted (symbol : string) :
  Py.contains "." (format_stock_code symbol) = false
  /\ (String.length (format_stock_code symbol) <= 6)%nat
  /\ (String.length (format_stock_code symbol) <= String.length symbol)%nat.
Proof.
  destruct (format_stock_code_shape symbol) as [H1 H2].
  split; [assumption|]. split; [assumption|].
  unfold format_stock_code.
  set (s1 := if (6 <? String.length symbol)%nat then Py.last_chars 6 symbol else symbol).
  assert (Hs : (String.length s1 <= String.length symbol)%nat).
  { unfold s1. destruct (Nat.ltb_spec 6 (String.length symbol)); [|lia].
    pose proof (substring_length_le (String.length symbol - 6) 6 symbol).
    unfold Py.last_chars. lia. }
  destruct (Py.contains "." s1); [|assumption].
  pose proof (split_first_length "." s1). lia.
Qed.

(** X2.  Formatting twice is formatting once. *)
Theorem format_stock_code_idempotent (symbol : string) :
  format_stock_code (format_stock_code symbol) = format_stock_code symbol.
Proof.
  destruct (format_stock_code_shape symbol) as [H1 H2].
  now apply format_stock_code_fixed.
Qed.

Lemma digits_without (c : ascii) (s : string) :
  Py.isdigit s = true -> Py.char_isdigit c = false -> Py.contains c s = false.
Proof.
  intros H Hc. destruct s as [|a s]; [reflexivity|].
  unfold Py.isdigit in H. now apply (all_chars_contains Py.char_isdigit).
Qed.

(** X3.  A code that [get_stock_market] accepts (six characters, all
    digits) is left as it is by [format_stock_code], so formatting first
    does not change the market found. *)
Theorem format_stock_code_keeps_valid_codes (symbol : string) :
  (String.length symbol =? 6)%nat && Py.isdigit symbol = true ->
  format_stock_code symbol = symbol
  /\ get_stock_market (format_stock_code symbol) = get_stock_market symbol.
Proof.
  intros H. apply andb_prop in H as [Hl Hd]. apply Nat.eqb_eq in Hl.
  assert (E : format_stock_code symbol = symbol).
  { apply format_stock_code_fixed; [lia|]. now apply digits_without. }
  now rewrite E.
Qed.

Lemma format_stock_code_keeps_valid_codes_witness :
  format_stock_code "300750" = "300750"
  /\ get_stock_market (format_stock_code "300750") = get_stock_market "300750".
Proof.
  apply (format_stock_code_keeps_valid_codes "300750"). reflexivity.
Defined.

Lemma substring_app_tail (p s : string) :
  substring (String.length p) (String.length s) (p +:+ s) = s.
Proof.
  induction p as [|a p IH]; simpl.
  - induction s as [|b s IHs]; simpl; [reflexivity|]. now rewrite IHs.
  - exact IH.
Qed.

Lemma string_length_app (p s : string) :
  String.length (p +:+ s) = (String.length p + String.length s)%nat.
Proof. induction p as [|a p IH]; simpl; [reflexivity|]. now rewrite IH. Qed.

(** X4.  Whatever is written in front of a six-character code without a
    dot (an exchange prefix such as SH or SZ) is removed: the code itself is
    returned. *)
Theorem format_stock_code_strips_prefix (prefix code : string) :
  String.length code = 6%nat -> Py.contains "." code = false ->
  format_stock_code (prefix +:+ code) = code.
Proof.
  intros Hl Hd. unfold format_stock_code. rewrite string_length_app, Hl.
  destruct (Nat.ltb_spec 6 (String.length prefix + 6)).
  - unfold Py.last_chars. rewrite string_length_app, Hl.
    replace (String.length prefix + 6 - 6)%nat with (String.length prefix) by lia.
    assert (E : substring (String.length prefix) 6 (prefix +:+ code) = code)
      by (rewrite <- Hl; apply substring_app_tail).
    rewrite E. now rewrite Hd.
  - destruct prefix as [|a p]; [|simpl in *; lia]. simpl. now rewrite Hd.
Qed.

Lemma format_stock_code_strips_prefix_witness :
  format_stock_code ("SH" +:+ "600519") = "600519".
Proof.
  apply (format_stock_code_strips_prefix "SH" "600519"); reflexivity.
Defined.

Ltac market_case :=
  simpl; repeat split; try discriminate; auto 6;
  intros [_ H]; repeat (destruct H as [H|H]; try discriminate H); discriminate H.

(** X5.  [get_stock_market] returns (rather than raises) exactly on the
    texts of six digits, and there the market is read off the first two
    characters alone: sh for 60 and 68, sz for 00 and 30, bj for 43, 83, 87
    and 88.  The entry 002 of the second list never decides anything. *)
Theorem get_stock_market_by_prefix (symbol : string) :
  is_ok (get_stock_market symbol)
  = (String.length symbol =? 6)%nat && Py.isdigit symbol
  /\ (get_stock_market symbol = Ok (Some "sh")
      <-> (String.length symbol =? 6)%nat && Py.isdigit symbol = true
          /\ (Py.first_chars 2 symbol = "60" \/ Py.first_chars 2 symbol = "68"))
  /\ (get_stock_market symbol = Ok (Some "sz")
      <-> (String.length symbol =? 6)%nat && Py.isdigit symbol = true
          /\ (Py.first_chars 2 symbol = "00" \/ Py.first_chars 2 symbol = "30"))
  /\ (get_stock_market symbol = Ok (Some "bj")
      <-> (String.length symbol =? 6)%nat && Py.isdigit symbol = true
          /\ (Py.first_chars 2 symbol = "43" \/ Py.first_chars 2 symbol = "83"
              \/ Py.first_chars 2 symbol = "87" \/ Py.first_chars 2 symbol = "88")).
Proof.
  unfold get_stock_market.
  set (valid := (String.length symbol =? 6)%nat && Py.isdigit symbol).
  set (prefix := Py.first_chars 2 symbol).
  destruct valid; simpl.
  2:{ repeat split; try discriminate; intros [H _]; discriminate H. }
  unfold Py.str_in; simpl.
  pose proof (first_chars_2_not_002 symbol) as H2. fold prefix in H2. rewrite H2.
  destruct (String.eqb_spec prefix "60") as [->|N60]; [market_case|].
  destruct (String.eqb_spec prefix "68") as [->|N68]; [market_case|].
  destruct (String.eqb_spec prefix "00") as [->|N00]; [market_case|].
  destruct (String.eqb_spec prefix "30") as [->|N30]; [market_case|].
  destruct (String.eqb_spec prefix "43") as [->|N43]; [market_case|].
  destruct (String.eqb_spec prefix "83") as [->|N83]; [market_case|].
  destruct (String.eqb_spec prefix "87") as [->|N87]; [market_case|].
  destruct (String.eqb_spec prefix "88") as [->|N88]; [market_case|].
  simpl. repeat split; try discriminate; intros [_ H];
    repeat (destruct H as [H|H]; try contradiction); contradiction.
Qed.

(** ** Dictionaries *)

Lemma dict_get_set_eq {V} (k : string) (v : V) (d : list (string * V)) :
  dict_get k (dict_set k v d) = Some v.
Proof.
  induction d as [|[k' v'] d IH]; simpl.
  - now rewrite String.eqb_refl.
  - destruct (String.eqb k k') eqn:E; simpl.
    + now rewrite String.eqb_refl.
    + now rewrite E.
Qed.

Lemma dict_get_set_ne {V} (k k' : string) (v : V) (d : list (string * V)) :
  String.eqb k k' = false -> dict_get k (dict_set k' v d) = dict_get k d.
Proof.
  intros N. induction d as [|[k0 v0] d IH]; simpl.
  - now rewrite N.
  - destruct (String.eqb k' k0) eqn:E; simpl.
    + apply String.eqb_eq in E. subst k0. now rewrite N.
    + now rewrite IH.
Qed.

Lemma Forall_dict_set {V} (P : V -> Prop) (k : string) (v : V)
    (d : list (string * V)) :
  Forall (fun kv => P (snd kv)) d -> P v ->
  Forall (fun kv => P (snd kv)) (dict_set k v d).
Proof.
  intros Hd Hv. induction Hd as [|[k0 v0] d H0 Hd IH]; simpl.
  - constructor; [assumption|constructor].
  - destruct (String.eqb k k0); constructor; assumption.
Qed.

Lemma dict_has_cons {V} (k : string) (d : list (string * V)) :
  dict_has k d = true -> exists kv t, d = kv :: t.
Proof. destruct d; [discriminate|eauto]. Qed.

(** ** The lookups of the holdings *)

Lemma probe_quarters_trace (L : pylib) (W : world) (code : string)
    (quarters : list string) :
  forall (i : nat) (avail : list quarter_data) (sent : list request),
  exists k : nat, (k <= 3 - i)%nat
    /\ snd (probe_quarters L W code i quarters avail sent)
       = sent ++ map (ReqInstituteHold code) (firstn k quarters)
    /\ forall data, fst (probe_quarters L W code i quarters avail sent) = Ok data ->
         (length data <= Nat.max 2 (length avail))%nat.
Proof.
  induction quarters as [|q rest IH]; intros i avail sent.
  - exists 0%nat. simpl. rewrite app_nil_r. split; [lia|]. split; [reflexivity|].
    intros data [= <-]. lia.
  - cbn [probe_quarters]. destruct (Nat.leb_spec 3 i) as [Hi|Hi].
    { exists 0%nat. simpl. rewrite app_nil_r. split; [lia|]. split; [reflexivity|].
      intros data [= <-]. lia. }
    destruct (Nat.ltb_spec 1 (length avail)) as [Ha|Ha].
    { exists 0%nat. simpl. rewrite app_nil_r. split; [lia|]. split; [reflexivity|].
      intros data [= <-]. lia. }
    unfold io_bind, fetch, io_lift.
    destruct (stock_institute_hold_detail W code q) as [df|e].
    + destruct (negb (frame_empty df)).
      * destruct (quarter_entry L q df) as [entry|e].
        -- destruct (IH (S i) (avail ++ [entry]) (sent ++ [ReqInstituteHold code q]))
             as (k & Hk & Ht & Hd).
           exists (S k). split; [lia|]. split.
           ++ rewrite Ht. simpl. now rewrite <- List.app_assoc.
           ++ intros data H. apply Hd in H. rewrite length_app in H. simpl in H. lia.
        -- exists 1%nat. simpl. split; [lia|]. split; [reflexivity|]. discriminate.
      * destruct (IH (S i) avail (sent ++ [ReqInstituteHold code q]))
          as (k & Hk & Ht & Hd).
        exists (S k). split; [lia|]. split.
        -- rewrite Ht. simpl. now rewrite <- List.app_assoc.
        -- exact Hd.
    + exists 1%nat. simpl. split; [lia|]. split; [reflexivity|]. discriminate.
Qed.

(** X6.  The loop over the quarters (lines 290-327) asks for at most three
    quarters, the first ones of the list in its order, and keeps at most two
    quarters with data. *)
Theorem probe_quarters_bounded (L : pylib) (W : world) (clean_code : string)
    (quarters : list string) (sent : list request) :
  exists k : nat, (k <= 3)%nat
    /\ snd (probe_quarters L W clean_code 0 quarters [] sent)
       = sent ++ map (ReqInstituteHold clean_code) (firstn k quarters)
    /\ forall available_data,
         fst (probe_quarters L W clean_code 0 quarters [] sent) = Ok available_data ->
         (length available_data <= 2)%nat.
Proof.
  destruct (probe_quarters_trace L W clean_code quarters 0 [] sent) as (k & Hk & Ht & Hd).
  exists k. split; [lia|]. split; [assumption|].
  intros data H. apply Hd in H. simpl in H. lia.
Qed.

Lemma institution_block_trace (L : pylib) (W : world) (code : string)
    (quarters : list string) (sent : list request) :
  exists d k, (k <= 3)%nat
    /\ institution_block L W code quarters sent
       = (Ok d, sent ++ map (ReqInstituteHold code) (firstn k quarters)).
Proof.
  destruct (probe_quarters_trace L W code quarters 0 [] sent) as (k & Hk & Ht & _).
  unfold institution_block, try_except, io_bind, io_ret.
  destruct (probe_quarters L W code 0 quarters [] sent) as [[data|e] t];
    simpl in Ht; subst t; eexists; exists k; (split; [lia|reflexivity]).
Qed.

Lemma firstn_In_le {A} (x : A) (k n : nat) (l : list A) :
  (k <= n)%nat -> In x (firstn k l) -> In x (firstn n l).
Proof.
  revert k n; induction l as [|a l IH]; intros [|k] [|n] Hle H; simpl in *;
    try contradiction; try lia.
  destruct H as [H|H]; [now left|]. right. apply (IH k); [lia|assumption].
Qed.

(** X7.  Whatever the date and the answers of the data source, the
    institutional section of one stock costs at most three requests, and the
    reports of quarters 2 and 1 of the previous year, the last two of the
    candidate list, are never asked for. *)
Theorem old_quarters_never_requested (L : pylib) (W : world) (clean_code : string) :
  (length (snd (institution_block L W clean_code
                  (quarters_to_try (current_year W) (current_month W)) []))
   <= 3)%nat
  /\ ~ In (ReqInstituteHold clean_code (quarter_id (current_year W - 1) "2"))
          (snd (institution_block L W clean_code
                  (quarters_to_try (current_year W) (current_month W)) []))
  /\ ~ In (ReqInstituteHold clean_code (quarter_id (current_year W - 1) "1"))
          (snd (institution_block L W clean_code
                  (quarters_to_try (current_year W) (current_month W)) [])).
Proof.
  destruct (institution_block_trace L W clean_code
              (quarters_to_try (current_year W) (current_month W)) [])
    as (d & k & Hk & E).
  rewrite E. simpl. clear E. split.
  { rewrite length_map, length_firstn. lia. }
  set (y := current_year W). set (m := current_month W).
  assert (H3 : forall q, In (ReqInstituteHold clean_code q)
                 (map (ReqInstituteHold clean_code) (firstn k (quarters_to_try y m))) ->
               In q (firstn 3 (quarters_to_try y m))).
  { intros q H. apply in_map_iff in H as (q' & [= ->] & H).
    now apply (firstn_In_le q k 3). }
  split; intros H; apply H3 in H; rewrite quarters_to_try_closed in H;
    unfold quarter_id in H;
    destruct (Z.leb_spec 10 m), (Z.leb_spec 8 m); try lia; simpl in H;
    repeat (destruct H as [H|H]; [quarter_ids_differ|]); exact H.
Qed.

(** X8.  When the lookup of the first quarter raises, the handler of line
    439 records the text of the exception under 错误 as the whole
    institutional section; the later quarters are not tried, and the block
    returns. *)
Theorem institution_lookup_failure_is_recorded (L : pylib) (W : world)
    (clean_code quarter : string) (rest : list string) (e : exn)
    (sent : list request) :
  stock_institute_hold_detail W clean_code quarter = Raise e ->
  institution_block L W clean_code (quarter :: rest) sent
  = (Ok [("错误", VStr (exn_str e))], sent ++ [ReqInstituteHold clean_code quarter]).
Proof.
  intros H. unfold institution_block, try_except, io_bind, io_ret. simpl.
  unfold io_bind, fetch. now rewrite H.
Qed.

Lemma institution_lookup_failure_is_recorded_witness :
  institution_block Ref.lib Example.w0 "600519" ["20253"; "20252"; "20251"] []
  = (Ok [("错误", VStr "remote end closed connection")],
     [] ++ [ReqInstituteHold "600519" "20253"]).
Proof.
  apply (institution_lookup_failure_is_recorded Ref.lib Example.w0 "600519" "20253"
           ["20252"; "20251"]
           (Exn "ConnectionError" "remote end closed connection") []).
  reflexivity.
Defined.

Lemma holder_block_trace (L : pylib) (W : world) (code : string) (sent : list request) :
  exists d, holder_block L W code sent = (Ok d, sent ++ [ReqStockHolder code]).
Proof.
  unfold holder_block, try_except, io_bind, fetch, io_lift, io_ret.
  destruct (stock_main_stock_holder W code) as [df|e]; [|eauto].
  destruct (holder_summary L df); eauto.
Qed.

(** X9.  The shareholder block (lines 443-545) always returns a section and
    sends exactly one request.  What the lookup or the processing of its
    answer raises is recorded under 错误; an empty table gives the status
    无股东持股数据. *)
Theorem holder_block_always_answers (L : pylib) (W : world) (clean_code : string)
    (sent : list request) :
  exists d,
    holder_block L W clean_code sent = (Ok d, sent ++ [ReqStockHolder clean_code])
    /\ (forall e, stock_main_stock_holder W clean_code = Raise e ->
          d = [("错误", VStr (exn_str e))])
    /\ (forall df e, stock_main_stock_holder W clean_code = Ok df ->
          holder_summary L df = Raise e -> d = [("错误", VStr (exn_str e))])
    /\ (forall df, stock_main_stock_holder W clean_code = Ok df ->
          frame_empty df = true -> d = [("状态", VStr "无股东持股数据")]).
Proof.
  unfold holder_block, try_except, io_bind, fetch, io_lift, io_ret.
  destruct (stock_main_stock_holder W clean_code) as [df|e].
  - destruct (holder_summary L df) as [d|e] eqn:Hs; eexists; (split; [reflexivity|]);
      repeat split; try discriminate.
    + intros df' e [= <-]. rewrite Hs. discriminate.
    + intros df' [= <-] He. unfold holder_summary in Hs. rewrite He in Hs.
      simpl in Hs. now injection Hs as <-.
    + intros df' e' [= <-]. rewrite Hs. now intros [= <-].
    + intros df' [= <-] He. unfold holder_summary in Hs. rewrite He in Hs.
      discriminate Hs.
  - eexists. split; [reflexivity|]. repeat split; try discriminate.
    now intros e' [= <-].
Qed.

(** ** The comparison of the shareholders *)

Lemma first_ratio_found (holder : string) (holders : list holder_row) :
  In holder (map hr_name holders) -> exists x, first_ratio holder holders = Ok x.
Proof.
  intros H. unfold first_ratio.
  destruct (List.filter (fun r => String.eqb (hr_name r) holder) holders) as [|r t] eqn:E.
  - exfalso. apply in_map_iff in H as (r & Hn & Hr).
    assert (Hin : In r (List.filter (fun r => String.eqb (hr_name r) holder) holders)).
    { apply filter_In. split; [assumption|]. now apply String.eqb_eq. }
    rewrite E in Hin. contradiction.
  - eauto.
Qed.

Lemma compare_holders_total (common : list string)
    (latest previous : list holder_row) :
  (forall n, In n common -> In n (map hr_name latest) /\ In n (map hr_name previous)) ->
  forall acc, exists r, compare_holders common latest previous acc = Ok r.
Proof.
  induction common as [|h rest IH]; intros Hc acc; simpl; [eauto|].
  destruct (Hc h (or_introl eq_refl)) as [Hl Hp].
  destruct (first_ratio_found h latest Hl) as [x ->].
  destruct (first_ratio_found h previous Hp) as [y ->]. simpl.
  destruct acc as [[i d] u]. apply IH. intros n Hn. apply Hc. now right.
Qed.

Lemma compare_holders_sum (common : list string)
    (latest previous : list holder_row) :
  forall i0 d0 u0 i d u,
  compare_holders common latest previous (i0, d0, u0) = Ok (i, d, u) ->
  i + d + u = i0 + d0 + u0 + Z.of_nat (length common)
  /\ i0 <= i /\ d0 <= d /\ u0 <= u.
Proof.
  induction common as [|h rest IH]; intros i0 d0 u0 i d u; simpl.
  - intros [= <- <- <-]. lia.
  - destruct (first_ratio h latest) as [x|e]; [|discriminate].
    destruct (first_ratio h previous) as [y|e]; [|discriminate]. simpl.
    destruct (PyNum.gt x y); [|destruct (PyNum.lt x y)];
      intros H; apply IH in H; lia.
Qed.

Lemma str_in_In (x : string) (l : list string) :
  Py.str_in x l = true <-> In x l.
Proof.
  unfold Py.str_in. rewrite existsb_exists. split.
  - intros (y & Hy & E). apply String.eqb_eq in E. now subst.
  - intros H. exists x. split; [assumption|apply String.eqb_refl].
Qed.

(** X10.  For the holders present at both dates, as lines 468-470 compute
    them, the loop of lines 477-490 never fails to find a ratio, and it puts
    each of them in exactly one of the three counters. *)
Theorem common_holders_are_compared (latest_holders previous_holders : list holder_row) :
  exists increased decreased unchanged,
    compare_holders
      (List.filter
         (fun n => Py.str_in n (Py.dict_fromkeys (map hr_name previous_holders)))
         (Py.dict_fromkeys (map hr_name latest_holders)))
      latest_holders previous_holders (0, 0, 0)
    = Ok (increased, decreased, unchanged)
    /\ increased + decreased + unchanged
       = Z.of_nat (length (List.filter
           (fun n => Py.str_in n (Py.dict_fromkeys (map hr_name previous_holders)))
           (Py.dict_fromkeys (map hr_name latest_holders))))
    /\ 0 <= increased /\ 0 <= decreased /\ 0 <= unchanged.
Proof.
  set (common := List.filter _ _).
  destruct (compare_holders_total common latest_holders previous_holders)
    with (acc := (0, 0, 0)) as [[[i d] u] E].
  - intros n H. apply filter_In in H as [H1 H2].
    apply (proj1 (dict_fromkeys_In _ _)) in H1.
    apply (proj1 (str_in_In _ _)) in H2.
    apply (proj1 (dict_fromkeys_In _ _)) in H2. split; assumption.
  - exists i, d, u. split; [assumption|].
    apply compare_holders_sum in E. lia.
Qed.

Lemma filter_partition_length {A} (p : A -> bool) (l : list A) :
  (length (List.filter p l) + length (List.filter (fun x => negb (p x)) l)
   = length l)%nat.
Proof.
  induction l as [|a l IH]; simpl; [reflexivity|].
  destruct (p a); simpl; lia.
Qed.

(** X11.  In a shareholder summary that reports the four counts, every
    distinct holder of the latest date is counted exactly once: as one who
    increased, decreased or kept the ratio, or as a new holder. *)
Theorem holder_summary_counts_each_holder_once (L : pylib) (df_holders : frame holder_row)
    (d : pydict) (increased decreased unchanged new_holders : Z) :
  holder_summary L df_holders = Ok d ->
  dict_get "增持股东数" d = Some (VInt increased) ->
  dict_get "减持股东数" d = Some (VInt decreased) ->
  dict_get "持股不变股东数" d = Some (VInt unchanged) ->
  dict_get "新增股东数" d = Some (VInt new_holders) ->
  exists d0,
    hd_error (latest_dates (map hr_date (rows df_holders))) = Some d0
    /\ increased + decreased + unchanged + new_holders
       = Z.of_nat (length (Py.dict_fromkeys (map hr_name
           (List.filter (fun r => (hr_date r =? d0)%Z) (rows df_holders))))).
Proof.
  unfold holder_summary.
  destruct (negb (frame_empty df_holders)); [|intros [= <-]; discriminate].
  destruct (require_columns ["截至日期"] df_holders); [|discriminate]. simpl.
  destruct (latest_dates (map hr_date (rows df_holders))) as [|d0 [|d1 t]].
  - intros [= <-]; discriminate.
  - destruct (if total_known _ _ then _ else _); [|discriminate]. simpl.
    intros [= <-]; discriminate.
  - destruct (require_columns ["股东名称"] df_holders); [|discriminate]. simpl.
    set (latest := List.filter (fun r => (hr_date r =? d0)%Z) (rows df_holders)).
    set (previous := List.filter (fun r => (hr_date r =? d1)%Z) (rows df_holders)).
    set (ln := Py.dict_fromkeys (map hr_name latest)).
    set (pn := Py.dict_fromkeys (map hr_name previous)).
    destruct (match List.filter (fun n => Py.str_in n pn) ln with
              | [] => Ok tt | _ => _ end); [|discriminate]. simpl.
    destruct (compare_holders _ latest previous (0, 0, 0)) as [[[i dd] u]|e] eqn:E;
      [|discriminate]. simpl.
    destruct (if total_known _ _ then _ else _); [|discriminate]. simpl.
    intros [= <-]. simpl. intros [= <-] [= <-] [= <-] [= <-].
    exists d0. split; [reflexivity|].
    apply compare_holders_sum in E.
    pose proof (filter_partition_length (fun n => Py.str_in n pn) ln) as P.
    unfold count_if. fold latest. fold ln. cbv beta in P. lia.
Qed.

Lemma holder_summary_counts_each_holder_once_witness :
  exists d0,
    hd_error (latest_dates (map hr_date (rows Example.df_holders))) = Some d0
    /\ 1 + 0 + 0 + 1
       = Z.of_nat (length (Py.dict_fromkeys (map hr_name
           (List.filter (fun r => (hr_date r =? d0)%Z) (rows Example.df_holders))))).
Proof.
  apply (holder_summary_counts_each_holder_once Ref.lib Example.df_holders
           Example.holders_summary);
    vm_compute; reflexivity.
Defined.

(** ** The statistics of the holdings *)

Lemma bump_total (k : string) (t t' : list (string * Z)) :
  bump k t = Ok t' ->
  map fst t' = map fst t /\ trend_total t' = trend_total t + 1.
Proof.
  unfold bump. destruct (dict_get k t) as [n|] eqn:E; [|discriminate].
  intros [= <-]. revert E. induction t as [|[k0 v0] t IH]; simpl; [discriminate|].
  destruct (String.eqb k k0) eqn:Ek.
  - intros [= ->]. apply String.eqb_eq in Ek. subst k0. simpl. split; [reflexivity|lia].
  - intros H. apply IH in H as [H1 H2]. simpl. rewrite H1, H2. split; [reflexivity|lia].
Qed.

Lemma count_trends_total (L : pylib) (key : string) (sections : list pydict) :
  forall t t', count_trends L key sections t = Ok t' ->
  map fst t' = map fst t
  /\ trend_total t' = trend_total t + Z.of_nat (length sections).
Proof.
  induction sections as [|s rest IH]; intros t t'; simpl.
  - intros [= <-]. split; [reflexivity|lia].
  - destruct (bump (trend_label L key s) t) as [t1|e] eqn:E; [|discriminate]. simpl.
    intros H. apply IH in H as [H1 H2]. apply bump_total in E as [E1 E2].
    rewrite H1, H2, E1, E2. split; [reflexivity|lia].
Qed.

(** X12.  When holdings were analysed for at least one stock, each of the
    two trend statistics keeps the four keys 增持, 减持, 持平 and 无数据, and
    its four counters add up to the number of stocks analysed. *)
Theorem trend_counters_add_up (L : pylib)
    (holding_info : list (string * stock_holding)) (hs : holding_stats) :
  holding_stats_of L holding_info = Ok hs ->
  holding_info <> [] ->
  exists inst_trends holder_trends,
    hs_inst_trends hs = Some inst_trends
    /\ hs_holder_trends hs = Some holder_trends
    /\ map fst inst_trends = ["增持"; "减持"; "持平"; "无数据"]
    /\ map fst holder_trends = ["增持"; "减持"; "持平"; "无数据"]
    /\ trend_total inst_trends = Z.of_nat (length holding_info)
    /\ trend_total holder_trends = Z.of_nat (length holding_info).
Proof.
  unfold holding_stats_of. destruct holding_info as [|kv rest]; [congruence|].
  set (hi := kv :: rest). intros H _.
  destruct (count_trends L "持股趋势" _ zero_trends) as [ti|e] eqn:Ei; [|discriminate].
  destruct (count_trends L "总体趋势" _ zero_trends) as [th|e] eqn:Eh; [|discriminate].
  simpl in H. injection H as <-. simpl.
  apply count_trends_total in Ei as [Ei1 Ei2]. apply count_trends_total in Eh as [Eh1 Eh2].
  rewrite length_map in Ei2, Eh2.
  exists ti, th. repeat split; try assumption.
Qed.

Lemma trend_counters_add_up_witness :
  exists inst_trends holder_trends,
    hs_inst_trends
      (HoldingStats "0/2" "1/2"
         (Some [("增持", 0); ("减持", 0); ("持平", 0); ("无数据", 2)])
         (Some [("增持", 1); ("减持", 0); ("持平", 0); ("无数据", 1)]))
    = Some inst_trends
    /\ hs_holder_trends
         (HoldingStats "0/2" "1/2"
            (Some [("增持", 0); ("减持", 0); ("持平", 0); ("无数据", 2)])
            (Some [("增持", 1); ("减持", 0); ("持平", 0); ("无数据", 1)]))
       = Some holder_trends
    /\ map fst inst_trends = ["增持"; "减持"; "持平"; "无数据"]
    /\ map fst holder_trends = ["增持"; "减持"; "持平"; "无数据"]
    /\ trend_total inst_trends = Z.of_nat (length Example.holding_info)
    /\ trend_total holder_trends = Z.of_nat (length Example.holding_info).
Proof.
  apply (trend_counters_add_up Ref.lib Example.holding_info).
  - vm_compute. reflexivity.
  - discriminate.
Defined.

Lemma trend_label_get (L : pylib) (key : string) (section : pydict) :
  trend_label L key section
  = match dict_get key section with
    | Some t => str_val L t
    | None => "无数据"
    end.
Proof. destruct section; reflexivity. Qed.

Lemma institution_summary_label (L : pylib) (available_data : list quarter_data) :
  In (trend_label L "持股趋势" (institution_summary L available_data)) trend_labels.
Proof.
  rewrite trend_label_get.
  destruct available_data as [|c [|p t]]; unfold institution_summary, add_main_types.
  - vm_compute. auto.
  - destruct (main_types_str _); rewrite ?dict_get_set_ne by reflexivity;
      vm_compute; auto.
  - destruct (main_types_str _); destruct (_ || _);
      rewrite ?dict_get_set_ne by reflexivity;
      cbn [dict_get]; cbv [str_val];
      destruct (PyNum.gt _ _); [| destruct (PyNum.lt _ _) | | destruct (PyNum.lt _ _)
                                | | destruct (PyNum.lt _ _) | | destruct (PyNum.lt _ _)];
      vm_compute; auto.
Qed.

Lemma holder_summary_label (L : pylib) (df_holders : frame holder_row) (d : pydict) :
  holder_summary L df_holders = Ok d ->
  In (trend_label L "总体趋势" d) trend_labels.
Proof.
  rewrite trend_label_get. unfold holder_summary.
  destruct (negb (frame_empty df_holders)); [|intros [= <-]; vm_compute; auto].
  destruct (require_columns ["截至日期"] df_holders); [|discriminate]. simpl.
  destruct (latest_dates (map hr_date (rows df_holders))) as [|d0 [|d1 t]].
  - intros [= <-]; vm_compute; auto.
  - destruct (if total_known _ _ then _ else _); [|discriminate]. simpl.
    intros [= <-]; vm_compute; auto.
  - destruct (require_columns ["股东名称"] df_holders); [|discriminate]. simpl.
    destruct (match List.filter _ _ with [] => Ok tt | _ => _ end); [|discriminate].
    simpl.
    destruct (compare_holders _ _ _ (0, 0, 0)) as [[[i dd] u]|e]; [|discriminate].
    simpl.
    destruct (if total_known _ _ then _ else _); [|discriminate]. simpl.
    intros [= <-]. cbn [dict_get]. cbv [str_val].
    destruct (dd <? i)%Z; [|destruct (i <? dd)%Z]; vm_compute; auto.
Qed.

Lemma institution_block_label (L : pylib) (W : world) (code : string)
    (quarters : list string) (sent sent' : list request) (d : pydict) :
  institution_block L W code quarters sent = (Ok d, sent') ->
  In (trend_label L "持股趋势" d) trend_labels.
Proof.
  unfold institution_block, try_except, io_bind, io_ret.
  destruct (probe_quarters L W code 0 quarters [] sent) as [[data|e] t].
  - intros [= <- _]. apply institution_summary_label.
  - intros [= <- _]. vm_compute. auto.
Qed.

Lemma holder_block_label (L : pylib) (W : world) (code : string)
    (sent sent' : list request) (d : pydict) :
  holder_block L W code sent = (Ok d, sent') ->
  In (trend_label L "总体趋势" d) trend_labels.
Proof.
  unfold holder_block, try_except, io_bind, fetch, io_lift, io_ret.
  destruct (stock_main_stock_holder W code) as [df|e].
  - destruct (holder_summary L df) as [d'|e] eqn:E.
    + intros [= <- _]. now apply (holder_summary_label L df).
    + intros [= <- _]. vm_compute. auto.
  - intros [= <- _]. vm_compute. auto.
Qed.

Lemma countable_error (L : pylib) (msg : string) : countable L (HoldingError msg).
Proof. split; vm_compute; auto. Qed.

(** The loop of lines 273-554 raises only what the call of line 274 raises,
    and every entry it leaves can be counted by the statistics. *)
Lemma holding_loop_inv (L : pylib) (W : world) (clean : string -> res string)
    (quarters : list string) (codes : list string) :
  forall holding_cache holding_info sent,
  (forall k h t, holding_cache !! k = Some (h, t) -> countable L h) ->
  Forall (fun kv => countable L (snd kv)) holding_info ->
  match holding_loop L W clean quarters codes holding_cache holding_info sent with
  | (Ok st, _) => Forall (fun kv => countable L (snd kv)) (snd st)
  | (Raise e, _) => exists code, In code codes /\ clean code = Raise e
  end.
Proof.
  induction codes as [|code rest IH]; intros hc hi sent Hc Hi.
  - simpl. assumption.
  - cbn [holding_loop]. unfold io_bind at 1, io_lift.
    destruct (clean code) as [cc|e] eqn:Ecl.
    2:{ exists code. split; [now left|assumption]. }
    assert (Hrest : forall hc' hi' sent',
      (forall k h t, hc' !! k = Some (h, t) -> countable L h) ->
      Forall (fun kv => countable L (snd kv)) hi' ->
      match holding_loop L W clean quarters rest hc' hi' sent' with
      | (Ok st, _) => Forall (fun kv => countable L (snd kv)) (snd st)
      | (Raise e, _) => exists code0, In code0 (code :: rest) /\ clean code0 = Raise e
      end).
    { intros hc' hi' sent' H1 H2. specialize (IH hc' hi' sent' H1 H2).
      destruct (holding_loop L W clean quarters rest hc' hi' sent') as [[st|e] t];
        [assumption|].
      destruct IH as (c0 & Hin & Hr). exists c0. split; [now right|assumption]. }
    destruct (cached_holding W hc ("holding_" +:+ cc)) as [h|] eqn:Ech.
    + apply Hrest; [assumption|]. apply Forall_dict_set; [assumption|].
      unfold cached_holding in Ech.
      destruct (hc !! ("holding_" +:+ cc)) as [[h' t']|] eqn:El; [|discriminate].
      destruct (PyNum.lt _ _); [|discriminate]. injection Ech as <-.
      now apply (Hc _ _ _ El).
    + unfold io_bind, try_except, io_ret.
      destruct (institution_block L W cc quarters sent) as [[inst|e] t1] eqn:Ei.
      * destruct (holder_block L W cc t1) as [[holders|e] t2] eqn:Eh.
        -- assert (Hh : countable L (Holding inst holders)).
           { split; simpl.
             - now apply (institution_block_label L W cc quarters sent t1).
             - now apply (holder_block_label L W cc t1 t2). }
           apply Hrest; simpl.
           ++ intros k h t. rewrite lookup_insert.
              destruct (decide _); [|exact (Hc k h t)].
              now intros [= <- _].
           ++ now apply Forall_dict_set.
        -- apply Hrest; simpl; [assumption|].
           apply Forall_dict_set; [assumption|apply countable_error].
      * apply Hrest; simpl; [assumption|].
        apply Forall_dict_set; [assumption|apply countable_error].
Qed.

Lemma bump_known (k : string) (t : list (string * Z)) :
  In k (map fst t) -> exists t', bump k t = Ok t'.
Proof.
  intros H. unfold bump.
  destruct (dict_get k t) as [n|] eqn:E; [eauto|]. exfalso.
  induction t as [|[k0 v0] t IH]; simpl in *; [assumption|].
  destruct (String.eqb_spec k k0) as [->|N]; [discriminate|].
  destruct H as [H|H]; [congruence|]. now apply IH.
Qed.

Lemma count_trends_known (L : pylib) (key : string) (sections : list pydict) :
  forall t, map fst t = trend_labels ->
  Forall (fun s => In (trend_label L key s) trend_labels) sections ->
  exists t', count_trends L key sections t = Ok t'.
Proof.
  induction sections as [|s rest IH]; intros t Ht Hs; simpl; [eauto|].
  inversion Hs as [|? ? H1 H2]; subst.
  destruct (bump_known (trend_label L key s) t) as [t1 E]; [now rewrite Ht|].
  rewrite E. simpl. apply IH; [|assumption].
  apply bump_total in E as [E _]. now rewrite E.
Qed.

Lemma holding_stats_of_countable (L : pylib)
    (holding_info : list (string * stock_holding)) :
  Forall (fun kv => countable L (snd kv)) holding_info ->
  exists hs, holding_stats_of L holding_info = Ok hs.
Proof.
  intros H. unfold holding_stats_of. destruct holding_info as [|kv rest]; [eauto|].
  set (hi := kv :: rest) in *.
  destruct (count_trends_known L "持股趋势" (map (fun kv => inst_of (snd kv)) hi)
              zero_trends) as [ti Ei]; [reflexivity| |].
  { apply Forall_map. revert H. apply List.Forall_impl. now intros a [Ha _]. }
  destruct (count_trends_known L "总体趋势" (map (fun kv => holders_of (snd kv)) hi)
              zero_trends) as [th Eh]; [reflexivity| |].
  { apply Forall_map. revert H. apply List.Forall_impl. now intros a [_ Ha]. }
  rewrite Ei, Eh. simpl. eauto.
Qed.

(** ** The columns the tables must have, and the join *)

Lemma require_columns_ok {R} (labels : list string) (df : frame R) :
  require_columns labels df = Ok tt
  <-> forallb (fun l => has_column l df) labels = true.
Proof.
  unfold require_columns, missing_columns.
  induction labels as [|l t IH]; simpl; [tauto|].
  destruct (has_column l df); simpl.
  - exact IH.
  - split; discriminate.
Qed.

Lemma require_columns_cases {R} (labels : list string) (df : frame R) :
  require_columns labels df = Ok tt
  \/ exists missing, require_columns labels df = Raise (key_error missing).
Proof.
  unfold require_columns. destruct (missing_columns labels df); eauto.
Qed.

Lemma str_in_rename_other (x : string) (cols : list string) :
  String.eqb x "今日排行榜-主力净占比" = false ->
  String.eqb x "主力净流入-净占比" = false ->
  Py.str_in x (rename_columns cols) = Py.str_in x cols.
Proof.
  intros N1 N2. unfold Py.str_in, rename_columns.
  induction cols as [|c t IH]; cbn [existsb map]; [reflexivity|]. rewrite IH. f_equal.
  destruct (String.eqb_spec c "今日排行榜-主力净占比") as [->|N]; [|reflexivity].
  now rewrite N1, N2.
Qed.

Lemma str_in_rename_target (cols : list string) :
  Py.str_in "主力净流入-净占比" (rename_columns cols)
  = Py.str_in "今日排行榜-主力净占比" cols || Py.str_in "主力净流入-净占比" cols.
Proof.
  unfold Py.str_in, rename_columns.
  induction cols as [|c t IH]; cbn [existsb map]; [reflexivity|]. rewrite IH.
  destruct (String.eqb_spec c "今日排行榜-主力净占比") as [->|N].
  - rewrite !String.eqb_refl. reflexivity.
  - assert (E : String.eqb "今日排行榜-主力净占比" c = false).
    { apply String.eqb_neq. congruence. }
    rewrite E. cbn [orb].
    destruct (String.eqb "主力净流入-净占比" c); cbn [orb];
      [now rewrite orb_true_r|reflexivity].
Qed.

Lemma str_in_count (x : string) (l : list string) :
  Py.str_in x l = (0 <? length (List.filter (String.eqb x) l))%nat.
Proof.
  unfold Py.str_in. induction l as [|y t IH]; cbn [existsb List.filter]; [reflexivity|].
  destruct (String.eqb x y); [reflexivity|exact IH].
Qed.

Lemma count_rename (cols : list string) :
  length (List.filter (String.eqb "主力净流入-净占比") (rename_columns cols))
  = (length (List.filter (String.eqb "今日排行榜-主力净占比") cols)
     + length (List.filter (String.eqb "主力净流入-净占比") cols))%nat.
Proof.
  unfold rename_columns.
  induction cols as [|c t IH]; cbn [List.filter map]; [reflexivity|].
  destruct (String.eqb_spec c "今日排行榜-主力净占比") as [->|N].
  - rewrite !String.eqb_refl.
    replace (String.eqb "主力净流入-净占比" "今日排行榜-主力净占比") with false
      by reflexivity.
    cbn [length]. rewrite IH. lia.
  - assert (E : String.eqb "今日排行榜-主力净占比" c = false).
    { apply String.eqb_neq. congruence. }
    rewrite E. destruct (String.eqb "主力净流入-净占比" c); cbn [length]; rewrite IH; lia.
Qed.

(** When step 4 gives rows: the three labels are there, the ratio once, and
    no 成交额 of the table's own. *)
Lemma process_main_fund_ok (df_main_fund : frame fund_row) (df_quote : frame quote_row) :
  has_column "成交额" df_quote = true ->
  (exists rows, process_main_fund df_main_fund df_quote = Ok rows)
  <-> has_column "代码" df_main_fund = true
      /\ has_column "名称" df_main_fund = true
      /\ ratio_columns df_main_fund = 1%nat
      /\ has_column "成交额" df_main_fund = false.
Proof.
  intros Q6. unfold process_main_fund.
  set (df := Frame (rename_columns (columns df_main_fund)) (rows df_main_fund)).
  assert (Hc : has_column "代码" df = has_column "代码" df_main_fund)
    by (apply str_in_rename_other; reflexivity).
  assert (Hn : has_column "名称" df = has_column "名称" df_main_fund)
    by (apply str_in_rename_other; reflexivity).
  assert (Ha : has_column "成交额" df = has_column "成交额" df_main_fund)
    by (apply str_in_rename_other; reflexivity).
  assert (Hk : label_count "主力净流入-净占比" df = ratio_columns df_main_fund)
    by apply count_rename.
  assert (Hp : has_column "主力净流入-净占比" df
               = (0 <? ratio_columns df_main_fund)%nat)
    by (rewrite <- Hk; apply str_in_count).
  pose proof (require_columns_ok ["代码"; "名称"; "主力净流入-净占比"] df) as Rm.
  cbn [forallb] in Rm. rewrite Hc, Hn, Hp in Rm. rewrite !andb_true_iff in Rm.
  rewrite Hp, Ha, Hk, Q6, andb_true_r.
  destruct (require_columns_cases ["代码"; "名称"; "主力净流入-净占比"] df)
    as [E|[m E]]; rewrite E; cbn [res_bind].
  - apply Rm in E as (E1 & E2 & E3 & _). rewrite E3.
    apply Nat.ltb_lt in E3.
    destruct (has_column "成交额" df_main_fund).
    + split; [intros [r H]; discriminate H | intros (_ & _ & _ & H); discriminate H].
    + destruct (Nat.ltb_spec 1 (ratio_columns df_main_fund)) as [Hd|Hd].
      * split; [intros [r H]; discriminate H | intros (_ & _ & H & _); lia].
      * split; [intros _; repeat split; auto; lia | eauto].
  - assert (N : ~ (has_column "代码" df_main_fund = true
                   /\ has_column "名称" df_main_fund = true
                   /\ (0 <? ratio_columns df_main_fund)%nat = true /\ true = true)).
    { intros H. apply Rm in H. rewrite E in H. discriminate H. }
    split.
    + intros [r H]. exfalso.
      destruct (0 <? ratio_columns df_main_fund)%nat; [|discriminate H].
      destruct (has_column "成交额" df_main_fund); [discriminate H|].
      destruct (1 <? ratio_columns df_main_fund)%nat; discriminate H.
    + intros (H1 & H2 & H3 & _). exfalso. apply N. repeat split; auto.
      apply Nat.ltb_lt. lia.
Qed.

Lemma reconcile_rows_need (df_main_fund : frame fund_row)
    (df_quote : frame quote_row) (merged : list merged_row) :
  reconcile df_main_fund df_quote = Ok (inr merged) ->
  forallb (fun l => has_column l df_main_fund) ["代码"; "名称"] = true
  /\ ratio_columns df_main_fund = 1%nat
  /\ has_column "成交额" df_main_fund = false
  /\ forallb (fun l => has_column l df_quote)
       ["代码"; "名称"; "最新价"; "涨跌幅"; "成交量"; "成交额"; "总市值"] = true.
Proof.
  unfold reconcile.
  pose proof (require_columns_ok
                ["代码"; "名称"; "最新价"; "涨跌幅"; "成交量"; "成交额"] df_quote) as Rq.
  pose proof (process_main_fund_ok df_main_fund df_quote) as Pm.
  cbn [forallb] in *. rewrite !andb_true_iff in *.
  intros H.
  destruct (has_column "代码" df_quote && has_column "总市值" df_quote) eqn:E1;
    [|discriminate].
  destruct (has_column "代码" df_main_fund) eqn:E2; [|discriminate].
  apply andb_prop in E1 as [E1 E3].
  destruct (process_main_fund df_main_fund df_quote) as [mp|e] eqn:Em; [|discriminate].
  unfold process_quote in H. cbn [res_bind] in H.
  destruct (require_columns_cases
              ["代码"; "名称"; "最新价"; "涨跌幅"; "成交量"; "成交额"] df_quote)
    as [Eq|[m Eq]]; rewrite Eq in H; [|discriminate].
  apply Rq in Eq. destruct Eq as (_ & Q2 & Q3 & Q4 & Q5 & Q6 & _).
  destruct (Pm Q6) as [Pm1 _]. destruct Pm1 as (_ & P2 & P3 & P4); [eauto|].
  tauto.
Qed.

Lemma reconcile_rows_given (df_main_fund : frame fund_row)
    (df_quote : frame quote_row) :
  forallb (fun l => has_column l df_main_fund) ["代码"; "名称"] = true ->
  ratio_columns df_main_fund = 1%nat ->
  has_column "成交额" df_main_fund = false ->
  forallb (fun l => has_column l df_quote)
    ["代码"; "名称"; "最新价"; "涨跌幅"; "成交量"; "成交额"; "总市值"] = true ->
  exists merged, reconcile df_main_fund df_quote = Ok (inr merged).
Proof.
  unfold reconcile.
  pose proof (require_columns_ok
                ["代码"; "名称"; "最新价"; "涨跌幅"; "成交量"; "成交额"] df_quote) as Rq.
  pose proof (process_main_fund_ok df_main_fund df_quote) as Pm.
  cbn [forallb] in *. rewrite !andb_true_iff in *.
  intros (H1 & H2 & _) H3 H4 (Q1 & Q2 & Q3 & Q4 & Q5 & Q6 & Q7 & _).
  destruct (Pm Q6) as [_ Pm2]. destruct Pm2 as [mp Em]; [tauto|].
  assert (Eq : require_columns
                 ["代码"; "名称"; "最新价"; "涨跌幅"; "成交量"; "成交额"] df_quote
               = Ok tt) by (apply Rq; tauto).
  rewrite Q1, Q7, H1, Em. unfold process_quote. rewrite Eq. simpl. eauto.
Qed.

(** X13.  Steps 3 to 7 produce joined rows exactly when the fund-flow table
    has the columns 代码 and 名称, exactly one column that is named
    今日排行榜-主力净占比 or 主力净流入-净占比, and no column 成交额 of its
    own, and the quote table has 代码, 名称, 最新价, 涨跌幅, 成交量, 成交额
    and 总市值.  In particular the branch of lines 156-161, taken when the
    ratio or 成交额 is missing, never leads to a result, and a fund-flow table
    that brings 成交额 or both names of the ratio makes step 4 raise. *)
Theorem reconcile_needs_these_columns (df_main_fund : frame fund_row)
    (df_quote : frame quote_row) :
  (exists merged, reconcile df_main_fund df_quote = Ok (inr merged))
  <-> forallb (fun l => has_column l df_main_fund) ["代码"; "名称"] = true
      /\ ratio_columns df_main_fund = 1%nat
      /\ has_column "成交额" df_main_fund = false
      /\ forallb (fun l => has_column l df_quote)
           ["代码"; "名称"; "最新价"; "涨跌幅"; "成交量"; "成交额"; "总市值"] = true.
Proof.
  split.
  - intros [merged H]. now apply (reconcile_rows_need df_main_fund df_quote merged).
  - intros (H1 & H2 & H3 & H4). now apply reconcile_rows_given.
Qed.

(** The two clashes of step 4 on the small market. *)
Example example_column_clashes :
  reconcile Example.df_main_fund_with_amount Example.df_quote
  = Raise (Exn "KeyError" "'成交额'")
  /\ is_ok (reconcile Example.df_main_fund_two_ratios Example.df_quote) = false
  /\ is_ok (reconcile Example.df_main_fund Example.df_quote) = true.
Proof. vm_compute. auto. Qed.

Lemma merge_inner_In {A B C} (on : A -> B -> bool) (mk : A -> B -> C)
    (left : list A) (right : list B) (c : C) :
  In c (merge_inner on mk left right)
  <-> exists a b, In a left /\ In b right /\ on a b = true /\ c = mk a b.
Proof.
  unfold merge_inner. rewrite in_flat_map. split.
  - intros (a & Ha & H). apply in_map_iff in H as (b & <- & Hb).
    apply filter_In in Hb as [Hb Hon]. eauto 8.
  - intros (a & b & Ha & Hb & Hon & ->). exists a. split; [assumption|].
    apply in_map_iff. exists b. split; [reflexivity|]. now apply filter_In.
Qed.

(** X14.  Every joined row comes from a row of the fund-flow table and rows
    of the quote table with the same code (and, for the quote figures, the
    same name): its ratio is the fund-flow row's, its net inflow is a quoted
    amount of that code times the ratio over 100 (never the 0 of lines
    160-161), its price, change, volume and amount are one quote row's, its
    market value a quote row's, and the three indicators of step 7 are
    computed from these. *)
Theorem merged_rows_come_from_both_tables (df_main_fund : frame fund_row)
    (df_quote : frame quote_row) (merged : list merged_row) (r : merged_row) :
  reconcile df_main_fund df_quote = Ok (inr merged) ->
  In r merged ->
  exists (f : fund_row) (a q i : quote_row),
    In f (rows df_main_fund) /\ In a (rows df_quote)
    /\ In q (rows df_quote) /\ In i (rows df_quote)
    /\ mf_code f = r_code r /\ q_code a = r_code r
    /\ q_code q = r_code r /\ q_code i = r_code r
    /\ mf_name f = r_name r /\ q_name q = r_name r
    /\ r_pct r = mf_pct f
    /\ r_net r = (q_amount a * mf_pct f / 100)%float
    /\ r_wan r = (r_net r / 10000)%float
    /\ r_price r = q_price q /\ r_chg r = q_chg q /\ r_volume r = q_volume q
    /\ r_amount r = q_amount q
    /\ r_amount_wan r = (q_amount q / 10000)%float
    /\ r_mktcap r = q_mktcap i
    /\ r_turnover r = (r_amount_wan r * 10000 / r_mktcap r * 100)%float
    /\ r_mf_ratio r = (PrimFloat.abs (r_wan r) / r_amount_wan r * 100)%float
    /\ r_direction r = (if PyNum.gt (r_wan r) 0%float then "流入" else "流出").
Proof.
  intros H Hr.
  pose proof (reconcile_rows_need _ _ _ H) as (_ & Hk & Ha & Hq).
  cbn [forallb] in Hq. rewrite !andb_true_iff in Hq.
  destruct Hq as (Q1 & _ & _ & _ & _ & Q6 & Q7 & _).
  revert H. unfold reconcile, process_main_fund, process_quote.
  rewrite Q1, Q7. cbn [andb].
  destruct (has_column "代码" df_main_fund); [|discriminate].
  set (df := Frame (rename_columns (columns df_main_fund)) (rows df_main_fund)).
  assert (Ha' : has_column "成交额" df = false).
  { etransitivity; [|exact Ha]. apply str_in_rename_other; reflexivity. }
  assert (Hk' : label_count "主力净流入-净占比" df = 1%nat).
  { etransitivity; [|exact Hk]. apply count_rename. }
  assert (Hp : has_column "主力净流入-净占比" df = true).
  { unfold has_column. rewrite str_in_count.
    change (length (List.filter (String.eqb "主力净流入-净占比") (columns df)))
      with (label_count "主力净流入-净占比" df).
    now rewrite Hk'. }
  rewrite Hp, Q6, Ha', Hk'. cbn [andb Nat.ltb Nat.leb].
  destruct (require_columns _ df) as [[]|e]; [|discriminate]. cbn [res_bind].
  destruct (require_columns _ df_quote) as [[]|e]; [|discriminate]. cbn [res_bind rows].
  intros [= <-]. unfold merged_df in Hr.
  apply merge_inner_In in Hr as ([m q] & i & Hj & Hi & Hon & ->).
  apply merge_inner_In in Hj as (m' & q' & Hm & Hq & Hon2 & [= -> ->]).
  apply in_map_iff in Hm as ([f amount] & <- & Hm).
  apply merge_inner_In in Hm as (f' & a & Hf & Ha0 & Hon3 & [= -> ->]).
  apply in_map_iff in Hq as (q0 & <- & Hq0).
  cbn [fst snd mp_code mp_name qp_code qp_name] in *.
  apply andb_prop in Hon2 as [Hc Hn].
  apply String.eqb_eq in Hon, Hc, Hn, Hon3.
  exists f', a, q0, i. cbn. repeat split; auto; congruence.
Qed.

Lemma merged_rows_come_from_both_tables_witness :
  exists (f : fund_row) (a q i : quote_row),
    In f (rows Example.df_main_fund) /\ In a (rows Example.df_quote)
    /\ In q (rows Example.df_quote) /\ In i (rows Example.df_quote)
    /\ mf_code f = r_code Example.first_passing
    /\ q_code a = r_code Example.first_passing
    /\ q_code q = r_code Example.first_passing
    /\ q_code i = r_code Example.first_passing
    /\ mf_name f = r_name Example.first_passing
    /\ q_name q = r_name Example.first_passing
    /\ r_pct Example.first_passing = mf_pct f
    /\ r_net Example.first_passing = (q_amount a * mf_pct f / 100)%float
    /\ r_wan Example.first_passing = (r_net Example.first_passing / 10000)%float
    /\ r_price Example.first_passing = q_price q
    /\ r_chg Example.first_passing = q_chg q
    /\ r_volume Example.first_passing = q_volume q
    /\ r_amount Example.first_passing = q_amount q
    /\ r_amount_wan Example.first_passing = (q_amount q / 10000)%float
    /\ r_mktcap Example.first_passing = q_mktcap i
    /\ r_turnover Example.first_passing
       = (r_amount_wan Example.first_passing * 10000
          / r_mktcap Example.first_passing * 100)%float
    /\ r_mf_ratio Example.first_passing
       = (PrimFloat.abs (r_wan Example.first_passing)
          / r_amount_wan Example.first_passing * 100)%float
    /\ r_direction Example.first_passing
       = (if PyNum.gt (r_wan Example.first_passing) 0%float then "流入" else "流出").
Proof.
  apply (merged_rows_come_from_both_tables Example.df_main_fund Example.df_quote
           Example.merged Example.first_passing).
  - vm_compute. reflexivity.
  - vm_compute. left. reflexivity.
Defined.

Lemma filter_unique_key {B} (key : B -> string) (x : string) (l : list B) :
  List.NoDup (map key l) ->
  (length (List.filter (fun b => String.eqb x (key b)) l) <= 1)%nat.
Proof.
  induction l as [|b t IH]; simpl; [lia|].
  intros H. apply List.NoDup_cons_iff in H as [Hb Ht].
  destruct (String.eqb_spec x (key b)) as [->|N]; [|now apply IH].
  destruct (List.filter (fun b0 => String.eqb (key b) (key b0)) t) as [|b' u] eqn:E;
    [simpl; lia|].
  exfalso. apply Hb.
  assert (Hin : In b' (List.filter (fun b0 => String.eqb (key b) (key b0)) t))
    by (rewrite E; now left).
  apply filter_In in Hin as [Hin Heq]. apply String.eqb_eq in Heq. rewrite Heq.
  now apply in_map.
Qed.

Lemma filter_length_weaker {B} (p q : B -> bool) (l : list B) :
  (forall b, p b = true -> q b = true) ->
  (length (List.filter p l) <= length (List.filter q l))%nat.
Proof.
  intros H. induction l as [|b t IH]; simpl; [lia|].
  destruct (p b) eqn:E.
  - rewrite (H b E). simpl. lia.
  - destruct (q b); simpl; lia.
Qed.

Lemma merge_inner_length_le {A B C} (on : A -> B -> bool) (mk : A -> B -> C)
    (left : list A) (right : list B) :
  (forall a, (length (List.filter (on a) right) <= 1)%nat) ->
  (length (merge_inner on mk left right) <= length left)%nat.
Proof.
  intros H. unfold merge_inner. induction left as [|a t IH]; simpl; [lia|].
  rewrite length_app, length_map. specialize (H a). lia.
Qed.

(** X15.  When no code occurs twice in the quote table, the three joins
    give at most one row for each row of the fund-flow table. *)
Theorem unique_quotes_give_one_row_per_stock (df_main_fund : frame fund_row)
    (df_quote : frame quote_row) (merged : list merged_row) :
  reconcile df_main_fund df_quote = Ok (inr merged) ->
  List.NoDup (map q_code (rows df_quote)) ->
  (length merged <= length (rows df_main_fund))%nat.
Proof.
  intros H Hu. revert H. unfold reconcile.
  destruct (_ && _); [|discriminate].
  destruct (has_column "代码" df_main_fund); [|discriminate].
  destruct (process_main_fund df_main_fund df_quote) as [mp|e] eqn:Em; [|discriminate].
  destruct (process_quote df_quote) as [qp|e] eqn:Eq; [|discriminate].
  cbn [res_bind]. intros [= <-].
  assert (Hmp : (length mp <= length (rows df_main_fund))%nat).
  { revert Em. unfold process_main_fund.
    destruct (_ && _).
    - destruct (has_column _ _); [discriminate|].
      destruct (_ <? _)%nat; [discriminate|].
      destruct (require_columns _ _); [|discriminate].
      cbn [res_bind rows]. intros [= <-]. rewrite length_map.
      apply merge_inner_length_le. intros x. now apply filter_unique_key.
    - destruct (require_columns _ _); [|discriminate].
      cbn [res_bind rows]. intros [= <-]. rewrite length_map. lia. }
  assert (Hqp : map qp_code qp = map q_code (rows df_quote)).
  { revert Eq. unfold process_quote.
    destruct (require_columns _ _); [|discriminate]. cbn [res_bind].
    intros [= <-]. rewrite map_map. reflexivity. }
  unfold merged_df.
  etransitivity; [apply merge_inner_length_le|].
  { intros x. now apply (filter_unique_key q_code). }
  etransitivity; [apply merge_inner_length_le|exact Hmp].
  intros x.
  etransitivity;
    [apply (filter_length_weaker _ (fun q => String.eqb (mp_code x) (qp_code q)))|].
  { intros b Hb. now apply andb_prop in Hb as [Hb _]. }
  apply filter_unique_key. now rewrite Hqp.
Qed.

Lemma unique_quotes_give_one_row_per_stock_witness :
  (length Example.merged <= length (rows Example.df_main_fund))%nat.
Proof.
  apply (unique_quotes_give_one_row_per_stock Example.df_main_fund Example.df_quote
           Example.merged).
  - vm_compute. reflexivity.
  - simpl.
    repeat (apply List.NoDup_cons;
            [ simpl; intros H; repeat (destruct H as [H|H]; [discriminate H|]);
              exact H | ]).
    apply List.NoDup_nil.
Defined.

(** ** The ranking and the cap *)

Lemma SFleb_trans (x y z : spec_float) :
  SFleb x y = true -> SFleb y z = true -> SFleb x z = true.
Proof.
  unfold SFleb, SFcompare.
  destruct x as [sx|sx| |sx mx ex], y as [sy|sy| |sy my ey], z as [sz|sz| |sz mz ez];
    try destruct sx; try destruct sy; try destruct sz;
    try discriminate; try reflexivity;
    change (Pos.compare_cont Eq) with Pos.compare;
    repeat match goal with
           | |- context [Z.compare ?a ?b] => destruct (Z.compare_spec a b)
           end;
    repeat match goal with
           | |- context [Pos.compare ?a ?b] => destruct (Pos.compare_spec a b)
           end;
    simpl; try discriminate; try reflexivity; intros; lia.
Qed.

Lemma ge_trans (a b c : float) :
  PyNum.ge a b = true -> PyNum.ge b c = true -> PyNum.ge a c = true.
Proof.
  unfold PyNum.ge. rewrite !FloatAxioms.leb_spec. intros H1 H2.
  now apply (SFleb_trans _ (Prim2SF b)).
Qed.

Lemma StronglySorted_app_lt {A} (R : A -> A -> Prop) (l1 l2 : list A) :
  StronglySorted R (l1 ++ l2) ->
  forall x y, In x l1 -> In y l2 -> R x y.
Proof.
  induction l1 as [|a l1 IH]; simpl; intros H x y Hx Hy; [contradiction|].
  inversion H as [|? ? Hs Hf]; subst. destruct Hx as [<-|Hx].
  - rewrite List.Forall_forall in Hf. apply Hf. apply in_or_app. now right.
  - now apply IH.
Qed.

(** X16.  The rows kept by the cap are the best ranked: a row that passes
    the filter and is not among the rows kept has a sort key no larger than
    that of any row kept. *)
Theorem kept_rows_outrank_dropped_rows (L : pylib) (HL : pylib_ok L) (c : criteria)
    (merged : list merged_row) (kept dropped : merged_row) :
  In kept (result_rows L c merged) ->
  In dropped (filtered_df c merged) ->
  ~ In dropped (result_rows L c merged) ->
  PyNum.ge (rank_key (sort_by c) kept) (rank_key (sort_by c) dropped) = true.
Proof.
  intros Hk Hd Hn. unfold result_rows in *.
  destruct (head_firstn (max_results c) (sorted_df L c merged)) as [k E].
  rewrite E in Hk, Hn.
  pose proof (sorted_df_descending L HL c merged) as Hs.
  apply Sorted_StronglySorted in Hs.
  2:{ intros x y z. apply ge_trans. }
  rewrite <- (firstn_skipn k (sorted_df L c merged)) in Hs.
  apply (StronglySorted_app_lt _ _ _ Hs); [assumption|].
  assert (Hin : In dropped (sorted_df L c merged)).
  { apply (Permutation_in dropped (Permutation_sym (sorted_df_perm L HL c merged))).
    assumption. }
  rewrite <- (firstn_skipn k (sorted_df L c merged)) in Hin.
  apply in_app_or in Hin as [Hin|Hin]; [contradiction|assumption].
Qed.

Lemma kept_rows_outrank_dropped_rows_witness :
  pylib_ok Ref.lib
  /\ PyNum.ge (rank_key (sort_by (with_max_results 1 Example.query))
                        Example.first_passing)
              (rank_key (sort_by (with_max_results 1 Example.query))
                        Example.second_passing) = true.
Proof.
  split; [exact ref_lib_ok|].
  apply (kept_rows_outrank_dropped_rows Ref.lib ref_lib_ok
           (with_max_results 1 Example.query) Example.merged).
  - vm_compute. left. reflexivity.
  - vm_compute. right. left. reflexivity.
  - vm_compute. intros [H|H]; [discriminate H|exact H].
Defined.

(** X17.  The number of rows kept, for every cap: the smaller of the cap
    and the number of rows that pass when the cap is not negative; for a
    negative cap, which is not rejected, all the passing rows but the last
    [-max_results] of the ranking. *)
Theorem result_count_for_any_cap (L : pylib) (HL : pylib_ok L) (c : criteria)
    (merged : list merged_row) :
  length (result_rows L c merged)
  = if (0 <=? max_results c)%Z
    then Nat.min (Z.to_nat (max_results c)) (length (filtered_df c merged))
    else (length (filtered_df c merged) - Z.to_nat (- max_results c))%nat.
Proof.
  unfold result_rows, head.
  pose proof (Permutation_length (sorted_df_perm L HL c merged)) as E.
  destruct (0 <=? max_results c)%Z; rewrite length_firstn, E; lia.
Qed.

Lemma result_count_for_any_cap_witness :
  pylib_ok Ref.lib
  /\ length (result_rows Ref.lib (with_max_results (-1) Example.query) Example.merged)
     = if (0 <=? max_results (with_max_results (-1) Example.query))%Z
       then Nat.min (Z.to_nat (max_results (with_max_results (-1) Example.query)))
                    (length (filtered_df (with_max_results (-1) Example.query)
                                         Example.merged))
       else (length (filtered_df (with_max_results (-1) Example.query) Example.merged)
             - Z.to_nat (- max_results (with_max_results (-1) Example.query)))%nat.
Proof.
  split; [exact ref_lib_ok|].
  apply (result_count_for_any_cap Ref.lib ref_lib_ok
           (with_max_results (-1) Example.query) Example.merged).
Defined.

(** ** The records of [data] *)

Lemma copy_key_keeps (k src dst : string) (info stock_data : pydict) :
  String.eqb k dst = false ->
  dict_get k (copy_key src dst info stock_data) = dict_get k stock_data.
Proof.
  intros N. unfold copy_key. destruct (dict_get src info); [|reflexivity].
  now apply dict_get_set_ne.
Qed.

Lemma add_institution_info_keeps (k : string) (inst_info stock_data : pydict) :
  String.eqb k "机构持股" = false ->
  String.eqb k "机构持股变化" = false ->
  String.eqb k "机构持股趋势" = false ->
  String.eqb k "机构持股比例" = false ->
  String.eqb k "机构数量" = false ->
  String.eqb k "主要机构类型" = false ->
  dict_get k (add_institution_info inst_info stock_data) = dict_get k stock_data.
Proof.
  intros N1 N2 N3 N4 N5 N6. unfold add_institution_info.
  destruct inst_info as [|kv t]; [now apply dict_get_set_ne|].
  destruct (dict_has "错误" (kv :: t)); [now apply dict_get_set_ne|].
  destruct (dict_get "状态" (kv :: t)); [now apply dict_get_set_ne|].
  rewrite !copy_key_keeps by assumption.
  destruct (dict_has "当前持股比例" (kv :: t)); rewrite copy_key_keeps by assumption;
    (destruct (dict_get "变化" (kv :: t)); [|reflexivity]);
    now rewrite !dict_get_set_ne by assumption.
Qed.

Lemma add_holder_info_keeps (L : pylib) (k : string) (holder_info stock_data : pydict) :
  String.eqb k "十大股东" = false ->
  String.eqb k "十大股东动向" = false ->
  String.eqb k "股东变动详情" = false ->
  dict_get k (add_holder_info L holder_info stock_data) = dict_get k stock_data.
Proof.
  intros N1 N2 N3. unfold add_holder_info.
  destruct holder_info as [|kv t]; [now apply dict_get_set_ne|].
  destruct (dict_has "错误" (kv :: t)); [now apply dict_get_set_ne|].
  destruct (dict_has "状态" (kv :: t)); [now apply dict_get_set_ne|].
  destruct (dict_get "总体趋势" (kv :: t)); [|now apply dict_get_set_ne].
  destruct (holder_details L (kv :: t)); now rewrite !dict_get_set_ne by assumption.
Qed.

(** X18.  Whatever the holdings found for a stock, its record keeps the ten
    fields of lines 560-571 with the values of its row: the holdings are
    only ever written under other keys. *)
Theorem record_keeps_its_ten_fields (L : pylib) (c : criteria)
    (holding_info : list (string * stock_holding)) (row : merged_row) :
  dict_get "代码" (stock_data_of L c holding_info row) = Some (VStr (r_code row))
  /\ dict_get "名称" (stock_data_of L c holding_info row) = Some (VStr (r_name row))
  /\ dict_get "最新价" (stock_data_of L c holding_info row) = Some (VFloat (r_price row))
  /\ dict_get "涨跌幅" (stock_data_of L c holding_info row)
     = Some (VStr (str_float L (r_chg row) +:+ "%"))
  /\ dict_get "主力资金" (stock_data_of L c holding_info row)
     = Some (VStr (str_float L (r_wan row) +:+ "万元"))
  /\ dict_get "资金流向" (stock_data_of L c holding_info row)
     = Some (VStr (r_direction row))
  /\ dict_get "主力资金占比" (stock_data_of L c holding_info row)
     = Some (VStr (str_float L (r_mf_ratio row) +:+ "%"))
  /\ dict_get "成交额" (stock_data_of L c holding_info row)
     = Some (VStr (str_float L (r_amount_wan row) +:+ "万元"))
  /\ dict_get "总市值" (stock_data_of L c holding_info row)
     = Some (VStr (fmt_2f L (r_mktcap row / 10000)%float +:+ "亿元"))
  /\ dict_get "交易量占比" (stock_data_of L c holding_info row)
     = Some (VStr (str_float L (r_turnover row) +:+ "%")).
Proof.
  unfold stock_data_of.
  destruct (analyze_holding c); [|repeat split; reflexivity].
  destruct (dict_get (r_code row) holding_info) as [h|]; [|repeat split; reflexivity].
  repeat split;
    (rewrite add_holder_info_keeps by reflexivity;
     rewrite add_institution_info_keeps by reflexivity; reflexivity).
Qed.

(** X19.  How a failure shows in the record of a stock: when the handler of
    line 553 caught an error for the whole stock, both 机构持股 and 十大股东
    read 未查询 (the text of the error is not shown); when a section holds
    an error of its own lookup, its field reads 查询失败. *)
Theorem lookup_failures_are_shown (L : pylib) (c : criteria)
    (holding_info : list (string * stock_holding)) (row : merged_row)
    (h : stock_holding) :
  analyze_holding c = true ->
  dict_get (r_code row) holding_info = Some h ->
  (forall msg, h = HoldingError msg ->
     dict_get "机构持股" (stock_data_of L c holding_info row) = Some (VStr "未查询")
     /\ dict_get "十大股东" (stock_data_of L c holding_info row) = Some (VStr "未查询"))
  /\ (forall inst holders, h = Holding inst holders ->
        dict_has "错误" inst = true ->
        dict_get "机构持股" (stock_data_of L c holding_info row)
        = Some (VStr "查询失败"))
  /\ (forall inst holders, h = Holding inst holders ->
        dict_has "错误" holders = true ->
        dict_get "十大股东" (stock_data_of L c holding_info row)
        = Some (VStr "查询失败")).
Proof.
  intros Ha Hh. unfold stock_data_of. rewrite Ha, Hh.
  split; [|split].
  - intros msg ->. cbn [inst_of holders_of add_institution_info add_holder_info].
    split; [|apply dict_get_set_eq].
    rewrite dict_get_set_ne by reflexivity. apply dict_get_set_eq.
  - intros inst holders -> He. cbn [inst_of holders_of].
    rewrite add_holder_info_keeps by reflexivity.
    destruct (dict_has_cons _ _ He) as (kv & t & ->).
    unfold add_institution_info. rewrite He. apply dict_get_set_eq.
  - intros inst holders -> He. cbn [inst_of holders_of].
    destruct (dict_has_cons _ _ He) as (kv & t & ->).
    unfold add_holder_info. rewrite He. apply dict_get_set_eq.
Qed.

Lemma lookup_failures_are_shown_witness :
  dict_get "机构持股"
    (stock_data_of Ref.lib Example.query_holding
       [("600519", Example.failed_lookups)] Example.second_passing)
  = Some (VStr "查询失败")
  /\ dict_get "十大股东"
       (stock_data_of Ref.lib Example.query_holding
          [("600519", Example.failed_lookups)] Example.second_passing)
     = Some (VStr "查询失败").
Proof.
  destruct (lookup_failures_are_shown Ref.lib Example.query_holding
              [("600519", Example.failed_lookups)] Example.second_passing
              Example.failed_lookups)
    as (_ & Hi & Hh); [reflexivity | vm_compute; reflexivity |].
  split; [eapply Hi | eapply Hh]; reflexivity.
Defined.

(** ** Where an exception can come from *)

(** X20.  Whatever the call of line 274 does, a call raises only a
    [ValueError] whose text is 大额资金流分析失败 followed by the text of its
    cause, and the cause is one of: what the fund-flow request raised, what
    the quote request raised, what steps 3 to 7 raised on the two tables that
    were fetched, or what the call of line 274 raised.  The filter, the
    ranking, the lookups of the holdings, the records and the statistics of
    step 13 never make the call fail. *)
Theorem errors_come_from_the_tables_or_line_274 (L : pylib)
    (clean : string -> res string) (W : world) (c : criteria)
    (request_cache : gmap string (payload * float)) (e : exn) :
  fst (fst (analyze_with L clean W c request_cache)) = Raise e ->
  exists cause,
    e = Exn "ValueError" ("大额资金流分析失败: " +:+ exn_str cause)
    /\ (stock_main_fund_flow W (stock_type c) = Raise cause
        \/ stock_zh_a_spot_em W = Raise cause
        \/ (exists df_main_fund df_quote,
              stock_main_fund_flow W (stock_type c) = Ok df_main_fund
              /\ stock_zh_a_spot_em W = Ok df_quote
              /\ reconcile df_main_fund df_quote = Raise cause)
        \/ (analyze_holding c = true
            /\ exists stock_code, clean stock_code = Raise cause)).
Proof.
  unfold analyze_with.
  destruct (cache_hit L W c request_cache); [discriminate|].
  destruct (screen_with L W clean ∅ c []) as [[[p|p]|cause] sent] eqn:Hs;
    simpl; try discriminate.
  intros [= <-]. exists cause. split; [reflexivity|].
  revert Hs. unfold screen_with, io_bind, fetch, io_lift, io_ret.
  destruct (stock_main_fund_flow W (stock_type c)) as [df_main|e1];
    [|intros [= -> _]; now left].
  destruct (frame_empty df_main); [discriminate|].
  destruct (stock_zh_a_spot_em W) as [df_quote|e2];
    [|intros [= -> _]; right; now left].
  destruct (frame_empty df_quote); [discriminate|].
  destruct (reconcile df_main df_quote) as [[p|merged]|e3] eqn:Er; [discriminate| |].
  2:{ intros [= -> _]. right; right; left. exists df_main, df_quote. auto. }
  destruct (analyze_holding c && negb (is_nil (result_df L c merged))) eqn:Eh.
  - unfold holding_analysis, io_bind, io_ret.
    pose proof (holding_loop_inv L W clean
      (quarters_to_try (current_year W) (current_month W))
      (Py.dict_fromkeys (map r_code (result_df L c merged))) ∅ []
      [ReqMainFundFlow (stock_type c); ReqSpot]) as Hl.
    simpl app.
    destruct (holding_loop _ _ _ _ _ _ _ _) as [[st|e4] t].
    + assert (Hst : Forall (fun kv => countable L (snd kv)) (snd st)).
      { apply Hl; [|constructor]. intros k h t'. rewrite lookup_empty. discriminate. }
      unfold build_result.
      destruct (holding_stats_of_countable L (snd st) Hst) as [hs Ehs].
      rewrite Ehs. destruct (analyze_holding c); simpl; discriminate.
    + intros [= -> _]. right; right; right.
      apply andb_prop in Eh as [Eh _]. split; [assumption|].
      destruct Hl as (code & _ & Hc); [|constructor|eauto].
      intros k h t'. rewrite lookup_empty. discriminate.
  - unfold build_result. simpl.
    destruct (analyze_holding c); simpl; discriminate.
Qed.

Lemma errors_come_from_the_tables_or_line_274_witness :
  exists cause,
    Exn "ValueError"
      "大额资金流分析失败: format_stock_code() got an unexpected keyword argument 'stock_code'"
    = Exn "ValueError" ("大额资金流分析失败: " +:+ exn_str cause)
    /\ (stock_main_fund_flow Example.w0 (stock_type Example.query_holding) = Raise cause
        \/ stock_zh_a_spot_em Example.w0 = Raise cause
        \/ (exists df_main_fund df_quote,
              stock_main_fund_flow Example.w0 (stock_type Example.query_holding)
              = Ok df_main_fund
              /\ stock_zh_a_spot_em Example.w0 = Ok df_quote
              /\ reconcile df_main_fund df_quote = Raise cause)
        \/ (analyze_holding Example.query_holding = true
            /\ exists stock_code, clean_code_of stock_code = Raise cause)).
Proof.
  apply (errors_come_from_the_tables_or_line_274 Ref.lib clean_code_of Example.w0
           Example.query_holding ∅).
  vm_compute. reflexivity.
Defined.

(** ** The result cache *)

(** X21.  Two calls share a cache key exactly when they agree on the
    argument [main_fund_inflow_threshold] as it reaches the body (both left
    out, or both passed with the same value), on the three other thresholds,
    on [stock_type], on [sort_by] and on [analyze_holding].  A call that
    leaves the inflow threshold out and a call that passes 5000 filter alike
    and still have different keys: the first prints 5000, the second the
    float. *)
Theorem cache_key_shared_iff (L : pylib) (HL : pylib_ok L) (c c' : criteria) :
  cache_key L c = cache_key L c'
  <-> main_fund_inflow_argument c = main_fund_inflow_argument c'
      /\ turnover_ratio_threshold c = turnover_ratio_threshold c'
      /\ price_change_threshold c = price_change_threshold c'
      /\ main_fund_ratio_threshold c = main_fund_ratio_threshold c'
      /\ stock_type c = stock_type c'
      /\ sort_by c = sort_by c'
      /\ analyze_holding c = analyze_holding c'.
Proof.
  split; [now apply cache_key_inj_argument|].
  intros (H1 & H2 & H3 & H4 & H5 & H6 & H7). unfold cache_key, main_fund_inflow_str.
  now rewrite H1, H2, H3, H4, H5, H6, H7.
Qed.

Lemma cache_key_shared_iff_witness :
  pylib_ok Ref.lib
  /\ main_fund_inflow_threshold Example.query
     = main_fund_inflow_threshold Example.query_passed
  /\ cache_key Ref.lib Example.query <> cache_key Ref.lib Example.query_passed
  /\ cache_key Ref.lib Example.query = cache_key Ref.lib (with_max_results 1 Example.query).
Proof.
  split; [exact ref_lib_ok|]. split; [reflexivity|]. split.
  - intros H.
    destruct (proj1 (cache_key_shared_iff Ref.lib ref_lib_ok Example.query
                       Example.query_passed) H) as [H1 _].
    cbv in H1. discriminate H1.
  - apply (cache_key_shared_iff Ref.lib ref_lib_ok Example.query
             (with_max_results 1 Example.query)).
    repeat split.
Defined.

(** X22.  A call changes no cache entry but the one under its own key, and
    removes none.  A call that raises, and a call that returns one of the
    message-only answers (empty table or unexpected columns), leaves the
    cache as it was: such answers are never stored. *)
Theorem call_changes_only_its_own_entry (L : pylib) (W : world) (c : criteria)
    (request_cache : gmap string (payload * float)) :
  (forall k, k <> cache_key L c ->
     snd (fst (analyze_large_fund_flow L W c request_cache)) !! k = request_cache !! k)
  /\ (forall k, is_Some (request_cache !! k) ->
        is_Some (snd (fst (analyze_large_fund_flow L W c request_cache)) !! k))
  /\ (forall e, fst (fst (analyze_large_fund_flow L W c request_cache)) = Raise e ->
        snd (fst (analyze_large_fund_flow L W c request_cache)) = request_cache)
  /\ (forall p, fst (fst (analyze_large_fund_flow L W c request_cache)) = Ok p ->
        message p <> "分析完成" ->
        snd (fst (analyze_large_fund_flow L W c request_cache)) = request_cache).
Proof.
  unfold analyze_large_fund_flow, analyze_with.
  destruct (cache_hit L W c request_cache) as [q|] eqn:Hh; simpl.
  { repeat split; auto. }
  destruct (screen_with L W clean_code_of ∅ c []) as [[[q|q]|e] sent] eqn:Hs; simpl;
    try (repeat split; auto; fail).
  apply screen_with_full in Hs as (Hm & _).
  split; [|split; [|split]].
  - intros k Hk. now rewrite lookup_insert_ne.
  - intros k Hk. destruct (decide (cache_key L c = k)) as [<-|N].
    + rewrite lookup_insert_eq. eauto.
    + now rewrite lookup_insert_ne.
  - discriminate.
  - intros p [= <-] N. contradiction.
Qed.

(** X23.  Every entry of the cache, at any point of a session, is a
    complete result: its message is 分析完成, its timestamp is the time
    stored beside it, its [total_matched] is the length of its [data], and it
    was stored by a call of the session under the key of that call, at the
    time of that call. *)
Theorem cached_payloads_are_complete (L : pylib) (calls : list (world * criteria))
    (k : string) (p : payload) (t : float) :
  session L calls ∅ !! k = Some (p, t) ->
  message p = "分析完成"
  /\ timestamp p = Some t
  /\ total_matched p = Some (Z.of_nat (length (data p)))
  /\ exists W c, In (W, c) calls /\ k = cache_key L c /\ t = now W.
Proof.
  apply (session_entries L (fun W c => In (W, c) calls) calls ∅); [auto|].
  intros k' p' t'. rewrite lookup_empty. discriminate.
Qed.

Lemma cached_payloads_are_complete_witness :
  message (Example.payload_of (Example.first_call Ref.lib Example.query)) = "分析完成"
  /\ timestamp (Example.payload_of (Example.first_call Ref.lib Example.query))
     = Some (now Example.w0)
  /\ total_matched (Example.payload_of (Example.first_call Ref.lib Example.query))
     = Some (Z.of_nat (length (data
         (Example.payload_of (Example.first_call Ref.lib Example.query)))))
  /\ exists W c, In (W, c) [(Example.w0, Example.query)]
       /\ cache_key Ref.lib Example.query = cache_key Ref.lib c
       /\ now Example.w0 = now W.
Proof.
  apply (cached_payloads_are_complete Ref.lib [(Example.w0, Example.query)]
           (cache_key Ref.lib Example.query)
           (Example.payload_of (Example.first_call Ref.lib Example.query))
           (now Example.w0)).
  vm_compute. reflexivity.
Defined.

(** X24.  What a call of a session returns is a message-only answer without
    a timestamp, or a result computed by this call and stamped with its
    time, or, only when [use_cache] is set, a stored result whose timestamp
    is less than [_cache_duration] (300 s) before the time of the call. *)
Theorem returned_payload_is_fresh (L : pylib) (calls : list (world * criteria))
    (W : world) (c : criteria) (p : payload) :
  fst (fst (analyze_large_fund_flow L W c (session L calls ∅))) = Ok p ->
  (message p <> "分析完成" /\ timestamp p = None)
  \/ (message p = "分析完成" /\ timestamp p = Some (now W))
  \/ (message p = "分析完成" /\ use_cache c = true
      /\ exists t, timestamp p = Some t
                   /\ PyNum.lt (now W - t)%float cache_duration = true).
Proof.
  unfold analyze_large_fund_flow, analyze_with.
  destruct (cache_hit L W c (session L calls ∅)) as [q|] eqn:Hh; simpl.
  - intros [= <-]. apply cache_hit_lookup in Hh as (Hu & t & Hl & Hf).
    apply (session_entries L (fun _ _ => True) calls ∅) in Hl;
      [|auto|intros k0 p0 t0; rewrite lookup_empty; discriminate].
    right; right. destruct Hl as (H1 & H2 & _). eauto.
  - destruct (screen_with L W clean_code_of ∅ c []) as [[[q|q]|e] sent] eqn:Hs; simpl;
      [| |discriminate]; intros [= <-].
    + left. now apply screen_with_early_message in Hs.
    + right; left. apply screen_with_full in Hs as (H1 & H2 & _). auto.
Qed.

Lemma returned_payload_is_fresh_witness :
  (message (Example.payload_of (Example.first_call Ref.lib Example.query)) <> "分析完成"
   /\ timestamp (Example.payload_of (Example.first_call Ref.lib Example.query)) = None)
  \/ (message (Example.payload_of (Example.first_call Ref.lib Example.query))
      = "分析完成"
      /\ timestamp (Example.payload_of (Example.first_call Ref.lib Example.query))
         = Some (now Example.w1))
  \/ (message (Example.payload_of (Example.first_call Ref.lib Example.query))
      = "分析完成"
      /\ use_cache Example.query = true
      /\ exists t,
           timestamp (Example.payload_of (Example.first_call Ref.lib Example.query))
           = Some t
           /\ PyNum.lt (now Example.w1 - t)%float cache_duration = true).
Proof.
  apply (returned_payload_is_fresh Ref.lib [(Example.w0, Example.query)]
           Example.w1 Example.query).
  vm_compute. reflexivity.
Defined.

(** X25.  [use_cache=False] skips the look-up only: a complete result of
    such a call is stored all the same, and the same query with
    [use_cache=True], made before the entry is 300 s old, is answered with
    it, without a request. *)
Theorem bypassing_call_still_stores (L : pylib) (W W' : world) (c : criteria)
    (request_cache : gmap string (payload * float)) (p : payload) :
  use_cache c = false ->
  fst (fst (analyze_large_fund_flow L W c request_cache)) = Ok p ->
  message p = "分析完成" ->
  PyNum.lt (now W' - now W)%float cache_duration = true ->
  analyze_large_fund_flow L W' (with_use_cache true c)
    (snd (fst (analyze_large_fund_flow L W c request_cache)))
  = (Ok p, snd (fst (analyze_large_fund_flow L W c request_cache)), []).
Proof.
  intros Hu Hr Hm Hf.
  assert (Hh : cache_hit L W c request_cache = None)
    by (unfold cache_hit; now rewrite Hu).
  unfold analyze_large_fund_flow in *.
  destruct (screen_with L W clean_code_of ∅ c []) as [[[q|q]|e] sent] eqn:Hs.
  - exfalso. unfold analyze_with in Hr. rewrite Hh, Hs in Hr. simpl in Hr.
    injection Hr as <-. apply screen_with_early_message in Hs as [Hs _]. contradiction.
  - destruct (full_call_stores L clean_code_of W c request_cache q sent Hh Hs) as [E _].
    rewrite E in *. simpl in Hr. injection Hr as <-. simpl.
    apply (answered_from_cache L clean_code_of W' (with_use_cache true c) _ q (now W));
      [reflexivity| |assumption].
    change (cache_key L (with_use_cache true c)) with (cache_key L c).
    apply lookup_insert_eq.
  - unfold analyze_with in Hr. rewrite Hh, Hs in Hr. discriminate.
Qed.

Lemma bypassing_call_still_stores_witness :
  analyze_large_fund_flow Ref.lib Example.w1 (with_use_cache true Example.query_fresh)
    (snd (fst (analyze_large_fund_flow Ref.lib Example.w0 Example.query_fresh ∅)))
  = (Ok (Example.payload_of (Example.first_call Ref.lib Example.query_fresh)),
     snd (fst (analyze_large_fund_flow Ref.lib Example.w0 Example.query_fresh ∅)), []).
Proof.
  apply (bypassing_call_still_stores Ref.lib Example.w0 Example.w1 Example.query_fresh ∅
           (Example.payload_of (Example.first_call Ref.lib Example.query_fresh)));
    vm_compute; reflexivity.
Defined.

(** ** The requests of a call *)

Lemma holding_loop_requests (L : pylib) (W : world) (clean : string -> res string)
    (quarters : list string) (codes : list string) :
  forall holding_cache holding_info sent,
  exists more,
    snd (holding_loop L W clean quarters codes holding_cache holding_info sent)
    = sent ++ more
    /\ forallb holdings_request more = true
    /\ (length more <= 4 * length codes)%nat.
Proof.
  induction codes as [|code rest IH]; intros hc hi sent.
  - exists []. simpl. rewrite app_nil_r. auto.
  - cbn [holding_loop]. unfold io_bind at 1, io_lift.
    destruct (clean code) as [cc|e].
    2:{ exists []. simpl. rewrite app_nil_r. split; [reflexivity|].
        split; [reflexivity|lia]. }
    destruct (cached_holding W hc ("holding_" +:+ cc)) as [h|].
    + destruct (IH hc (dict_set code h hi) sent) as (more & E & F & B).
      exists more. split; [assumption|]. split; [assumption|]. simpl length. lia.
    + unfold io_bind, try_except, io_ret.
      destruct (institution_block_trace L W cc quarters sent) as (inst & k & Hk & ->).
      destruct (holder_block_trace L W cc
                  (sent ++ map (ReqInstituteHold cc) (firstn k quarters))) as (hd & ->).
      simpl fst. simpl snd.
      match goal with
      | |- context [holding_loop L W clean quarters rest ?a ?b ?s] =>
          destruct (IH a b s) as (more & E & F & B)
      end.
      exists (map (ReqInstituteHold cc) (firstn k quarters)
              ++ [ReqStockHolder cc] ++ more).
      split; [|split].
      * rewrite E. now rewrite <- !List.app_assoc.
      * rewrite !forallb_app, F. simpl. rewrite andb_true_r.
        apply forallb_forall. intros x Hx. apply in_map_iff in Hx as (q & <- & _).
        reflexivity.
      * rewrite !length_app, length_map, length_firstn. simpl length. lia.
Qed.

Lemma dict_fromkeys_length (l : list string) :
  (length (Py.dict_fromkeys l) <= length l)%nat.
Proof.
  induction l as [|x t IH]; simpl; [lia|].
  pose proof (filter_length_le (fun y => negb (String.eqb x y)) (Py.dict_fromkeys t)).
  lia.
Qed.

(** The requests of the body of the [try]: the fund-flow table, then the
    quotes, then the lookups of the holdings. *)
Lemma screen_with_requests (L : pylib) (W : world) (clean : string -> res string)
    (holding_cache : gmap string (stock_holding * float)) (c : criteria)
    (sent : list request) :
  exists (k : nat) (more : list request),
    (1 <= k <= 2)%nat
    /\ snd (screen_with L W clean holding_cache c sent)
       = sent ++ firstn k [ReqMainFundFlow (stock_type c); ReqSpot] ++ more
    /\ forallb holdings_request more = true
    /\ (analyze_holding c = false -> more = [])
    /\ (0 <= max_results c ->
        (length more <= 4 * Z.to_nat (max_results c))%nat)
    /\ (clean = clean_code_of -> more = [])
    /\ (k = 1%nat -> more = []).
Proof.
  unfold screen_with, io_bind, fetch, io_ret, io_lift.
  assert (T1 : exists (k : nat) (more : list request),
    (1 <= k <= 2)%nat
    /\ sent ++ [ReqMainFundFlow (stock_type c)]
       = sent ++ firstn k [ReqMainFundFlow (stock_type c); ReqSpot] ++ more
    /\ forallb holdings_request more = true
    /\ (analyze_holding c = false -> more = [])
    /\ (0 <= max_results c -> (length more <= 4 * Z.to_nat (max_results c))%nat)
    /\ (clean = clean_code_of -> more = [])
    /\ (k = 1%nat -> more = [])).
  { exists 1%nat, []. simpl. repeat split; auto; lia. }
  assert (T2 : exists (k : nat) (more : list request),
    (1 <= k <= 2)%nat
    /\ (sent ++ [ReqMainFundFlow (stock_type c)]) ++ [ReqSpot]
       = sent ++ firstn k [ReqMainFundFlow (stock_type c); ReqSpot] ++ more
    /\ forallb holdings_request more = true
    /\ (analyze_holding c = false -> more = [])
    /\ (0 <= max_results c -> (length more <= 4 * Z.to_nat (max_results c))%nat)
    /\ (clean = clean_code_of -> more = [])
    /\ (k = 1%nat -> more = [])).
  { exists 2%nat, []. simpl. rewrite <- List.app_assoc. repeat split; auto; lia. }
  destruct (stock_main_fund_flow W (stock_type c)) as [df_main_fund|e]; [|exact T1].
  destruct (frame_empty df_main_fund); [exact T1|].
  destruct (stock_zh_a_spot_em W) as [df_quote|e]; [|exact T2].
  destruct (frame_empty df_quote); [exact T2|].
  destruct (reconcile df_main_fund df_quote) as [[q|merged]|e]; [exact T2| |exact T2].
  destruct (analyze_holding c && negb (is_nil (result_df L c merged))) eqn:Eh.
  2:{ simpl. destruct (build_result L W c [] (result_df L c merged)); exact T2. }
  unfold holding_analysis, io_bind, io_ret.
  destruct (holding_loop_requests L W clean
              (quarters_to_try (current_year W) (current_month W))
              (Py.dict_fromkeys (map r_code (result_df L c merged)))
              holding_cache []
              ((sent ++ [ReqMainFundFlow (stock_type c)]) ++ [ReqSpot]))
    as (more & E & F & B).
  assert (T3 : exists (k : nat) (more0 : list request),
    (1 <= k <= 2)%nat
    /\ ((sent ++ [ReqMainFundFlow (stock_type c)]) ++ [ReqSpot]) ++ more
       = sent ++ firstn k [ReqMainFundFlow (stock_type c); ReqSpot] ++ more0
    /\ forallb holdings_request more0 = true
    /\ (analyze_holding c = false -> more0 = [])
    /\ (0 <= max_results c -> (length more0 <= 4 * Z.to_nat (max_results c))%nat)
    /\ (clean = clean_code_of -> more0 = [])
    /\ (k = 1%nat -> more0 = [])).
  { exists 2%nat, more. split; [lia|]. split; [simpl; now rewrite <- !List.app_assoc|].
    split; [assumption|]. apply andb_prop in Eh as [Ea En]. split; [congruence|].
    split; [|split; [|discriminate]].
    - intros Hn. pose proof (dict_fromkeys_length (map r_code (result_df L c merged))) as D.
      rewrite length_map in D.
      assert (R : (length (result_df L c merged) <= Z.to_nat (max_results c))%nat).
      { unfold result_df, result_rows. rewrite length_map, head_length by assumption.
        lia. }
      lia.
    - intros ->. destruct (result_df L c merged) as [|row result] eqn:Er; [discriminate|].
      assert (E' := holding_loop_raises L W
                (quarters_to_try (current_year W) (current_month W))
                (r_code row)
                (List.filter (fun y => negb (String.eqb (r_code row) y))
                   (Py.dict_fromkeys (map r_code result)))
                holding_cache []
                ((sent ++ [ReqMainFundFlow (stock_type c)]) ++ [ReqSpot])).
      change (Py.dict_fromkeys (map r_code (row :: result)))
        with (r_code row :: List.filter (fun y => negb (String.eqb (r_code row) y))
                              (Py.dict_fromkeys (map r_code result))) in E.
      rewrite E' in E. cbn [snd] in E.
      rewrite <- (app_nil_r ((sent ++ [ReqMainFundFlow (stock_type c)]) ++ [ReqSpot]))
        in E at 1.
      apply app_inv_head in E. now symmetry. }
  destruct (holding_loop _ _ _ _ _ _ _ _) as [[st|e] t]; simpl in E; subst t.
  - destruct (build_result L W c (snd st) (result_df L c merged)); exact T3.
  - exact T3.
Qed.

Lemma analyze_with_requests (L : pylib) (clean : string -> res string) (W : world)
    (c : criteria) (request_cache : gmap string (payload * float)) :
  snd (analyze_with L clean W c request_cache)
  = match cache_hit L W c request_cache with
    | Some _ => []
    | None => snd (screen_with L W clean ∅ c [])
    end.
Proof.
  unfold analyze_with. destruct (cache_hit L W c request_cache); [reflexivity|].
  destruct (screen_with L W clean ∅ c []) as [[[q|q]|e] sent]; reflexivity.
Qed.

(** X26.  A call sends no request exactly when [use_cache] is set and the
    cache holds, under the key of the call, an entry less than 300 s old; in
    every other case (no entry, an entry of 300 s or more, [use_cache=False])
    the data source is asked again. *)
Theorem no_request_iff_cache_hit (L : pylib) (W : world) (c : criteria)
    (request_cache : gmap string (payload * float)) :
  snd (analyze_large_fund_flow L W c request_cache) = []
  <-> use_cache c = true
      /\ exists p t, request_cache !! cache_key L c = Some (p, t)
                     /\ PyNum.lt (now W - t)%float cache_duration = true.
Proof.
  unfold analyze_large_fund_flow. rewrite analyze_with_requests. split.
  - destruct (cache_hit L W c request_cache) as [p|] eqn:Hh.
    + intros _. apply cache_hit_lookup in Hh as (Hu & t & Hl & Hf). eauto.
    + destruct (screen_with_requests L W clean_code_of ∅ c [])
        as (k & more & Hk & E & _).
      rewrite E. destruct k as [|[|k]]; [lia| |]; discriminate.
  - intros (Hu & p & t & Hl & Hf). unfold cache_hit. now rewrite Hu, Hl, Hf.
Qed.

(** X27.  The tool as it stands asks the data source for the fund-flow
    table and the quotes at most, in this order; it never sends a request
    for institutional holdings or shareholders, whatever its arguments. *)
Theorem tool_requests_only_the_two_tables (L : pylib) (W : world) (c : criteria)
    (request_cache : gmap string (payload * float)) :
  snd (analyze_large_fund_flow L W c request_cache) = []
  \/ snd (analyze_large_fund_flow L W c request_cache)
     = [ReqMainFundFlow (stock_type c)]
  \/ snd (analyze_large_fund_flow L W c request_cache)
     = [ReqMainFundFlow (stock_type c); ReqSpot].
Proof.
  unfold analyze_large_fund_flow. rewrite analyze_with_requests.
  destruct (cache_hit L W c request_cache); [now left|].
  destruct (screen_with_requests L W clean_code_of ∅ c [])
    as (k & more & Hk & E & _ & _ & _ & Hm & _).
  rewrite E, (Hm eq_refl). destruct k as [|[|[|k]]]; [lia| | |lia]; simpl; auto.
Qed.

(** X28.  Whatever the call of line 274 does, the requests of a call follow
    the steps: none (a cache hit), or the fund-flow table alone, or the
    fund-flow table, the quotes and then only lookups of holdings, of which
    there are none when [analyze_holding] is off. *)
Theorem requests_follow_the_steps (L : pylib) (clean : string -> res string)
    (W : world) (c : criteria) (request_cache : gmap string (payload * float)) :
  exists more,
    (snd (analyze_with L clean W c request_cache) = []
     \/ snd (analyze_with L clean W c request_cache) = [ReqMainFundFlow (stock_type c)]
     \/ snd (analyze_with L clean W c request_cache)
        = ReqMainFundFlow (stock_type c) :: ReqSpot :: more)
    /\ forallb holdings_request more = true
    /\ (analyze_holding c = false -> more = []).
Proof.
  rewrite analyze_with_requests.
  destruct (cache_hit L W c request_cache); [exists []; auto|].
  destruct (screen_with_requests L W clean ∅ c [])
    as (k & more & Hk & E & F & Hm & _ & _ & H1).
  rewrite E. destruct k as [|[|[|k]]]; [lia| | |lia]; simpl.
  - rewrite (H1 eq_refl). exists []. auto.
  - exists more. auto.
Qed.

(** X29.  With a cap that is not negative, and whatever the call of line
    274 does, a call sends at most two requests for the tables and four for
    each record it may return: at most [2 + 4 * max_results] in all. *)
Theorem requests_bounded_by_cap (L : pylib) (clean : string -> res string)
    (W : world) (c : criteria) (request_cache : gmap string (payload * float)) :
  0 <= max_results c ->
  (length (snd (analyze_with L clean W c request_cache))
   <= 2 + 4 * Z.to_nat (max_results c))%nat.
Proof.
  intros Hn. rewrite analyze_with_requests.
  destruct (cache_hit L W c request_cache); [simpl; lia|].
  destruct (screen_with_requests L W clean ∅ c [])
    as (k & more & Hk & E & _ & _ & B & _).
  rewrite E. simpl. rewrite length_app, length_firstn. simpl length.
  specialize (B Hn). lia.
Qed.

Lemma requests_bounded_by_cap_witness :
  (length (snd (analyze_with Ref.lib clean_code_repaired Example.w0
                  Example.query_holding_fresh ∅))
   <= 2 + 4 * Z.to_nat (max_results Example.query_holding_fresh))%nat.
Proof.
  apply (requests_bounded_by_cap Ref.lib clean_code_repaired Example.w0
           Example.query_holding_fresh ∅).
  vm_compute. discriminate.
Defined.

(** ** The ranking *)

(** X30.  In every session, whatever a call returns, the records of [data]
    show rows in rank order: by absolute net inflow, largest first, when
    [sort_by] is ["main_fund"], and by turnover ratio, largest first, when it
    is ["turnover_ratio"]. *)
Theorem data_ranked_descending (L : pylib) (HL : pylib_ok L)
    (calls : list (world * criteria)) (W : world) (c : criteria) (p : payload) :
  fst (fst (analyze_large_fund_flow L W c (session L calls ∅))) = Ok p ->
  exists result : list merged_row,
    Forall2 (shows L) (data p) result
    /\ (sort_by c = main_fund ->
        Sorted (fun a b => PyNum.ge (PrimFloat.abs (r_wan a))
                                    (PrimFloat.abs (r_wan b)) = true) result)
    /\ (sort_by c = turnover_ratio ->
        Sorted (fun a b => PyNum.ge (r_turnover a) (r_turnover b) = true) result).
Proof.
  intros H. apply (session_answers L HL) in H as (result & Hshow & _ & Hdesc & _).
  exists result. split; [assumption|].
  unfold descending in Hdesc.
  split; intros Hk; rewrite Hk in Hdesc; exact Hdesc.
Qed.

Lemma data_ranked_descending_witness :
  pylib_ok Ref.lib
  /\ fst (fst (analyze_large_fund_flow Ref.lib Example.w0 Example.query_by_turnover
                 (session Ref.lib [] ∅)))
     = Ok (Example.payload_of (Example.first_call Ref.lib Example.query_by_turnover))
  /\ Example.codes
       (Example.payload_of (Example.first_call Ref.lib Example.query_by_turnover))
     = [Some (VStr "600519"); Some (VStr "000001")]
  /\ map r_turnover (filtered_df Example.query_by_turnover Example.merged)
     = [10%float; 20%float]
  /\ exists result : list merged_row,
       Forall2 (shows Ref.lib)
         (data (Example.payload_of
                  (Example.first_call Ref.lib Example.query_by_turnover)))
         result
       /\ Sorted (fun a b => PyNum.ge (r_turnover a) (r_turnover b) = true) result.
Proof.
  split; [exact ref_lib_ok|].
  split; [vm_compute; reflexivity|].
  split; [vm_compute; reflexivity|].
  split; [vm_compute; reflexivity|].
  destruct (data_ranked_descending Ref.lib ref_lib_ok []
              Example.w0 Example.query_by_turnover
              (Example.payload_of (Example.first_call Ref.lib Example.query_by_turnover)))
    as (result & Hshow & _ & Hturn).
  - vm_compute. reflexivity.
  - exists result. split; [exact Hshow|]. apply Hturn. reflexivity.
Defined.
